(** * ICT dashboard: the analytical pipeline of [index.tsx]

    A shallow embedding of the pure functions of [index.tsx]
    ([getSession], [determinePO3], [detectStructure], [detectFVG],
    [detectOrderBlocks], [detectEntries], [performBacktest] and the
    [dailyStats] rollup) together with the properties of the pipeline.

    Numbers.  A JavaScript [number] holding a price is modelled by an exact
    rational ([Q]): every finite double is a rational, so the comparisons
    of the source are modelled exactly; the rounding of [+], [*] and [/]
    is abstracted.  The one place where the source produces [NaN]
    ([0 / 0] on the empty series) is modelled by an [option].  Timestamps
    ([UTCTimestamp], whole seconds), scores and money amounts are integers
    ([Z]). *)

From Stdlib Require Import String ZArith QArith Qminmax Bool List Lia Lqa.
From Stdlib Require Import Permutation Sorted.
Import ListNotations.

Local Open Scope Z_scope.

(** ** Numbers and array helpers *)

Definition Qleb (x y : Q) : bool := Qle_bool x y.
Definition Qltb (x y : Q) : bool := negb (Qle_bool y x).
Definition Qgeb (x y : Q) : bool := Qleb y x.
Definition Qgtb (x y : Q) : bool := Qltb y x.

(** [Math.abs] *)
Definition Qabs_js (x : Q) : Q := if Qltb x 0 then Qopp x else x.

(** [arr.slice(a, b)] for [0 <= a]. *)
Definition slice {A} (a b : nat) (l : list A) : list A :=
  firstn (b - a) (skipn a l).

(** [arr.slice(-n)]: the last [n] elements, or all of them. *)
Definition slice_last {A} (n : nat) (l : list A) : list A :=
  skipn (length l - n) l.

(** [arr.slice(0, n)] *)
Definition slice_first {A} (n : nat) (l : list A) : list A := firstn n l.

(** [arr.findIndex(p)]; [None] stands for [-1]. *)
Fixpoint findIndex {A} (p : A -> bool) (l : list A) : option nat :=
  match l with
  | [] => None
  | x :: r => if p x then Some O else option_map S (findIndex p r)
  end.

(** ** Types *)

Inductive SessionType := ASIA | LONDON | NEW_YORK | NONE.

Inductive Direction := Bullish | Bearish.

Inductive PO3 := ACCUMULATION | MANIPULATION | DISTRIBUTION | PO3_NONE.

Record CandleData := mkCandle {
  c_time : Z;
  c_open : Q;
  c_high : Q;
  c_low : Q;
  c_close : Q
}.

Definition Direction_eqb (a b : Direction) : bool :=
  match a, b with
  | Bullish, Bullish | Bearish, Bearish => true
  | _, _ => false
  end.

(** ** Utils *)

Definition getSession (hour : Z) : SessionType :=
  if (0 <=? hour) && (hour <? 8) then ASIA
  else if (7 <=? hour) && (hour <? 16) then LONDON
  else if (12 <=? hour) && (hour <? 21) then NEW_YORK
  else NONE.

Definition determinePO3 (candle : CandleData) (session : SessionType) : PO3 :=
  match session with
  | ASIA => ACCUMULATION
  | LONDON | NEW_YORK =>
      let body := Qabs_js (c_close candle - c_open candle)%Q in
      let range := (c_high candle - c_low candle)%Q in
      if Qgtb body (range * (6 # 10))%Q then DISTRIBUTION else MANIPULATION
  | NONE => PO3_NONE
  end.

(** [new Date(t * 1000).getUTCHours()] for a timestamp in whole seconds. *)
Definition utc_hour (t : Z) : Z := (t / 3600) mod 24.

(** [if (session !== 'NONE') score += 1] *)
Definition session_score (session : SessionType) : Z :=
  match session with
  | NONE => 0
  | _ => 1
  end.

(** ** Swing structure: [detectStructure] *)

Inductive StructureType := PH | PL | BOS | CHoCH | HH | HL | LH | LL.

Record StructurePoint := mkPoint {
  sp_time : Z;
  sp_price : Q;
  sp_type : StructureType;
  sp_direction : Direction
}.

Inductive PivotKind := High | Low.

(** An element of [allPivots]: [{index, price, type}]. *)
Record Pivot := mkPivot {
  p_index : nat;
  p_price : Q;
  p_kind : PivotKind
}.

(** [data[i]].  Every read of the pipeline is in range (the loops bound
    their indices by [data.length]), so the default is never returned. *)
Definition candle0 : CandleData := mkCandle 0 0 0 0 0.
Definition at_ (data : list CandleData) (i : nat) : CandleData := nth i data candle0.

(** The inner loop [for (j = 1; j <= swingLength; j++)] for [isHigh]. *)
Definition isHigh (data : list CandleData) (swingLength i : nat) : bool :=
  forallb (fun j =>
    negb (Qleb (c_high (at_ data i)) (c_high (at_ data (i - j)))
          || Qleb (c_high (at_ data i)) (c_high (at_ data (i + j)))))
    (seq 1 swingLength).

Definition isLow (data : list CandleData) (swingLength i : nat) : bool :=
  forallb (fun j =>
    negb (Qgeb (c_low (at_ data i)) (c_low (at_ data (i - j)))
          || Qgeb (c_low (at_ data i)) (c_low (at_ data (i + j)))))
    (seq 1 swingLength).

(** The indices of [for (i = swingLength; i < data.length - swingLength; i++)]. *)
Definition swing_range (data : list CandleData) (swingLength : nat) : list nat :=
  seq swingLength (length data - swingLength - swingLength).

Definition pivotHighs (data : list CandleData) (swingLength : nat) : list Pivot :=
  map (fun i => mkPivot i (c_high (at_ data i)) High)
      (filter (isHigh data swingLength) (swing_range data swingLength)).

Definition pivotLows (data : list CandleData) (swingLength : nat) : list Pivot :=
  map (fun i => mkPivot i (c_low (at_ data i)) Low)
      (filter (isLow data swingLength) (swing_range data swingLength)).

(** [Array.prototype.sort] is stable; a stable insertion sort computes the
    same array for a comparator [cmp] given as [le a b := cmp(a, b) <= 0]. *)
Fixpoint insert_by {A} (le : A -> A -> bool) (x : A) (l : list A) : list A :=
  match l with
  | [] => [x]
  | y :: r => if le x y then x :: y :: r else y :: insert_by le x r
  end.

Fixpoint sort_by {A} (le : A -> A -> bool) (l : list A) : list A :=
  match l with
  | [] => []
  | x :: r => insert_by le x (sort_by le r)
  end.

Definition allPivots (data : list CandleData) (swingLength : nat) : list Pivot :=
  sort_by (fun a b => Nat.leb (p_index a) (p_index b))
          (pivotHighs data swingLength ++ pivotLows data swingLength).

(** The state of the classification loop: [lastHigh], [lastLow] ([None] is
    [undefined]) and [points]. *)
Record SwingState := mkSwing {
  lastHigh : option Pivot;
  lastLow : option Pivot;
  points : list StructurePoint
}.

(** One iteration of [for (const p of allPivots)]. *)
Definition swing_step (data : list CandleData) (st : SwingState) (p : Pivot) : SwingState :=
  let candle := at_ data (p_index p) in
  match p_kind p with
  | High =>
      match lastHigh st with
      | None => mkSwing (Some p) (lastLow st) (points st)
      | Some lh =>
          let pt := if Qgtb (p_price p) (p_price lh)
                    then mkPoint (c_time candle) (p_price p) HH Bearish
                    else mkPoint (c_time candle) (p_price p) LH Bearish in
          mkSwing (Some p) (lastLow st) (points st ++ [pt])
      end
  | Low =>
      match lastLow st with
      | None => mkSwing (lastHigh st) (Some p) (points st)
      | Some ll =>
          let pt := if Qltb (p_price p) (p_price ll)
                    then mkPoint (c_time candle) (p_price p) LL Bullish
                    else mkPoint (c_time candle) (p_price p) HL Bullish in
          mkSwing (lastHigh st) (Some p) (points st ++ [pt])
      end
  end.

(** [let lastHigh = pivotHighs[0]; let lastLow = pivotLows[0];] *)
Definition swing_init (data : list CandleData) (swingLength : nat) : SwingState :=
  mkSwing (nth_error (pivotHighs data swingLength) 0)
          (nth_error (pivotLows data swingLength) 0)
          [].

Definition detectStructure (data : list CandleData) (swingLength : nat) : list StructurePoint :=
  points (fold_left (swing_step data) (allPivots data swingLength)
                    (swing_init data swingLength)).

(** ** Fair value gaps: [detectFVG] *)

(** The [id] field is the string [fvg-bull-<time>] or [fvg-bear-<time>]: a
    function of [direction] and [time] that nothing in the pipeline reads.
    It is left out of the record. *)
Record FVG := mkFVG {
  f_time : Z;
  f_priceHigh : Q;
  f_priceLow : Q;
  f_direction : Direction;
  f_mitigated : bool;
  f_isSilverBullet : bool
}.

Definition isSilverBullet (t : Z) : bool :=
  let hour := utc_hour t in
  (hour =? 14) || (hour =? 9) || (hour =? 3).

(** The gaps pushed by the iteration [i] of the first loop ([c1 = data[i-2]],
    [c2 = data[i-1]], [c3 = data[i]]). *)
Definition fvg_at (data : list CandleData) (i : nat) : list FVG :=
  let c1 := at_ data (i - 2) in
  let c2 := at_ data (i - 1) in
  let c3 := at_ data i in
  (if Qltb (c_high c1) (c_low c3)
   then [mkFVG (c_time c2) (c_low c3) (c_high c1) Bullish false (isSilverBullet (c_time c2))]
   else [])
  ++
  (if Qgtb (c_low c1) (c_high c3)
   then [mkFVG (c_time c2) (c_low c1) (c_high c3) Bearish false (isSilverBullet (c_time c2))]
   else []).

(** [for (let i = 2; i < data.length; i++)] *)
Definition fvg_candidates (data : list CandleData) : list FVG :=
  flat_map (fvg_at data) (seq 2 (length data - 2)).

Definition fvg_set_mitigated (fvg : FVG) : FVG :=
  mkFVG (f_time fvg) (f_priceHigh fvg) (f_priceLow fvg) (f_direction fvg) true
        (f_isSilverBullet fvg).

(** The test that a candle mitigates a gap (either [if] of the inner loop). *)
Definition fvg_hit (fvg : FVG) (candle : CandleData) : bool :=
  (Direction_eqb (f_direction fvg) Bullish && Qltb (c_low candle) (f_priceLow fvg))
  || (Direction_eqb (f_direction fvg) Bearish && Qgtb (c_high candle) (f_priceHigh fvg)).

(** [for (const candle of futureCandles)] with its two [break]s. *)
Fixpoint fvg_scan (fvg : FVG) (futureCandles : list CandleData) : FVG :=
  match futureCandles with
  | [] => fvg
  | candle :: rest =>
      if Direction_eqb (f_direction fvg) Bullish && Qltb (c_low candle) (f_priceLow fvg)
      then fvg_set_mitigated fvg
      else if Direction_eqb (f_direction fvg) Bearish && Qgtb (c_high candle) (f_priceHigh fvg)
      then fvg_set_mitigated fvg
      else fvg_scan fvg rest
  end.

Definition futureCandles (data : list CandleData) (fvg : FVG) : list CandleData :=
  filter (fun d => c_time d >? f_time fvg) data.

Definition detectFVG (data : list CandleData) : list FVG :=
  filter (fun f => negb (f_mitigated f))
         (map (fun fvg => fvg_scan fvg (futureCandles data fvg)) (fvg_candidates data)).

(** ** Impulse zones (order blocks): [detectOrderBlocks] *)

Inductive Subtype := Standard | Breaker | Swing.

(** As for [FVG], the [id] string ([ob-bull-<time>], [ob-bear-<time>]) is
    left out. *)
Record OrderBlock := mkOB {
  ob_time : Z;
  ob_priceHigh : Q;
  ob_priceLow : Q;
  ob_direction : Direction;
  ob_mitigated : bool;
  ob_subtype : Subtype
}.

(** [arr.reduce((a, b) => a + b, 0)] *)
Definition Qsum (l : list Q) : Q := fold_left Qplus l 0%Q.

(** [total / arr.length] for the sum [total] of [arr]: the quotient is [NaN]
    (here [None]) exactly when the array is empty, where it is [0 / 0]. *)
Definition div_length (total : Q) (len : nat) : option Q :=
  match len with
  | O => None
  | S _ => Some (total / inject_Z (Z.of_nat len))%Q
  end.

(** [v || d] on numbers: [NaN] and [0] are falsy. *)
Definition or_default (v : option Q) (d : Q) : Q :=
  match v with
  | None => d
  | Some q => if Qeq_bool q 0 then d else q
  end.

Definition bodySizes (data : list CandleData) : list Q :=
  map (fun d => Qabs_js (c_close d - c_open d)%Q) (slice_last 100 data).

Definition meanBody (data : list CandleData) : Q :=
  or_default (div_length (Qsum (bodySizes data)) (length (bodySizes data))) 1%Q.

Definition IMPULSE_THRESHOLD (data : list CandleData) (thresholdMult : Q) : Q :=
  (meanBody data * thresholdMult)%Q.

(** The zones pushed by the iteration [i] of the first loop. *)
Definition ob_at (data : list CandleData) (thresholdMult : Q) (i : nat) : list OrderBlock :=
  let candle := at_ data i in
  let nextCandle := at_ data (i + 1) in
  let moveUp := Qgtb (c_close nextCandle - c_open nextCandle)%Q (IMPULSE_THRESHOLD data thresholdMult) in
  let moveDown := Qgtb (c_open nextCandle - c_close nextCandle)%Q (IMPULSE_THRESHOLD data thresholdMult) in
  (if Qltb (c_close candle) (c_open candle) && moveUp
      && Qgtb (c_close nextCandle) (c_high candle)
   then [mkOB (c_time candle) (c_high candle) (c_low candle) Bullish false Standard]
   else [])
  ++
  (if Qgtb (c_close candle) (c_open candle) && moveDown
      && Qltb (c_close nextCandle) (c_low candle)
   then [mkOB (c_time candle) (c_high candle) (c_low candle) Bearish false Standard]
   else []).

(** [for (let i = 2; i < data.length - 3; i++)] *)
Definition ob_candidates (data : list CandleData) (thresholdMult : Q) : list OrderBlock :=
  flat_map (ob_at data thresholdMult) (seq 2 (length data - 3 - 2)).

Definition ob_flip (ob : OrderBlock) (d : Direction) : OrderBlock :=
  mkOB (ob_time ob) (ob_priceHigh ob) (ob_priceLow ob) d (ob_mitigated ob) Breaker.

Definition ob_set_mitigated (ob : OrderBlock) : OrderBlock :=
  mkOB (ob_time ob) (ob_priceHigh ob) (ob_priceLow ob) (ob_direction ob) true
       (ob_subtype ob).

(** The body of [for (let k = startIndex + 1; k < data.length; k++)] on
    [current = data[k]]. *)
Definition ob_step (ob : OrderBlock) (current : CandleData) : OrderBlock :=
  match ob_subtype ob with
  | Standard =>
      if Direction_eqb (ob_direction ob) Bullish
         && Qltb (c_close current) (ob_priceLow ob)
      then ob_flip ob Bearish
      else if Direction_eqb (ob_direction ob) Bearish
              && Qgtb (c_close current) (ob_priceHigh ob)
      then ob_flip ob Bullish
      else ob
  | Breaker =>
      if Direction_eqb (ob_direction ob) Bullish
         && Qltb (c_close current) (ob_priceLow ob)
      then ob_set_mitigated ob
      else if Direction_eqb (ob_direction ob) Bearish
              && Qgtb (c_close current) (ob_priceHigh ob)
      then ob_set_mitigated ob
      else ob
  | Swing => ob
  end.

(** The lifecycle scan of one zone over the bars that follow it. *)
Definition ob_scan (ob : OrderBlock) (bars : list CandleData) : OrderBlock :=
  fold_left ob_step bars ob.

(** One iteration of the second loop: [startIndex] is the first bar that
    carries the zone's timestamp; [-1] leaves the zone as it is. *)
Definition ob_lifecycle (data : list CandleData) (ob : OrderBlock) : OrderBlock :=
  match findIndex (fun d => c_time d =? ob_time ob) data with
  | None => ob
  | Some startIndex => ob_scan ob (skipn (startIndex + 1) data)
  end.

Definition detectOrderBlocks (data : list CandleData) (thresholdMult : Q) : list OrderBlock :=
  slice_last 10
    (filter (fun o => negb (ob_mitigated o))
            (map (ob_lifecycle data) (ob_candidates data thresholdMult))).

(** ** Confluence scoring and signals: [detectEntries] *)

Inductive TradeType := LONG | SHORT.
Inductive TradingStyle := SCALP | DAY_TRADE.
Inductive BacktestResult := WIN | LOSS | PENDING.

(** The optional fields [backtestResult] and [backtestPnL] are absent
    ([None]) until [performBacktest] fills them. *)
Record EntrySignal := mkSignal {
  s_time : Z;
  s_type : TradeType;
  s_price : Q;
  s_score : Z;
  s_confluences : list string;
  s_sl : Q;
  s_tp : Q;
  s_winProbability : Z;
  s_tradingStyle : TradingStyle;
  s_po3Phase : PO3;
  s_backtestResult : option BacktestResult;
  s_backtestPnL : option Z
}.

Definition COOLDOWN : Z := 10 * 60.

Definition isScalping (timeframe : string) : bool :=
  existsb (String.eqb timeframe) ["1m"; "3m"; "5m"]%string.

(** The four predicates handed to [find]. *)
Definition bullOB_touch (candle : CandleData) (ob : OrderBlock) : bool :=
  Direction_eqb (ob_direction ob) Bullish && negb (ob_mitigated ob)
  && Qleb (c_low candle) (ob_priceHigh ob) && Qgeb (c_low candle) (ob_priceLow ob)
  && (ob_time ob <? c_time candle).

Definition bearOB_touch (candle : CandleData) (ob : OrderBlock) : bool :=
  Direction_eqb (ob_direction ob) Bearish && negb (ob_mitigated ob)
  && Qgeb (c_high candle) (ob_priceLow ob) && Qleb (c_high candle) (ob_priceHigh ob)
  && (ob_time ob <? c_time candle).

Definition bullFVG_touch (candle : CandleData) (f : FVG) : bool :=
  Direction_eqb (f_direction f) Bullish
  && Qleb (c_low candle) (f_priceHigh f) && Qgeb (c_low candle) (f_priceLow f)
  && (f_time f <? c_time candle).

Definition bearFVG_touch (candle : CandleData) (f : FVG) : bool :=
  Direction_eqb (f_direction f) Bearish
  && Qgeb (c_high candle) (f_priceLow f) && Qleb (c_high candle) (f_priceHigh f)
  && (f_time f <? c_time candle).

Definition touchingBullOB (obs : list OrderBlock) (candle : CandleData) : option OrderBlock :=
  find (bullOB_touch candle) obs.
Definition touchingBearOB (obs : list OrderBlock) (candle : CandleData) : option OrderBlock :=
  find (bearOB_touch candle) obs.
Definition touchingBullFVG (fvgs : list FVG) (candle : CandleData) : option FVG :=
  find (bullFVG_touch candle) fvgs.
Definition touchingBearFVG (fvgs : list FVG) (candle : CandleData) : option FVG :=
  find (bearFVG_touch candle) fvgs.

(** Truthiness of the result of [find]. *)
Definition found {A} (o : option A) : bool :=
  match o with Some _ => true | None => false end.

Definition ob_tag (side : string) (o : OrderBlock) : string :=
  ("Retest " ++ side ++ " " ++
   match ob_subtype o with Breaker => "Breaker" | _ => "OB" end)%string.

(** [score] and [confluences] contributed by each of the four lookups. *)
Definition ob_confluence (side : string) (o : option OrderBlock) : Z * list string :=
  match o with
  | Some ob => (3, [ob_tag side ob])
  | None => (0, [])
  end.

Definition fvg_confluence (tag : string) (o : option FVG) : Z * list string :=
  match o with
  | Some f => if f_isSilverBullet f
              then (2 + 4, [tag; "Silver Bullet Zone"%string])
              else (2, [tag])
  | None => (0, [])
  end.

(** [score] just before the emission gate of the bar [candle]. *)
Definition score_of (obs : list OrderBlock) (fvgs : list FVG) (candle : CandleData) : Z :=
  fst (ob_confluence "Bullish" (touchingBullOB obs candle))
  + fst (ob_confluence "Bearish" (touchingBearOB obs candle))
  + fst (fvg_confluence "Discount FVG" (touchingBullFVG fvgs candle))
  + fst (fvg_confluence "Premium FVG" (touchingBearFVG fvgs candle))
  + session_score (getSession (utc_hour (c_time candle))).

Definition confluences_of (obs : list OrderBlock) (fvgs : list FVG) (candle : CandleData)
  : list string :=
  snd (ob_confluence "Bullish" (touchingBullOB obs candle))
  ++ snd (ob_confluence "Bearish" (touchingBearOB obs candle))
  ++ snd (fvg_confluence "Discount FVG" (touchingBullFVG fvgs candle))
  ++ snd (fvg_confluence "Premium FVG" (touchingBearFVG fvgs candle)).

(** [prev50.reduce((a, b) => a + b.close, 0) / 50] *)
Definition avg50 (data : list CandleData) (i : nat) : Q :=
  (fold_left (fun a b => a + c_close b) (slice (i - 50) i data) 0 / 50)%Q.

Definition isBullish (data : list CandleData) (i : nat) : bool :=
  Qgtb (c_close (at_ data i)) (avg50 data i).

(** [Math.min(...xs)] and [Math.max(...xs)]; [xs] is the six-bar window
    [data.slice(i-5, i+1)], never empty. *)
Definition min_of (xs : list Q) : Q :=
  match xs with [] => 0%Q | x :: r => fold_left Qmin r x end.
Definition max_of (xs : list Q) : Q :=
  match xs with [] => 0%Q | x :: r => fold_left Qmax r x end.

(** [ob?.field || dflt] *)
Definition ob_field_or (field : OrderBlock -> Q) (o : option OrderBlock) (dflt : Q) : Q :=
  or_default (option_map field o) dflt.

Definition long_signal (data : list CandleData) (obs : list OrderBlock) (fvgs : list FVG)
    (timeframe : string) (i : nat) : EntrySignal :=
  let candle := at_ data i in
  let score := score_of obs fvgs candle in
  let swingLow := min_of (map c_low (slice (i - 5) (i + 1) data)) in
  let sl := (Qmin swingLow (ob_field_or ob_priceLow (touchingBullOB obs candle) swingLow)
             - c_close candle * (5 # 10000))%Q in
  let risk := (c_close candle - sl)%Q in
  let tp := (c_close candle + risk * 2)%Q in
  mkSignal (c_time candle) LONG (c_close candle) score (confluences_of obs fvgs candle)
           sl tp (Z.min 95 (score * 10 + 30))
           (if isScalping timeframe then SCALP else DAY_TRADE)
           (determinePO3 candle (getSession (utc_hour (c_time candle))))
           None None.

Definition short_signal (data : list CandleData) (obs : list OrderBlock) (fvgs : list FVG)
    (timeframe : string) (i : nat) : EntrySignal :=
  let candle := at_ data i in
  let score := score_of obs fvgs candle in
  let swingHigh := max_of (map c_high (slice (i - 5) (i + 1) data)) in
  let sl := (Qmax swingHigh (ob_field_or ob_priceHigh (touchingBearOB obs candle) swingHigh)
             + c_close candle * (5 # 10000))%Q in
  let risk := (sl - c_close candle)%Q in
  let tp := (c_close candle - risk * 2)%Q in
  mkSignal (c_time candle) SHORT (c_close candle) score (confluences_of obs fvgs candle)
           sl tp (Z.min 95 (score * 10 + 30))
           (if isScalping timeframe then SCALP else DAY_TRADE)
           (determinePO3 candle (getSession (utc_hour (c_time candle))))
           None None.

(** The two direction requirements of the emission gate. *)
Definition long_ok (data : list CandleData) (obs : list OrderBlock) (fvgs : list FVG)
    (i : nat) : bool :=
  isBullish data i
  && (found (touchingBullOB obs (at_ data i)) || found (touchingBullFVG fvgs (at_ data i))).

Definition short_ok (data : list CandleData) (obs : list OrderBlock) (fvgs : list FVG)
    (i : nat) : bool :=
  negb (isBullish data i)
  && (found (touchingBearOB obs (at_ data i)) || found (touchingBearFVG fvgs (at_ data i))).

(** The loop state: [signals] and [lastSignalTime]. *)
Record EntryState := mkEntry {
  signals : list EntrySignal;
  lastSignalTime : Z
}.

(** One iteration of [for (let i = 100; i < data.length; i++)]. *)
Definition entry_step (data : list CandleData) (obs : list OrderBlock) (fvgs : list FVG)
    (timeframe : string) (st : EntryState) (i : nat) : EntryState :=
  let candle := at_ data i in
  if (score_of obs fvgs candle >=? 4) && (c_time candle - lastSignalTime st >? COOLDOWN)
  then
    if long_ok data obs fvgs i
    then mkEntry (signals st ++ [long_signal data obs fvgs timeframe i]) (c_time candle)
    else if short_ok data obs fvgs i
    then mkEntry (signals st ++ [short_signal data obs fvgs timeframe i]) (c_time candle)
    else st
  else st.

Definition entry_range (data : list CandleData) : list nat :=
  seq 100 (length data - 100).

Definition entry_run (data : list CandleData) (obs : list OrderBlock) (fvgs : list FVG)
    (timeframe : string) (range : list nat) (st : EntryState) : EntryState :=
  fold_left (entry_step data obs fvgs timeframe) range st.

Definition detectEntries (data : list CandleData) (obs : list OrderBlock) (fvgs : list FVG)
    (timeframe : string) : list EntrySignal :=
  signals (entry_run data obs fvgs timeframe (entry_range data) (mkEntry [] 0)).

(** ** Backtest: [performBacktest] *)

Record BacktestStats := mkStats {
  totalTrades : Z;
  wins : Z;
  losses : Z;
  winRate : Q;
  netPnL : Z;
  profitFactor : Q;
  maxDrawdown : Z;
  equityCurve : list Z
}.

Definition RISK_AMOUNT : Z := 1000.
Definition REWARD_AMOUNT : Z := 2000.

(** The forward scan [for (let i = startIndex + 1; i < data.length; i++)]
    with its four [break]s, over [future = data.slice(startIndex + 1)];
    it returns the final [result] and [pnl]. *)
Fixpoint bt_scan (signal : EntrySignal) (future : list CandleData) : BacktestResult * Z :=
  match future with
  | [] => (PENDING, 0)
  | candle :: rest =>
      match s_type signal with
      | LONG =>
          if Qleb (c_low candle) (s_sl signal) then (LOSS, - RISK_AMOUNT)
          else if Qgeb (c_high candle) (s_tp signal) then (WIN, REWARD_AMOUNT)
          else bt_scan signal rest
      | SHORT =>
          if Qgeb (c_high candle) (s_sl signal) then (LOSS, - RISK_AMOUNT)
          else if Qleb (c_low candle) (s_tp signal) then (WIN, REWARD_AMOUNT)
          else bt_scan signal rest
      end
  end.

(** The variables captured by the callback of [signals.map]. *)
Record BtState := mkBt {
  bt_wins : Z;
  bt_losses : Z;
  bt_netPnL : Z;
  bt_maxDrawdown : Z;
  bt_peakBalance : Z;
  bt_currentBalance : Z;
  bt_equityCurve : list Z
}.

Definition bt_init : BtState := mkBt 0 0 0 0 0 100000 [100000].

Definition with_backtest (signal : EntrySignal) (result : BacktestResult) (pnl : Z)
  : EntrySignal :=
  mkSignal (s_time signal) (s_type signal) (s_price signal) (s_score signal)
           (s_confluences signal) (s_sl signal) (s_tp signal) (s_winProbability signal)
           (s_tradingStyle signal) (s_po3Phase signal) (Some result) (Some pnl).

Definition BacktestResult_eqb (a b : BacktestResult) : bool :=
  match a, b with
  | WIN, WIN | LOSS, LOSS | PENDING, PENDING => true
  | _, _ => false
  end.

(** The callback of [signals.map]: the new state and the mapped signal. *)
Definition bt_step (data : list CandleData) (st : BtState) (signal : EntrySignal)
  : BtState * EntrySignal :=
  match findIndex (fun d => c_time d =? s_time signal) data with
  | None => (st, signal)
  | Some startIndex =>
      let (result, pnl) := bt_scan signal (skipn (startIndex + 1) data) in
      let wins' := if BacktestResult_eqb result WIN then bt_wins st + 1 else bt_wins st in
      let losses' := if BacktestResult_eqb result LOSS then bt_losses st + 1 else bt_losses st in
      let currentBalance := bt_currentBalance st + pnl in
      let peakBalance := Z.max (bt_peakBalance st) currentBalance in
      let dd := peakBalance - currentBalance in
      (mkBt wins' losses' (bt_netPnL st + pnl) (Z.max (bt_maxDrawdown st) dd)
            peakBalance currentBalance (bt_equityCurve st ++ [currentBalance]),
       with_backtest signal result pnl)
  end.

(** [signals.map(callback)], threading the captured variables. *)
Fixpoint bt_map (data : list CandleData) (st : BtState) (sigs : list EntrySignal)
  : BtState * list EntrySignal :=
  match sigs with
  | [] => (st, [])
  | signal :: rest =>
      let (st1, r) := bt_step data st signal in
      let (st2, rs) := bt_map data st1 rest in
      (st2, r :: rs)
  end.

Definition stats_of (st : BtState) : BacktestStats :=
  let totalTrades := bt_wins st + bt_losses st in
  let winRate := if totalTrades >? 0
                 then (inject_Z (bt_wins st) / inject_Z totalTrades * 100)%Q else 0%Q in
  let profitFactor :=
    if bt_losses st >? 0
    then (inject_Z (bt_wins st * 2000) / inject_Z (bt_losses st * 1000))%Q
    else if bt_wins st >? 0 then 999%Q else 0%Q in
  mkStats totalTrades (bt_wins st) (bt_losses st) winRate (bt_netPnL st) profitFactor
          (bt_maxDrawdown st) (bt_equityCurve st).

Definition performBacktest (data : list CandleData) (sigs : list EntrySignal)
  : BacktestStats * list EntrySignal :=
  let (st, processedSignals) := bt_map data bt_init sigs in
  (stats_of st, processedSignals).

(** ** Daily rollup: [dailyStats] *)

Record DailyStat := mkDaily {
  ds_date : string;
  ds_totalGain : Z;
  ds_totalLoss : Z;
  ds_netPnL : Z;
  ds_tradeCount : nat;
  ds_trades : list EntrySignal
}.

Definition is_result (r : BacktestResult) (e : EntrySignal) : bool :=
  match s_backtestResult e with
  | Some r' => BacktestResult_eqb r' r
  | None => false
  end.

(** [e.backtestResult === 'WIN' || e.backtestResult === 'LOSS'] *)
Definition resolved (e : EntrySignal) : bool := is_result WIN e || is_result LOSS e.

(** The object [groups]: its keys in insertion order (date strings are not
    array indices, so [Object.keys] lists them in that order), each with
    the array pushed under it. *)
Definition Groups := list (string * list EntrySignal).

(** [if (!groups[date]) groups[date] = []; groups[date].push(e)] *)
Fixpoint groups_push (date : string) (e : EntrySignal) (groups : Groups) : Groups :=
  match groups with
  | [] => [(date, [e])]
  | (k, v) :: rest =>
      if String.eqb k date then (k, v ++ [e]) :: rest
      else (k, v) :: groups_push date e rest
  end.

(** [groups[date]] for a key of [groups]. *)
Fixpoint groups_get (date : string) (groups : Groups) : list EntrySignal :=
  match groups with
  | [] => []
  | (k, v) :: rest => if String.eqb k date then v else groups_get date rest
  end.

(** The accumulators [totalGain], [totalLoss], [netPnL] of one date. *)
Definition RISK_PER_TRADE : Z := 1000.

Definition tally (acc : Z * Z * Z) (t : EntrySignal) : Z * Z * Z :=
  let '(totalGain, totalLoss, net) := acc in
  if is_result WIN t
  then (totalGain + RISK_PER_TRADE * 2, totalLoss, net + RISK_PER_TRADE * 2)
  else (totalGain, totalLoss + RISK_PER_TRADE, net - RISK_PER_TRADE).

Section DailyStats.

(** The host's calendar: [dateOf t] is
    [new Date(t * 1000).toLocaleDateString()] and [parseDate s] is
    [new Date(s).getTime()], with [None] for the NaN of a string that does
    not parse (Invalid Date); both depend on the locale and the time zone
    of the machine, and are parameters of the rollup. *)
Variable dateOf : Z -> string.
Variable parseDate : string -> option Z.

(** The comparator [(a, b) => new Date(b).getTime() - new Date(a).getTime()]
    as [sort] reads it, [a] before [b] when it is at most 0: a difference
    with a NaN operand is NaN, which [sort] takes as 0.  (When only some
    of the strings parse the comparator is not consistent and the language
    leaves the order to the implementation; the properties below concern
    the cases where all of them parse or none does.) *)
Definition dates_le (a b : string) : bool :=
  match parseDate b, parseDate a with
  | Some tb, Some ta => tb - ta <=? 0
  | _, _ => true
  end.

Definition validEntries (entries : list EntrySignal) : list EntrySignal :=
  filter resolved entries.

Definition groups_of (entries : list EntrySignal) : Groups :=
  fold_left (fun groups e => groups_push (dateOf (s_time e)) e groups)
            (validEntries entries) [].

(** [Object.keys(groups).sort((a, b) => parse(b) - parse(a)).slice(0, 3)] *)
Definition sortedDates (entries : list EntrySignal) : list string :=
  slice_first 3
    (sort_by dates_le (map fst (groups_of entries))).

(** [groups[date].sort((a, b) => b.time - a.time).slice(0, 10)] *)
Definition dailyTrades (entries : list EntrySignal) (date : string) : list EntrySignal :=
  slice_first 10
    (sort_by (fun a b => s_time b - s_time a <=? 0)
             (groups_get date (groups_of entries))).

Definition daily_of (entries : list EntrySignal) (date : string) : DailyStat :=
  let trades := dailyTrades entries date in
  let '(totalGain, totalLoss, net) := fold_left tally trades (0, 0, 0) in
  mkDaily date totalGain totalLoss net (length trades) trades.

Definition dailyStats (entries : list EntrySignal) : list DailyStat :=
  map (daily_of entries) (sortedDates entries).

End DailyStats.



(** ** Higher timeframe: [getHtf] *)

(** [list.includes(s)] on strings. *)
Definition includes (l : list string) (s : string) : bool := existsb (String.eqb s) l.

Definition getHtf (tf : string) : string :=
  if includes ["1m"; "3m"; "5m"]%string tf then "1h"%string
  else if includes ["15m"; "30m"]%string tf then "4h"%string
  else if includes ["1h"; "4h"]%string tf then "1d"%string
  else "1d"%string.

(** ** Top setups: [TopSetupsModal] *)

(** [[...entries].sort((a, b) => b.score - a.score).slice(0, 3)] *)
Definition top3 (entries : list EntrySignal) : list EntrySignal :=
  slice_first 3 (sort_by (fun a b => s_score b - s_score a <=? 0) entries).

(** ** Candle colours of the chart *)

(** The three colour overrides of a bar; [None] is [undefined]. *)
Record CandleColor := mkColor {
  cc_color : option string;
  cc_borderColor : option string;
  cc_wickColor : option string
}.

(** The body of [data.map(d => ...)] in the effect that redraws the candle
    series whenever [data], [entries] or [overlays] change:
    [isEntry = entries.find(e => e.time === d.time)], yellow for a signal
    of score 7 or more, else a gold border in the silver-bullet hours when
    that overlay is on. *)
Definition candle_color (entries : list EntrySignal) (silverBullet : bool)
    (d : CandleData) : CandleColor :=
  let isEntry := find (fun e => s_time e =? c_time d) entries in
  let h := utc_hour (c_time d) in
  let isSB := (h =? 14) || (h =? 9) || (h =? 3) in
  if match isEntry with Some e => s_score e >=? 7 | None => false end
  then mkColor (Some "#FFFF00"%string) (Some "#FFFF00"%string) (Some "#FFFF00"%string)
  else if isSB && silverBullet then mkColor None (Some "#FFD700"%string) None
  else mkColor None None None.

(** [coloredData]: every bar with its overrides. *)
Definition coloredData (entries : list EntrySignal) (silverBullet : bool)
    (data : list CandleData) : list (CandleData * CandleColor) :=
  map (fun d => (d, candle_color entries silverBullet d)) data.

(** ** Session killzones of the chart: [sessionData] *)

(** The [{value, color}] of the bar whose UTC hour is [h]: three [if]s in
    a row, each overwriting the one before. *)
Definition killzone (killzones : bool) (h : Z) : Z * string :=
  let v0 := (0, "transparent"%string) in
  if killzones then
    let v1 := if (0 <=? h) && (h <? 8) then (1, "rgba(255, 165, 0, 0.15)"%string) else v0 in
    let v2 := if (7 <=? h) && (h <? 16) then (1, "rgba(41, 98, 255, 0.15)"%string) else v1 in
    if (12 <=? h) && (h <? 21) then (1, "rgba(0, 230, 118, 0.15)"%string) else v2
  else v0.

(** ** Equity curve bars of the backtest tab *)

(** [Math.min(...xs)] and [Math.max(...xs)] on the equity curve; they are
    evaluated inside [equityCurve.map], hence on a curve with an element. *)
Definition Zmin_of (xs : list Z) : Z :=
  match xs with [] => 0 | x :: r => fold_left Z.min r x end.
Definition Zmax_of (xs : list Z) : Z :=
  match xs with [] => 0 | x :: r => fold_left Z.max r x end.

(** [height] of the bar of [val]: [range = max - min || 1]. *)
Definition bar_height (curve : list Z) (val : Z) : Q :=
  let min := Zmin_of curve in
  let max := Zmax_of curve in
  let range := if max - min =? 0 then 1 else max - min in
  (inject_Z (val - min) / inject_Z range * 100)%Q.

Definition bar_heights (curve : list Z) : list Q := map (bar_height curve) curve.

(** ** Paper trading: [enterTrade], [closeTrade] and the position monitor *)

Inductive TradeResult := T_WIN | T_LOSS | T_OPEN.

Record TradeEntry := mkTrade {
  t_time : Z;
  t_type : TradeType;
  t_price : Q;
  t_stopLoss : Q;
  t_takeProfit : Q;
  t_result : option TradeResult;
  t_pnl : option Q;
  t_confluences : list string;
  t_score : Z
}.

(** The React state the trading code reads and updates. *)
Record Account := mkAccount {
  balance : Q;
  position : option TradeEntry;
  tradeHistory : list TradeEntry
}.

(** [enterTrade(type, price, sl, tp, confluences)]; [now] is
    [Math.floor(Date.now() / 1000)]. *)
Definition enterTrade (now : Z) (type : TradeType) (price sl tp : Q)
    (confluences : list string) (st : Account) : Account :=
  mkAccount (balance st)
            (Some (mkTrade now type price sl tp (Some T_OPEN) None confluences 0))
            (tradeHistory st).

(** [closeTrade(pnl)].  [captured] is the [position] of the render whose
    closure runs: it does not change between two calls made by the same
    closure, while the updaters [prev => ...] apply to the pending state
    [st] one after the other. *)
Definition closeTrade (captured : option TradeEntry) (pnl : Q) (st : Account) : Account :=
  match captured with
  | None => st
  | Some p =>
      mkAccount (balance st + pnl)%Q
                None
                (mkTrade (t_time p) (t_type p) (t_price p) (t_stopLoss p) (t_takeProfit p)
                         (Some (if Qgtb pnl 0 then T_WIN else T_LOSS)) (Some pnl)
                         (t_confluences p) (t_score p)
                 :: tradeHistory st)
  end.

(** [data[data.length - 1]] *)
Definition last_candle (data : list CandleData) : CandleData := last data candle0.

(** The effect on [[data, position]]: it watches the last close. *)
Definition monitor (data : list CandleData) (st : Account) : Account :=
  match position st with
  | None => st
  | Some p =>
      if (length data =? 0)%nat then st
      else
        let currentPrice := c_close (last_candle data) in
        match t_type p with
        | LONG =>
            let pnl := ((currentPrice - t_price p) * 1)%Q in
            let st1 := if Qgeb currentPrice (t_takeProfit p)
                       then closeTrade (position st) pnl st else st in
            if Qleb currentPrice (t_stopLoss p)
            then closeTrade (position st) pnl st1 else st1
        | SHORT =>
            let pnl := ((t_price p - currentPrice) * 1)%Q in
            let st1 := if Qleb currentPrice (t_takeProfit p)
                       then closeTrade (position st) pnl st else st in
            if Qleb currentPrice (t_stopLoss p)
            then closeTrade (position st) pnl st1 else st1
        end
  end.

(** ** The analysis run of [fetchData] *)

Definition allowedObTimeframes : list string := ["5m"; "15m"; "1h"]%string.

(** [_obs]: zones are detected on three timeframes only. *)
Definition run_obs (candles : list CandleData) (timeframe : string) (obThreshold : Q)
  : list OrderBlock :=
  if includes allowedObTimeframes timeframe
  then detectOrderBlocks candles obThreshold else [].

(** [_entries] *)
Definition run_entries (candles : list CandleData) (timeframe : string) (obThreshold : Q)
  : list EntrySignal :=
  detectEntries candles (run_obs candles timeframe obThreshold) (detectFVG candles) timeframe.

(** [bt = performBacktest(candles, _entries)] *)
Definition run_backtest (candles : list CandleData) (timeframe : string) (obThreshold : Q)
  : BacktestStats * list EntrySignal :=
  performBacktest candles (run_entries candles timeframe obThreshold).

(** The signal handed to [enterTrade] by the auto-trade block, if any. *)
Definition autoTradeSignal (autoTrade : bool) (pos : option TradeEntry)
    (candles : list CandleData) (_entries : list EntrySignal) : option EntrySignal :=
  if autoTrade && negb (found pos) && (0 <? length _entries)%nat
  then
    match rev _entries with
    | [] => None
    | lastSignal :: _ =>
        if (s_time lastSignal =? c_time (last_candle candles)) && (s_score lastSignal >=? 8)
        then Some lastSignal else None
    end
  else None.

(** The account after the auto-trade block. *)
Definition autoTrade_step (now : Z) (autoTrade : bool) (candles : list CandleData)
    (_entries : list EntrySignal) (st : Account) : Account :=
  match autoTradeSignal autoTrade (position st) candles _entries with
  | Some lastSignal =>
      enterTrade now (s_type lastSignal) (s_price lastSignal) (s_sl lastSignal)
                 (s_tp lastSignal) (s_confluences lastSignal) st
  | None => st
  end.
(** * Vocabulary of the properties *)

(** A later bar trades through the far boundary of the gap. *)
Definition fvg_mitigates (g : FVG) (d : CandleData) : Prop :=
  (f_direction g = Bullish /\ (c_low d < f_priceLow g)%Q)
  \/ (f_direction g = Bearish /\ (f_priceHigh g < c_high d)%Q).

(** The gaps recorded at index [i]: what the first loop pushes. *)
Definition bullish_gap_at (data : list CandleData) (i : nat) : FVG :=
  mkFVG (c_time (at_ data (i - 1))) (c_low (at_ data i)) (c_high (at_ data (i - 2)))
        Bullish false (isSilverBullet (c_time (at_ data (i - 1)))).

Definition bearish_gap_at (data : list CandleData) (i : nat) : FVG :=
  mkFVG (c_time (at_ data (i - 1))) (c_low (at_ data (i - 2))) (c_high (at_ data i))
        Bearish false (isSilverBullet (c_time (at_ data (i - 1)))).

(** A triplet with [high[0] = 100] and [low[2] = 105], and a later bar
    whose low is below 100. *)
Definition fvg_triplet : list CandleData :=
  [ mkCandle 60 99 100 98 99; mkCandle 120 101 104 100 103; mkCandle 180 106 107 105 106 ].
Definition fvg_filler : CandleData := mkCandle 240 106 107 99 100.

Definition opposite (d : Direction) : Direction :=
  match d with Bullish => Bearish | Bearish => Bullish end.

(** The close of [c] breaks the boundary of the zone against the direction
    [d]: below the lower bound for Bullish, above the upper one for
    Bearish. *)
Definition breaks (d : Direction) (ob : OrderBlock) (c : CandleData) : bool :=
  match d with
  | Bullish => Qltb (c_close c) (ob_priceLow ob)
  | Bearish => Qgtb (c_close c) (ob_priceHigh ob)
  end.

(** The lifecycle as the two-stage machine, in closed form: nothing happens
    before the first bar that breaks the zone against its direction; that
    bar makes it a Breaker of the opposite direction; the zone is mitigated
    iff some bar after that one breaks it against the new direction. *)
Definition lifecycle_spec (ob : OrderBlock) (bars : list CandleData) : OrderBlock :=
  match findIndex (breaks (ob_direction ob) ob) bars with
  | None => ob
  | Some k =>
      let flipped := ob_flip ob (opposite (ob_direction ob)) in
      if existsb (breaks (opposite (ob_direction ob)) ob) (skipn (S k) bars)
      then ob_set_mitigated flipped
      else flipped
  end.


(** A bearish candle (index 2) followed by an impulsive up-close bar that
    closes above its high, then two more bars: quiet ones, a close below
    the zone's low, a close above the zone's high. *)
Definition zone_prefix : list CandleData :=
  [ mkCandle 0 101 102 100 101; mkCandle 60 101 102 100 101;
    mkCandle 120 102 103 99 100; mkCandle 180 100 111 100 110 ].
Definition zone_quiet (t : Z) : CandleData := mkCandle t 101 102 100 101.
Definition zone_break : CandleData := mkCandle 240 99 99 97 98.
Definition zone_reclaim : CandleData := mkCandle 300 103 105 103 104.
Definition zone_fresh : OrderBlock := mkOB 120 103 99 Bullish false Standard.

(** The price a touch test probes: the bar's low for a bullish touch, its
    high for a bearish one. *)
Definition probe (d : Direction) (candle : CandleData) : Q :=
  match d with Bullish => c_low candle | Bearish => c_high candle end.

(** An unmitigated zone of direction [d], anchored strictly before the bar,
    whose band contains the probed price. *)
Definition touches_zone (d : Direction) (candle : CandleData) (ob : OrderBlock) : Prop :=
  ob_direction ob = d /\ ob_mitigated ob = false
  /\ (ob_priceLow ob <= probe d candle)%Q /\ (probe d candle <= ob_priceHigh ob)%Q
  /\ ob_time ob < c_time candle.

Definition touches_gap (d : Direction) (candle : CandleData) (f : FVG) : Prop :=
  f_direction f = d
  /\ (f_priceLow f <= probe d candle)%Q /\ (probe d candle <= f_priceHigh f)%Q
  /\ f_time f < c_time candle.

(** [x] is the first element of [l], in storage order, that satisfies [P]. *)
Definition first_match {A} (P : A -> Prop) (l : list A) (x : A) : Prop :=
  exists pre post, l = pre ++ x :: post /\ P x /\ forall y, In y pre -> ~ P y.

(** Two bullish zones that both contain the low 100 of the bar: the one
    stored first is older and further from the price. *)
Definition touch_bar : CandleData := mkCandle 1000 101 102 100 101.
Definition touch_zones : list OrderBlock :=
  [ mkOB 100 120 80 Bullish false Standard; mkOB 900 101 100 Bullish false Standard ].

(** The emission gate of the bar [i] in the loop state [st]. *)
Definition gate_open (data : list CandleData) (obs : list OrderBlock) (fvgs : list FVG)
    (st : EntryState) (i : nat) : Prop :=
  4 <= score_of obs fvgs (at_ data i)
  /\ COOLDOWN < c_time (at_ data i) - lastSignalTime st
  /\ (long_ok data obs fvgs i = true \/ short_ok data obs fvgs i = true).

(** The iteration [i] pushes the signal [s] and records its timestamp. *)
Definition emitted (data : list CandleData) (obs : list OrderBlock) (fvgs : list FVG)
    (timeframe : string) (st : EntryState) (i : nat) (s : EntrySignal) : Prop :=
  entry_step data obs fvgs timeframe st i = mkEntry (signals st ++ [s]) (c_time (at_ data i))
  /\ s_time s = c_time (at_ data i)
  /\ ((s_type s = LONG /\ long_ok data obs fvgs i = true)
      \/ (s_type s = SHORT /\ short_ok data obs fvgs i = true)).

(** Each timestamp of [ts] is more than [COOLDOWN] after the one before it,
    the first one more than [COOLDOWN] after [prev]. *)
Fixpoint spaced (prev : Z) (ts : list Z) : Prop :=
  match ts with
  | [] => True
  | t :: r => COOLDOWN < t - prev /\ spaced t r
  end.

(** The loop invariant of [detectEntries]. *)
Definition entry_inv (st : EntryState) : Prop :=
  spaced 0 (map s_time (signals st))
  /\ lastSignalTime st = last (map s_time (signals st)) 0.

(** Five-minute bars: a hundred flat ones, then three that close higher,
    with their lows inside a bullish zone and a bullish gap. *)
Definition cd_bar (k : nat) : CandleData :=
  if (k <? 100)%nat
  then mkCandle (3000 + 300 * Z.of_nat k) 100 100 100 100
  else mkCandle (3000 + 300 * Z.of_nat k) 100 101 100 101.
Definition cd_data : list CandleData := map cd_bar (seq 0 103).
Definition cd_obs : list OrderBlock := [mkOB 400 101 99 Bullish false Standard].
Definition cd_fvgs : list FVG := [mkFVG 400 101 99 Bullish false false].

(** The bar [c] reaches the stop, resp. the target, of the signal [s]. *)
Definition hits_stop (s : EntrySignal) (c : CandleData) : Prop :=
  match s_type s with
  | LONG => (c_low c <= s_sl s)%Q
  | SHORT => (s_sl s <= c_high c)%Q
  end.

Definition hits_target (s : EntrySignal) (c : CandleData) : Prop :=
  match s_type s with
  | LONG => (s_tp s <= c_high c)%Q
  | SHORT => (c_low c <= s_tp s)%Q
  end.

(** What the callback computes for a signal: nothing when no bar carries
    its timestamp, else the result of the forward scan. *)
Definition outcome (data : list CandleData) (signal : EntrySignal)
  : option (BacktestResult * Z) :=
  match findIndex (fun d => c_time d =? s_time signal) data with
  | None => None
  | Some startIndex => Some (bt_scan signal (skipn (startIndex + 1) data))
  end.

Definition has_outcome (r : BacktestResult) (data : list CandleData) (s : EntrySignal) : bool :=
  match outcome data s with
  | Some (r', _) => BacktestResult_eqb r' r
  | None => false
  end.

(** The number of signals of [sigs] whose scan ends in [r]. *)
Definition count_result (r : BacktestResult) (data : list CandleData)
    (sigs : list EntrySignal) : Z :=
  Z.of_nat (length (filter (has_outcome r data) sigs)).

(** The [pnl] of the located signals, in the order of [sigs]. *)
Definition pnls (data : list CandleData) (sigs : list EntrySignal) : list Z :=
  flat_map (fun s => match outcome data s with Some (_, p) => [p] | None => [] end) sigs.

(** The running balances after each amount of [ps], from [balance]. *)
Fixpoint running (balance : Z) (ps : list Z) : list Z :=
  match ps with
  | [] => []
  | p :: r => (balance + p) :: running (balance + p) r
  end.

(** A Long signal on the last bar of a two-bar series. *)
Definition bt_bars : list CandleData :=
  [ mkCandle 60 100 101 99 100; mkCandle 120 100 101 99 100 ].
Definition bt_signal : EntrySignal :=
  mkSignal 120 LONG 100 5 ["Discount FVG"%string] 98 104 80 SCALP MANIPULATION None None.

(** Five bars with, for a swing length of 1, a pivot high at index 1, a
    pivot low at index 2 and a pivot high at index 3. *)
Definition swing_bars : list CandleData :=
  [ mkCandle 60 9 10 8 9; mkCandle 120 10 12 9 11; mkCandle 180 10 11 7 8;
    mkCandle 240 9 13 8 12; mkCandle 300 11 12 8 9 ].

(** [kept] holds the [n] elements of [l] with the largest keys (all of them
    when [l] has fewer), in descending order of [key]: [l] is, up to order,
    [kept] followed by the dropped elements, the whole in descending
    order. *)
Definition most_recent {A} (key : A -> Z) (n : nat) (l kept : list A) : Prop :=
  length kept = Nat.min n (length l)
  /\ exists dropped,
       Permutation l (kept ++ dropped)
       /\ StronglySorted (fun a b => key b <= key a) (kept ++ dropped).

Definition winCount (trades : list EntrySignal) : Z :=
  Z.of_nat (length (filter (is_result WIN) trades)).
Definition lossCount (trades : list EntrySignal) : Z :=
  Z.of_nat (length (filter (is_result LOSS) trades)).

(** The resolved signals of [entries] that fall on the calendar date [d]. *)
Definition on_date (dateOf : Z -> string) (entries : list EntrySignal) (d : string)
  : list EntrySignal :=
  filter (fun e => String.eqb (dateOf (s_time e)) d) (filter resolved entries).

(** A calendar for examples: the UTC day number of a timestamp, written
    [d<n>] for the first days of the epoch. *)
Definition day_name (t : Z) : string :=
  match t / 86400 with
  | 0 => "d0" | 1 => "d1" | 2 => "d2" | 3 => "d3" | _ => "d4"
  end.
Definition day_time (s : string) : option Z :=
  if String.eqb s "d0" then Some 0
  else if String.eqb s "d1" then Some 86400000
  else if String.eqb s "d2" then Some 172800000
  else if String.eqb s "d3" then Some 259200000
  else Some 345600000.

(** Fifteen resolved signals of the day [d1], one per hour. *)
Definition day_signal (k : nat) : EntrySignal :=
  mkSignal (86400 + 3600 * Z.of_nat k) LONG 100 5 [] 98 104 80 SCALP MANIPULATION
           (Some (if Nat.even k then WIN else LOSS))
           (Some (if Nat.even k then 2000 else -1000)).
Definition day_signals : list EntrySignal := map day_signal (seq 0 15).

(** The bars come in strictly ascending order of timestamp. *)
Definition time_ascending (data : list CandleData) : Prop :=
  StronglySorted Z.lt (map c_time data).

(** Timestamps in ascending (non-decreasing) order. *)
Definition ascending (ts : list Z) : Prop := StronglySorted Z.le ts.

(** The bar [i] passes the score gate and [s] is the signal built for it. *)
Definition signal_at (data : list CandleData) (obs : list OrderBlock) (fvgs : list FVG)
    (timeframe : string) (i : nat) (s : EntrySignal) : Prop :=
  4 <= score_of obs fvgs (at_ data i)
  /\ ((long_ok data obs fvgs i = true /\ s = long_signal data obs fvgs timeframe i)
      \/ (long_ok data obs fvgs i = false /\ short_ok data obs fvgs i = true
          /\ s = short_signal data obs fvgs timeframe i)).

(** Bars whose close lies between low and high and is positive. *)
Definition well_formed (data : list CandleData) : Prop :=
  forall d, In d data ->
    (c_low d <= c_close d)%Q /\ (c_close d <= c_high d)%Q /\ (0 < c_close d)%Q.

(** What [signals.map] of the backtest returns for one signal. *)
Definition backtested (data : list CandleData) (s : EntrySignal) : EntrySignal :=
  match outcome data s with
  | None => s
  | Some (result, pnl) => with_backtest s result pnl
  end.

(** Timestamps more than [COOLDOWN] apart, in ascending order. *)
Definition cooled (ts : list Z) : Prop :=
  StronglySorted (fun a b => a + COOLDOWN < b) ts.

(** Three-minute bars: flat at 100 up to the bar 60, a bar that rises to
    103 in the hour 3 UTC, then bars at 103 whose low of 102 stays inside
    the bullish gap [[100, 102]] left behind. *)
Definition gap_bar (k : nat) : CandleData :=
  if (k <? 61)%nat then mkCandle (180 * Z.of_nat k) 100 100 100 100
  else if (k =? 61)%nat then mkCandle (180 * Z.of_nat k) 100 103 100 103
  else mkCandle (180 * Z.of_nat k) 103 103 102 103.
Definition gap_data : list CandleData := map gap_bar (seq 0 101).

(** The effect of one located outcome on the captured variables of the
    backtest; an unlocated signal leaves them alone. *)
Definition bt_apply (st : BtState) (o : option (BacktestResult * Z)) : BtState :=
  match o with
  | None => st
  | Some (result, pnl) =>
      let currentBalance := bt_currentBalance st + pnl in
      let peakBalance := Z.max (bt_peakBalance st) currentBalance in
      mkBt (if BacktestResult_eqb result WIN then bt_wins st + 1 else bt_wins st)
           (if BacktestResult_eqb result LOSS then bt_losses st + 1 else bt_losses st)
           (bt_netPnL st + pnl)
           (Z.max (bt_maxDrawdown st) (peakBalance - currentBalance))
           peakBalance currentBalance (bt_equityCurve st ++ [currentBalance])
  end.

(** [r] is the signal [s] with, at most, its backtest fields changed. *)
Definition same_setup (s r : EntrySignal) : Prop :=
  s_time r = s_time s /\ s_type r = s_type s /\ s_price r = s_price s
  /\ s_score r = s_score s /\ s_confluences r = s_confluences s
  /\ s_sl r = s_sl s /\ s_tp r = s_tp s /\ s_winProbability r = s_winProbability s
  /\ s_tradingStyle r = s_tradingStyle s /\ s_po3Phase r = s_po3Phase s.

(** [cd_data] followed by a bar that reaches the target of the signal of
    the bar 100. *)
Definition win_data : list CandleData := cd_data ++ [mkCandle 33900 101 106 101 105].

(** [e.backtestPnL || 0] *)
Definition pnl_of (e : EntrySignal) : Z :=
  match s_backtestPnL e with Some p => p | None => 0 end.

Definition Zsum (l : list Z) : Z := fold_left Z.add l 0.

(** The point [pt] marks a pivot of [data]: a high-side point (HH or LH,
    Bearish) carries the time and the high of a pivot high, a low-side
    point (LL or HL, Bullish) the time and the low of a pivot low. *)
Definition marks_pivot (data : list CandleData) (swingLength : nat) (pt : StructurePoint)
  : Prop :=
  exists i, (swingLength <= i < length data - swingLength)%nat
    /\ sp_time pt = c_time (at_ data i)
    /\ (((sp_type pt = HH \/ sp_type pt = LH) /\ sp_direction pt = Bearish
         /\ isHigh data swingLength i = true /\ sp_price pt = c_high (at_ data i))
        \/ ((sp_type pt = LL \/ sp_type pt = HL) /\ sp_direction pt = Bullish
            /\ isLow data swingLength i = true /\ sp_price pt = c_low (at_ data i))).

(** The pivot [p] was pushed for an index of the scan. *)
Definition pivot_of (data : list CandleData) (swingLength : nat) (p : Pivot) : Prop :=
  (swingLength <= p_index p < length data - swingLength)%nat
  /\ ((p_kind p = High /\ isHigh data swingLength (p_index p) = true
       /\ p_price p = c_high (at_ data (p_index p)))
      \/ (p_kind p = Low /\ isLow data swingLength (p_index p) = true
          /\ p_price p = c_low (at_ data (p_index p)))).

(** The zone [ob] is anchored at the bar [i]: it has its timestamp and its
    [low, high] band; a zone on a down-close bar is Bullish while Standard
    and Bearish once a Breaker, a zone on an up-close bar the reverse. *)
Definition anchored_at (data : list CandleData) (i : nat) (ob : OrderBlock) : Prop :=
  ob_time ob = c_time (at_ data i)
  /\ ob_priceHigh ob = c_high (at_ data i) /\ ob_priceLow ob = c_low (at_ data i)
  /\ (((c_close (at_ data i) < c_open (at_ data i))%Q
       /\ (c_high (at_ data i) < c_close (at_ data (i + 1)))%Q
       /\ ((ob_direction ob = Bullish /\ ob_subtype ob = Standard)
           \/ (ob_direction ob = Bearish /\ ob_subtype ob = Breaker)))
      \/ ((c_open (at_ data i) < c_close (at_ data i))%Q
          /\ (c_close (at_ data (i + 1)) < c_low (at_ data i))%Q
          /\ ((ob_direction ob = Bearish /\ ob_subtype ob = Standard)
              \/ (ob_direction ob = Bullish /\ ob_subtype ob = Breaker)))).

(** The background colour the chart gives to each session window. *)
Definition session_color (s : SessionType) : string :=
  match s with
  | ASIA => "rgba(255, 165, 0, 0.15)"
  | LONDON => "rgba(41, 98, 255, 0.15)"
  | NEW_YORK => "rgba(0, 230, 118, 0.15)"
  | NONE => "transparent"
  end.

(** A Long position on the last bar of [cd_data], and a Short one. *)
Definition long_position : TradeEntry :=
  mkTrade 34000 LONG 100 98 104 (Some T_OPEN) None [] 0.
Definition short_position : TradeEntry :=
  mkTrade 34000 SHORT 102 104 98 (Some T_OPEN) None [] 0.

(** Five-minute bars: a hundred flat ones, then one that closes lower, with
    its high inside a bearish zone and a bearish silver-bullet gap. *)
Definition sd_bar (k : nat) : CandleData :=
  if (k <? 100)%nat
  then mkCandle (3000 + 300 * Z.of_nat k) 100 100 100 100
  else mkCandle (3000 + 300 * Z.of_nat k) 100 100 99 99.
Definition sd_data : list CandleData := map sd_bar (seq 0 101).
Definition sd_obs : list OrderBlock := [mkOB 400 101 99 Bearish false Standard].
Definition sd_fvgs : list FVG := [mkFVG 400 101 99 Bearish false true].

(** The calendar serves the rollup of [entries]: the date of every resolved
    signal parses, and of two resolved signals on different dates the
    later one has the later parsed date (as on a host whose date strings
    read back as the days they name). *)
Definition calendar_coherent (dateOf : Z -> string) (parseDate : string -> option Z)
    (entries : list EntrySignal) : Prop :=
  forall e1 e2, In e1 entries -> In e2 entries ->
    resolved e1 = true -> resolved e2 = true ->
    exists t1 t2,
      parseDate (dateOf (s_time e1)) = Some t1
      /\ parseDate (dateOf (s_time e2)) = Some t2
      /\ (dateOf (s_time e1) <> dateOf (s_time e2) -> s_time e1 < s_time e2 -> t1 < t2).

(** A resolved signal at the time [t]. *)
Definition won_at (t : Z) : EntrySignal :=
  mkSignal t LONG 100 5 [] 98 104 80 SCALP MANIPULATION (Some WIN) (Some 2000).

(** One resolved signal on each of the days [d0] to [d3]. *)
Definition four_days : list EntrySignal :=
  [won_at 3600; won_at 90000; won_at 176400; won_at 262800].

(** A host in the en-GB locale and the UTC zone, from 13 to 16 January
    2025 (days 20101 to 20104 of the epoch): dates print as dd/mm/yyyy,
    and [new Date] reads the first number as a month, so that none of
    these four strings parses. *)
Definition gb_date (t : Z) : string :=
  match t / 86400 with
  | 20101 => "13/01/2025"
  | 20102 => "14/01/2025"
  | 20103 => "15/01/2025"
  | _ => "16/01/2025"
  end.
Definition gb_parse (s : string) : option Z := None.

(** One resolved signal on each of the four days, at one in the morning. *)
Definition gb_signals : list EntrySignal :=
  [won_at 1736730000; won_at 1736816400; won_at 1736902800; won_at 1736989200].

(** The overrides of a highlighted bar: body, border and wick in yellow. *)
Definition yellow : CandleColor :=
  mkColor (Some "#FFFF00"%string) (Some "#FFFF00"%string) (Some "#FFFF00"%string).
(** * Properties *)

(** ** Comparisons *)

Lemma Qleb_le (x y : Q) : Qleb x y = true <-> (x <= y)%Q.
Proof. apply Qle_bool_iff. Qed.

Lemma Qltb_lt (x y : Q) : Qltb x y = true <-> (x < y)%Q.
Proof.
  unfold Qltb. rewrite negb_true_iff.
  split; intro H.
  - apply Qnot_le_lt. intro Hle. apply Qle_bool_iff in Hle. congruence.
  - destruct (Qle_bool y x) eqn:E; [|reflexivity].
    apply Qle_bool_iff in E. exfalso. exact (Qlt_not_le _ _ H E).
Qed.

Lemma Qgtb_gt (x y : Q) : Qgtb x y = true <-> (y < x)%Q.
Proof. apply Qltb_lt. Qed.

Lemma Qgeb_ge (x y : Q) : Qgeb x y = true <-> (y <= x)%Q.
Proof. apply Qleb_le. Qed.

Lemma Qltb_irrefl (x : Q) : Qltb x x = false.
Proof.
  destruct (Qltb x x) eqn:E; [|reflexivity].
  apply Qltb_lt in E. exfalso. exact (Qlt_irrefl _ E).
Qed.

(** ** Sessions *)

Lemma getSession_cases (hour : Z) :
  getSession hour =
    if (0 <=? hour) && (hour <? 8) then ASIA
    else if (8 <=? hour) && (hour <? 16) then LONDON
    else if (16 <=? hour) && (hour <? 21) then NEW_YORK
    else NONE.
Proof.
  unfold getSession.
  repeat match goal with
         | |- context [?a <=? ?b] => destruct (Z.leb_spec a b)
         | |- context [?a <? ?b] => destruct (Z.ltb_spec a b)
         end; simpl; try reflexivity; lia.
Qed.

(** C10: session classification is single-valued with priority Asia over
    London over New York.  Hour 7 is Asia, so the PO3 phase of such a bar
    is Accumulation; the hours 12 to 15 are London; and the session bonus
    of a bar is 1 when its hour is in [0, 21) and 0 otherwise, never 2. *)
Theorem session_priority (hour : Z) (candle : CandleData) :
  getSession 7 = ASIA
  /\ determinePO3 candle (getSession 7) = ACCUMULATION
  /\ (12 <= hour <= 15 -> getSession hour = LONDON)
  /\ session_score (getSession hour)
     = (if (0 <=? hour) && (hour <? 21) then 1 else 0).
Proof.
  split; [reflexivity|]. split; [reflexivity|]. split.
  - intros H. rewrite getSession_cases.
    destruct (Z.leb_spec 0 hour), (Z.ltb_spec hour 8),
             (Z.leb_spec 8 hour), (Z.ltb_spec hour 16); simpl; try reflexivity; lia.
  - rewrite getSession_cases.
    destruct (Z.leb_spec 0 hour), (Z.ltb_spec hour 8),
             (Z.leb_spec 8 hour), (Z.ltb_spec hour 16),
             (Z.leb_spec 16 hour), (Z.ltb_spec hour 21); simpl; try reflexivity; lia.
Qed.

Lemma session_priority_witness :
  getSession 13 = LONDON
  /\ session_score (getSession 13) = 1
  /\ session_score (getSession 22) = 0.
Proof.
  split; [|split].
  - apply (session_priority 13 candle0). lia.
  - reflexivity.
  - reflexivity.
Defined.

(** ** Fair value gaps *)

Lemma fvg_hit_mitigates (g : FVG) (d : CandleData) :
  fvg_hit g d = true <-> fvg_mitigates g d.
Proof.
  unfold fvg_hit, fvg_mitigates.
  rewrite orb_true_iff, !andb_true_iff, Qltb_lt, Qgtb_gt.
  destruct (f_direction g); simpl; intuition congruence.
Qed.

Lemma fvg_scan_existsb (fvg : FVG) (future : list CandleData) :
  fvg_scan fvg future
  = if existsb (fvg_hit fvg) future then fvg_set_mitigated fvg else fvg.
Proof.
  induction future as [|candle rest IH]; simpl; [reflexivity|].
  unfold fvg_hit at 1.
  destruct (Direction_eqb (f_direction fvg) Bullish && Qltb (c_low candle) (f_priceLow fvg));
    simpl; [reflexivity|].
  destruct (Direction_eqb (f_direction fvg) Bearish && Qgtb (c_high candle) (f_priceHigh fvg));
    simpl; [reflexivity|].
  exact IH.
Qed.

Lemma fvg_at_In (data : list CandleData) (i : nat) (g : FVG) :
  In g (fvg_at data i) <->
  (g = bullish_gap_at data i /\ (c_high (at_ data (i - 2)) < c_low (at_ data i))%Q)
  \/ (g = bearish_gap_at data i /\ (c_high (at_ data i) < c_low (at_ data (i - 2)))%Q).
Proof.
  unfold fvg_at, bullish_gap_at, bearish_gap_at.
  rewrite in_app_iff.
  destruct (Qltb (c_high (at_ data (i - 2))) (c_low (at_ data i))) eqn:E1;
  destruct (Qgtb (c_low (at_ data (i - 2))) (c_high (at_ data i))) eqn:E2;
  simpl;
  repeat match goal with
         | H : Qltb _ _ = true |- _ => apply Qltb_lt in H
         | H : Qgtb _ _ = true |- _ => apply Qgtb_gt in H
         end.
  - intuition auto.
  - split; [intros [[H|[]]|[]]; left; auto|].
    intros [[H _]|[_ H]]; [left; left; auto|].
    apply Qgtb_gt in H. congruence.
  - split; [intros [[]|[H|[]]]; right; auto|].
    intros [[_ H]|[H _]]; [|right; left; auto].
    apply Qltb_lt in H. congruence.
  - split; [intros [[]|[]]|].
    intros [[_ H]|[_ H]]; [apply Qltb_lt in H|apply Qgtb_gt in H]; congruence.
Qed.

Lemma fvg_candidates_In (data : list CandleData) (g : FVG) :
  In g (fvg_candidates data) <->
  exists i, (2 <= i < length data)%nat /\ In g (fvg_at data i).
Proof.
  unfold fvg_candidates. rewrite in_flat_map.
  split; intros [i [H1 H2]]; exists i.
  - apply in_seq in H1. split; [lia|exact H2].
  - split; [apply in_seq; lia|exact H2].
Qed.

Lemma fvg_candidates_fresh (data : list CandleData) (g : FVG) :
  In g (fvg_candidates data) -> f_mitigated g = false.
Proof.
  intros H. apply fvg_candidates_In in H. destruct H as [i [_ H]].
  apply fvg_at_In in H. destruct H as [[-> _]|[-> _]]; reflexivity.
Qed.

Lemma detectFVG_In (data : list CandleData) (g : FVG) :
  In g (detectFVG data) <->
  In g (fvg_candidates data)
  /\ forall d, In d data -> c_time d > f_time g -> ~ fvg_mitigates g d.
Proof.
  unfold detectFVG. rewrite filter_In, in_map_iff.
  assert (Hex : forall f,
    existsb (fvg_hit f) (futureCandles data f) = false <->
    forall d, In d data -> c_time d > f_time f -> ~ fvg_mitigates f d).
  { intros f. split.
    - intros H d Hd Ht Hm.
      apply fvg_hit_mitigates in Hm.
      assert (existsb (fvg_hit f) (futureCandles data f) = true); [|congruence].
      apply existsb_exists. exists d. split; [|exact Hm].
      unfold futureCandles. apply filter_In. split; [exact Hd|].
      apply Z.gtb_lt. lia.
    - intros H.
      destruct (existsb (fvg_hit f) (futureCandles data f)) eqn:E; [|reflexivity].
      apply existsb_exists in E. destruct E as [d [Hd Hh]].
      unfold futureCandles in Hd. apply filter_In in Hd. destruct Hd as [Hd Ht].
      apply Z.gtb_lt in Ht. exfalso.
      apply (H d Hd); [lia|]. apply fvg_hit_mitigates. exact Hh. }
  split.
  - intros [[f [Hs Hf]] Hm].
    rewrite fvg_scan_existsb in Hs.
    destruct (existsb (fvg_hit f) (futureCandles data f)) eqn:E.
    + subst g. simpl in Hm. discriminate.
    + subst g. split; [exact Hf|]. apply Hex. exact E.
  - intros [Hf H]. split.
    + exists g. split; [|exact Hf].
      rewrite fvg_scan_existsb. apply Hex in H. rewrite H. reflexivity.
    + rewrite (fvg_candidates_fresh data g Hf). reflexivity.
Qed.

(** C6: at every index [i >= 2] a Bullish gap is recorded iff
    [data[i-2].high < data[i].low], with band
    [[data[i-2].high, data[i].low]] and the timestamp of [data[i-1]] (mirror
    for Bearish); the detector returns exactly the recorded gaps that no
    bar with a later timestamp mitigates (low below the lower bound of a
    bullish gap, high above the upper bound of a bearish one).  The triplet
    with [high[0] = 100] and [low[2] = 105] yields the Bullish gap
    [[100, 105]], gone once a later bar has a low below 100. *)
Theorem detectFVG_spec (data : list CandleData) (g : FVG) :
  (In g (fvg_candidates data) <->
   exists i, (2 <= i < length data)%nat /\
     ((g = bullish_gap_at data i /\ (c_high (at_ data (i - 2)) < c_low (at_ data i))%Q)
      \/ (g = bearish_gap_at data i /\ (c_high (at_ data i) < c_low (at_ data (i - 2)))%Q)))
  /\ (In g (detectFVG data) <->
      In g (fvg_candidates data)
      /\ forall d, In d data -> c_time d > f_time g -> ~ fvg_mitigates g d)
  /\ detectFVG fvg_triplet = [mkFVG 120 105 100 Bullish false false]
  /\ detectFVG (fvg_triplet ++ [fvg_filler]) = [].
Proof.
  split; [|split; [apply detectFVG_In|split; reflexivity]].
  rewrite fvg_candidates_In.
  split; intros [i [Hi H]]; exists i; (split; [exact Hi|]); apply fvg_at_In; exact H.
Qed.

Lemma detectFVG_spec_witness :
  In (mkFVG 120 105 100 Bullish false false) (fvg_candidates fvg_triplet)
  /\ ~ fvg_mitigates (mkFVG 120 105 100 Bullish false false) (mkCandle 180 106 107 105 106).
Proof.
  pose proof (detectFVG_spec fvg_triplet (mkFVG 120 105 100 Bullish false false))
    as [_ [H _]].
  destruct (proj1 H) as [Hc Hm]; [left; reflexivity|].
  split; [exact Hc|]. apply Hm; [right; right; left; reflexivity|reflexivity].
Defined.

(** ** Impulse zones: the lifecycle *)

Lemma ob_step_standard (ob : OrderBlock) (c : CandleData) :
  ob_subtype ob = Standard ->
  ob_step ob c
  = if breaks (ob_direction ob) ob c then ob_flip ob (opposite (ob_direction ob)) else ob.
Proof.
  intros Hs. unfold ob_step, breaks. rewrite Hs.
  destruct (ob_direction ob); simpl.
  - destruct (Qltb (c_close c) (ob_priceLow ob)); reflexivity.
  - destruct (Qgtb (c_close c) (ob_priceHigh ob)); reflexivity.
Qed.

Lemma ob_step_breaker (ob : OrderBlock) (c : CandleData) :
  ob_subtype ob = Breaker ->
  ob_step ob c = if breaks (ob_direction ob) ob c then ob_set_mitigated ob else ob.
Proof.
  intros Hs. unfold ob_step, breaks. rewrite Hs.
  destruct (ob_direction ob); simpl.
  - destruct (Qltb (c_close c) (ob_priceLow ob)); reflexivity.
  - destruct (Qgtb (c_close c) (ob_priceHigh ob)); reflexivity.
Qed.

Lemma ob_scan_breaker (bars : list CandleData) (ob : OrderBlock) :
  ob_subtype ob = Breaker ->
  ob_scan ob bars
  = if existsb (breaks (ob_direction ob) ob) bars then ob_set_mitigated ob else ob.
Proof.
  revert ob. induction bars as [|c rest IH]; intros ob Hs; [reflexivity|].
  unfold ob_scan in *. simpl fold_left. rewrite (ob_step_breaker ob c Hs). simpl existsb.
  destruct (breaks (ob_direction ob) ob c) eqn:E; simpl.
  - rewrite IH by exact Hs.
    destruct (existsb _ rest); reflexivity.
  - apply IH. exact Hs.
Qed.

Lemma ob_scan_standard (bars : list CandleData) (ob : OrderBlock) :
  ob_subtype ob = Standard -> ob_scan ob bars = lifecycle_spec ob bars.
Proof.
  intros Hs. unfold lifecycle_spec.
  induction bars as [|c rest IH]; [reflexivity|].
  unfold ob_scan in *. simpl fold_left. rewrite (ob_step_standard ob c Hs). simpl findIndex.
  destruct (breaks (ob_direction ob) ob c) eqn:E.
  - fold (ob_scan (ob_flip ob (opposite (ob_direction ob))) rest).
    rewrite ob_scan_breaker by reflexivity. reflexivity.
  - rewrite IH. destruct (findIndex (breaks (ob_direction ob) ob) rest); reflexivity.
Qed.

Lemma ob_step_mitigated (ob : OrderBlock) (c : CandleData) :
  ob_mitigated ob = true -> ob_mitigated (ob_step ob c) = true.
Proof.
  intros Hm. unfold ob_step.
  destruct (ob_subtype ob);
    repeat match goal with
           | |- context [if ?b then _ else _] => destruct b
           end; simpl; auto.
Qed.

Lemma ob_scan_mitigated (bars : list CandleData) (ob : OrderBlock) :
  ob_mitigated ob = true -> ob_mitigated (ob_scan ob bars) = true.
Proof.
  revert ob. induction bars as [|c rest IH]; intros ob Hm; [exact Hm|].
  unfold ob_scan in *. simpl. apply IH. apply ob_step_mitigated. exact Hm.
Qed.

Lemma In_slice_last {A} (n : nat) (l : list A) (x : A) :
  In x (slice_last n l) -> In x l.
Proof.
  unfold slice_last. intros H.
  rewrite <- (firstn_skipn (List.length l - n) l). apply in_or_app. right. exact H.
Qed.

Lemma ob_at_In (data : list CandleData) (m : Q) (i : nat) (c : OrderBlock) :
  In c (ob_at data m i) ->
  ob_time c = c_time (at_ data i)
  /\ ob_priceHigh c = c_high (at_ data i) /\ ob_priceLow c = c_low (at_ data i)
  /\ ob_subtype c = Standard /\ ob_mitigated c = false.
Proof.
  unfold ob_at. intros H. apply in_app_or in H.
  destruct H as [H|H];
    match type of H with In _ (if ?b then _ else _) => destruct b end;
    simpl in H; try contradiction;
    destruct H as [<-|[]]; simpl; auto.
Qed.

Lemma ob_candidates_In (data : list CandleData) (m : Q) (c : OrderBlock) :
  In c (ob_candidates data m) ->
  exists i, (2 <= i /\ i + 3 < length data)%nat /\ In c (ob_at data m i).
Proof.
  unfold ob_candidates. intros H. apply in_flat_map in H.
  destruct H as [i [Hi H]]. exists i. apply in_seq in Hi. split; [lia|exact H].
Qed.

Lemma detectOrderBlocks_In (data : list CandleData) (m : Q) (ob : OrderBlock) :
  In ob (detectOrderBlocks data m) ->
  ob_mitigated ob = false
  /\ exists c, In c (ob_candidates data m) /\ ob = ob_lifecycle data c.
Proof.
  unfold detectOrderBlocks. intros H. apply In_slice_last in H.
  apply filter_In in H. destruct H as [H Hm].
  apply negb_true_iff in Hm. split; [exact Hm|].
  apply in_map_iff in H. destruct H as [c [Hc Hin]]. exists c. auto.
Qed.

(** With unique timestamps [findIndex] on the timestamp of [data[i]]
    returns [i]: the scan of a zone starts right after its anchor bar. *)
Lemma findIndex_time (data : list CandleData) (i : nat) :
  NoDup (map c_time data) -> (i < length data)%nat ->
  findIndex (fun d => c_time d =? c_time (at_ data i)) data = Some i.
Proof.
  revert i. induction data as [|d rest IH]; intros i Hnd Hi; simpl in Hi; [lia|].
  inversion Hnd as [|t ts Hnotin Hnd']; subst.
  destruct i as [|i]; simpl.
  - unfold at_. simpl. rewrite Z.eqb_refl. reflexivity.
  - unfold at_. simpl nth.
    destruct (Z.eqb_spec (c_time d) (c_time (nth i rest candle0))) as [E|E].
    + exfalso. apply Hnotin. rewrite E. apply in_map. apply nth_In. lia.
    + fold (at_ rest i). rewrite IH; [reflexivity|exact Hnd'|lia].
Qed.

(** C1: the lifecycle scan of a zone is the two-stage machine
    [lifecycle_spec]: a Standard zone is untouched until the first bar
    whose close breaks it against its direction (below the lower bound of
    a bullish zone, above the upper bound of a bearish one), which makes it
    a Breaker of the opposite direction; a Breaker becomes mitigated on a
    later close that breaks it against the new direction; a mitigated zone
    stays mitigated; and the detector returns no mitigated zone, each zone
    it returns being the scan of a fresh Standard candidate over the bars
    after its anchor. *)
Theorem zone_lifecycle (data : list CandleData) (thresholdMult : Q)
    (ob : OrderBlock) (bars : list CandleData) :
  (ob_subtype ob = Standard -> ob_scan ob bars = lifecycle_spec ob bars)
  /\ (ob_mitigated ob = true -> ob_mitigated (ob_scan ob bars) = true)
  /\ (In ob (detectOrderBlocks data thresholdMult) ->
      ob_mitigated ob = false
      /\ exists i c,
           (2 <= i /\ i + 3 < length data)%nat
           /\ In c (ob_at data thresholdMult i)
           /\ ob_time c = c_time (at_ data i)
           /\ ob_subtype c = Standard /\ ob_mitigated c = false
           /\ ob = ob_lifecycle data c
           /\ (NoDup (map c_time data) -> ob = ob_scan c (skipn (i + 1) data))).
Proof.
  split; [apply ob_scan_standard|]. split; [apply ob_scan_mitigated|].
  intros H. apply detectOrderBlocks_In in H. destruct H as [Hm [c [Hc ->]]].
  split; [exact Hm|].
  apply ob_candidates_In in Hc. destruct Hc as [i [Hi Hc]].
  destruct (ob_at_In _ _ _ _ Hc) as [Ht [_ [_ [Hs Hf]]]].
  exists i, c. repeat (split; [assumption || lia|]). split; [reflexivity|].
  intros Hnd. unfold ob_lifecycle. rewrite Ht.
  rewrite findIndex_time; [reflexivity|exact Hnd|lia].
Qed.

Lemma zone_lifecycle_witness :
  ob_scan zone_fresh [zone_break; zone_reclaim]
  = lifecycle_spec zone_fresh [zone_break; zone_reclaim]
  /\ ob_mitigated (ob_scan (ob_set_mitigated zone_fresh) [zone_quiet 240]) = true
  /\ ob_mitigated (ob_flip zone_fresh Bearish) = false.
Proof.
  pose proof (zone_lifecycle (zone_prefix ++ [zone_break; zone_quiet 300]) (12 # 10)
                zone_fresh [zone_break; zone_reclaim]) as [H1 _].
  pose proof (zone_lifecycle (zone_prefix ++ [zone_break; zone_quiet 300]) (12 # 10)
                (ob_set_mitigated zone_fresh) [zone_quiet 240]) as [_ [H2 _]].
  pose proof (zone_lifecycle (zone_prefix ++ [zone_break; zone_quiet 300]) (12 # 10)
                (ob_flip zone_fresh Bearish) []) as [_ [_ H3]].
  split; [apply H1; reflexivity|].
  split; [apply H2; reflexivity|].
  apply H3. vm_compute. left. reflexivity.
Defined.

(** The lifecycle on the three continuations of [zone_prefix]: the zone is
    created Standard and Bullish; a close below its low makes it a Bearish
    Breaker; a further close above its high mitigates it, and the detector
    drops it. *)
Example zone_created :
  detectOrderBlocks (zone_prefix ++ [zone_quiet 240; zone_quiet 300]) (12 # 10)
  = [zone_fresh].
Proof. vm_compute. reflexivity. Qed.

Example zone_flipped :
  detectOrderBlocks (zone_prefix ++ [zone_break; zone_quiet 300]) (12 # 10)
  = [mkOB 120 103 99 Bearish false Breaker].
Proof. vm_compute. reflexivity. Qed.

Example zone_dropped :
  detectOrderBlocks (zone_prefix ++ [zone_break; zone_reclaim]) (12 # 10) = []
  /\ ob_scan zone_fresh [zone_break; zone_reclaim]
     = mkOB 120 103 99 Bearish true Breaker.
Proof. split; vm_compute; reflexivity. Qed.

(** ** Impulse zones: the threshold *)












(** ** Confluence lookups *)

Lemma find_first_match {A} (p : A -> bool) (P : A -> Prop) (l : list A) (x : A) :
  (forall y, p y = true <-> P y) ->
  find p l = Some x <-> first_match P l x.
Proof.
  intros Hp. unfold first_match. split.
  - induction l as [|y r IH]; simpl; [discriminate|].
    destruct (p y) eqn:E.
    + intros [= ->]. exists [], r. split; [reflexivity|].
      split; [apply Hp; exact E|]. intros z [].
    + intros H. destruct (IH H) as [pre [post [-> [Hx Hpre]]]].
      exists (y :: pre), post. split; [reflexivity|]. split; [exact Hx|].
      intros z [<-|Hz]; [|apply Hpre; exact Hz].
      intros Hy. apply Hp in Hy. congruence.
  - intros [pre [post [-> [Hx Hpre]]]].
    induction pre as [|y pre IH]; simpl.
    + apply Hp in Hx. rewrite Hx. reflexivity.
    + destruct (p y) eqn:E.
      * exfalso. apply (Hpre y); [left; reflexivity|]. apply Hp. exact E.
      * apply IH. intros z Hz. apply Hpre. right. exact Hz.
Qed.

Lemma find_no_match {A} (p : A -> bool) (P : A -> Prop) (l : list A) :
  (forall y, p y = true <-> P y) ->
  find p l = None <-> forall y, In y l -> ~ P y.
Proof.
  intros Hp. split.
  - intros H y Hy HP. apply Hp in HP.
    pose proof (find_none p l H y Hy). congruence.
  - intros H. destruct (find p l) as [x|] eqn:E; [|reflexivity].
    apply find_some in E. destruct E as [Hin Hx].
    exfalso. apply (H x Hin). apply Hp. exact Hx.
Qed.

Lemma bullOB_touch_iff (candle : CandleData) (ob : OrderBlock) :
  bullOB_touch candle ob = true <-> touches_zone Bullish candle ob.
Proof.
  unfold bullOB_touch, touches_zone, probe.
  rewrite !andb_true_iff, negb_true_iff, Qleb_le, Qgeb_ge, Z.ltb_lt.
  destruct (ob_direction ob); simpl; intuition congruence.
Qed.

Lemma bearOB_touch_iff (candle : CandleData) (ob : OrderBlock) :
  bearOB_touch candle ob = true <-> touches_zone Bearish candle ob.
Proof.
  unfold bearOB_touch, touches_zone, probe.
  rewrite !andb_true_iff, negb_true_iff, Qleb_le, Qgeb_ge, Z.ltb_lt.
  destruct (ob_direction ob); simpl; intuition congruence.
Qed.

Lemma bullFVG_touch_iff (candle : CandleData) (f : FVG) :
  bullFVG_touch candle f = true <-> touches_gap Bullish candle f.
Proof.
  unfold bullFVG_touch, touches_gap, probe.
  rewrite !andb_true_iff, Qleb_le, Qgeb_ge, Z.ltb_lt.
  destruct (f_direction f); simpl; intuition congruence.
Qed.

Lemma bearFVG_touch_iff (candle : CandleData) (f : FVG) :
  bearFVG_touch candle f = true <-> touches_gap Bearish candle f.
Proof.
  unfold bearFVG_touch, touches_gap, probe.
  rewrite !andb_true_iff, Qleb_le, Qgeb_ge, Z.ltb_lt.
  destruct (f_direction f); simpl; intuition congruence.
Qed.

(** *** Storage order is chronological *)

Lemma time_ascending_at (data : list CandleData) (i j : nat) :
  time_ascending data -> (i <= j < length data)%nat ->
  c_time (at_ data i) <= c_time (at_ data j).
Proof.
  unfold time_ascending, at_. revert i j.
  induction data as [|d rest IH]; intros i j Hs Hij; simpl in Hij; [lia|].
  simpl in Hs. apply StronglySorted_inv in Hs. destruct Hs as [Hr Hd].
  destruct i as [|i], j as [|j]; simpl; try lia.
  - assert (Hin : In (c_time (nth j rest candle0)) (map c_time rest)).
    { apply in_map. apply nth_In. lia. }
    rewrite Forall_forall in Hd. specialize (Hd _ Hin). lia.
  - apply IH; [exact Hr|lia].
Qed.

Lemma ascending_app (l1 l2 : list Z) :
  ascending l1 -> ascending l2 ->
  (forall x y, In x l1 -> In y l2 -> x <= y) -> ascending (l1 ++ l2).
Proof.
  unfold ascending. induction l1 as [|a r IH]; intros H1 H2 H; simpl; [exact H2|].
  apply StronglySorted_inv in H1. destruct H1 as [Hr Ha].
  constructor.
  - apply IH; [exact Hr|exact H2|]. intros x y Hx Hy. apply H; [right; exact Hx|exact Hy].
  - apply Forall_app. split; [exact Ha|].
    apply Forall_forall. intros y Hy. apply H; [left; reflexivity|exact Hy].
Qed.

Lemma ascending_const (t : Z) (l : list Z) :
  (forall x, In x l -> x = t) -> ascending l.
Proof.
  unfold ascending. induction l as [|a r IH]; intros H; constructor.
  - apply IH. intros x Hx. apply H. right. exact Hx.
  - apply Forall_forall. intros x Hx.
    rewrite (H a (or_introl eq_refl)), (H x (or_intror Hx)). lia.
Qed.

Lemma ascending_flat_map {B} (f : nat -> list B) (key : B -> Z) (t : nat -> Z)
    (n a : nat) :
  (forall i x, (a <= i < a + n)%nat -> In x (f i) -> key x = t i) ->
  (forall i j, (a <= i <= j)%nat -> (j < a + n)%nat -> t i <= t j) ->
  ascending (map key (flat_map f (seq a n))).
Proof.
  revert a. induction n as [|n IH]; intros a Hk Ht; simpl; [constructor|].
  rewrite map_app. apply ascending_app.
  - apply (ascending_const (t a)). intros x Hx. apply in_map_iff in Hx.
    destruct Hx as [b [<- Hb]]. apply (Hk a b); [lia|exact Hb].
  - apply IH.
    + intros i x Hi Hx. apply Hk; [lia|exact Hx].
    + intros i j Hij Hj. apply Ht; lia.
  - intros x y Hx Hy.
    apply in_map_iff in Hx. destruct Hx as [b [<- Hb]].
    apply in_map_iff in Hy. destruct Hy as [c [<- Hc]].
    apply in_flat_map in Hc. destruct Hc as [j [Hj Hc]]. apply in_seq in Hj.
    rewrite (Hk a b), (Hk j c); [apply Ht; lia|lia|exact Hc|lia|exact Hb].
Qed.

Lemma ascending_filter {B} (key : B -> Z) (p : B -> bool) (l : list B) :
  ascending (map key l) -> ascending (map key (filter p l)).
Proof.
  unfold ascending. induction l as [|x r IH]; intros H; simpl; [constructor|].
  simpl in H. apply StronglySorted_inv in H. destruct H as [Hr Hx].
  destruct (p x); [|apply IH; exact Hr].
  simpl. constructor; [apply IH; exact Hr|].
  rewrite Forall_forall in *. intros y Hy. apply Hx.
  apply in_map_iff in Hy. destruct Hy as [b [<- Hb]].
  apply filter_In in Hb. apply in_map. apply Hb.
Qed.

Lemma ascending_skipn (n : nat) (l : list Z) : ascending l -> ascending (skipn n l).
Proof.
  unfold ascending. revert l. induction n as [|n IH]; intros l H; [exact H|].
  destruct l as [|x r]; [constructor|].
  simpl. apply IH. apply StronglySorted_inv in H. apply H.
Qed.

Lemma ob_step_time (ob : OrderBlock) (c : CandleData) : ob_time (ob_step ob c) = ob_time ob.
Proof.
  unfold ob_step.
  destruct (ob_subtype ob);
    repeat match goal with
           | |- context [if ?b then _ else _] => destruct b
           end; reflexivity.
Qed.

Lemma ob_lifecycle_time (data : list CandleData) (ob : OrderBlock) :
  ob_time (ob_lifecycle data ob) = ob_time ob.
Proof.
  unfold ob_lifecycle.
  destruct (findIndex (fun d => c_time d =? ob_time ob) data) as [k|]; [|reflexivity].
  unfold ob_scan. generalize (skipn (k + 1) data). intros bars. revert ob.
  induction bars as [|c r IH]; intros ob; simpl; [reflexivity|].
  rewrite IH. apply ob_step_time.
Qed.

Lemma detectOrderBlocks_ascending (data : list CandleData) (m : Q) :
  time_ascending data -> ascending (map ob_time (detectOrderBlocks data m)).
Proof.
  intros Hd. unfold detectOrderBlocks, slice_last.
  rewrite <- skipn_map. apply ascending_skipn. apply ascending_filter.
  rewrite map_map.
  rewrite (map_ext _ ob_time) by (intros ob; apply ob_lifecycle_time).
  unfold ob_candidates.
  apply (ascending_flat_map _ _ (fun i => c_time (at_ data i))).
  - intros i x _ Hx. apply ob_at_In in Hx. apply Hx.
  - intros i j Hij Hj. apply time_ascending_at; [exact Hd|lia].
Qed.

Lemma fvg_scan_time (fvg : FVG) (future : list CandleData) :
  f_time (fvg_scan fvg future) = f_time fvg.
Proof.
  rewrite fvg_scan_existsb. destruct (existsb (fvg_hit fvg) future); reflexivity.
Qed.

Lemma detectFVG_ascending (data : list CandleData) :
  time_ascending data -> ascending (map f_time (detectFVG data)).
Proof.
  intros Hd. unfold detectFVG. apply ascending_filter.
  rewrite map_map.
  rewrite (map_ext _ f_time) by (intros f; apply fvg_scan_time).
  unfold fvg_candidates.
  apply (ascending_flat_map _ _ (fun i => c_time (at_ data (i - 1)))).
  - intros i x _ Hx. apply fvg_at_In in Hx. destruct Hx as [[-> _]|[-> _]]; reflexivity.
  - intros i j Hij Hj. apply time_ascending_at; [exact Hd|lia].
Qed.

(** C5: each of the four lookups of the scorer returns the first match in
    storage order: for zones, the first stored unmitigated zone of the
    wanted direction whose band contains the bar's low (bullish) or high
    (bearish) and whose timestamp is strictly before the bar's; likewise
    for gaps, which reach the scorer unmitigated.  The detectors store
    zones and gaps in ascending order of timestamp.  No later match is
    preferred, whatever its price or age: of the two zones of [touch_zones]
    the older, wider one is selected. *)
Theorem touch_lookup_first_match (obs : list OrderBlock) (fvgs : list FVG)
    (candle : CandleData) :
  (forall ob, touchingBullOB obs candle = Some ob
              <-> first_match (touches_zone Bullish candle) obs ob)
  /\ (forall ob, touchingBearOB obs candle = Some ob
                 <-> first_match (touches_zone Bearish candle) obs ob)
  /\ (forall f, touchingBullFVG fvgs candle = Some f
                <-> first_match (touches_gap Bullish candle) fvgs f)
  /\ (forall f, touchingBearFVG fvgs candle = Some f
                <-> first_match (touches_gap Bearish candle) fvgs f)
  /\ (touchingBullOB obs candle = None
      <-> forall ob, In ob obs -> ~ touches_zone Bullish candle ob)
  /\ (touchingBearOB obs candle = None
      <-> forall ob, In ob obs -> ~ touches_zone Bearish candle ob)
  /\ (forall data f, In f (detectFVG data) -> f_mitigated f = false)
  /\ (forall data m, time_ascending data ->
        ascending (map ob_time (detectOrderBlocks data m))
        /\ ascending (map f_time (detectFVG data)))
  /\ touchingBullOB touch_zones touch_bar = Some (mkOB 100 120 80 Bullish false Standard).
Proof.
  repeat split.
  - apply find_first_match, bullOB_touch_iff.
  - apply find_first_match, bullOB_touch_iff.
  - apply find_first_match, bearOB_touch_iff.
  - apply find_first_match, bearOB_touch_iff.
  - apply find_first_match, bullFVG_touch_iff.
  - apply find_first_match, bullFVG_touch_iff.
  - apply find_first_match, bearFVG_touch_iff.
  - apply find_first_match, bearFVG_touch_iff.
  - apply find_no_match, bullOB_touch_iff.
  - apply find_no_match, bullOB_touch_iff.
  - apply find_no_match, bearOB_touch_iff.
  - apply find_no_match, bearOB_touch_iff.
  - intros data f H. apply detectFVG_In in H. destruct H as [H _].
    apply (fvg_candidates_fresh data f H).
  - apply detectOrderBlocks_ascending. assumption.
  - apply detectFVG_ascending. assumption.
Qed.

Lemma touch_lookup_first_match_witness :
  first_match (touches_zone Bullish touch_bar) touch_zones
              (mkOB 100 120 80 Bullish false Standard).
Proof.
  apply (touch_lookup_first_match touch_zones [] touch_bar). reflexivity.
Defined.

(** ** Signal emission *)

Lemma entry_step_cases (data : list CandleData) (obs : list OrderBlock) (fvgs : list FVG)
    (timeframe : string) (st : EntryState) (i : nat) :
  (gate_open data obs fvgs st i /\
   exists s, emitted data obs fvgs timeframe st i s)
  \/ (~ gate_open data obs fvgs st i /\ entry_step data obs fvgs timeframe st i = st).
Proof.
  unfold gate_open, emitted, entry_step.
  destruct (Z.geb_spec (score_of obs fvgs (at_ data i)) 4) as [Hs|Hs]; simpl.
  2:{ right. split; [lia|reflexivity]. }
  destruct (Z.gtb_spec (c_time (at_ data i) - lastSignalTime st) COOLDOWN) as [Hc|Hc]; simpl.
  2:{ right. split; [lia|reflexivity]. }
  destruct (long_ok data obs fvgs i) eqn:El.
  - left. split; [repeat split; auto; lia|].
    exists (long_signal data obs fvgs timeframe i). repeat split. left. auto.
  - destruct (short_ok data obs fvgs i) eqn:Es.
    + left. split; [repeat split; auto; lia|].
      exists (short_signal data obs fvgs timeframe i). repeat split. right. auto.
    + right. split; [|reflexivity]. intros [_ [_ [H|H]]]; discriminate.
Qed.

Lemma emitted_grows (data : list CandleData) (obs : list OrderBlock) (fvgs : list FVG)
    (timeframe : string) (st : EntryState) (i : nat) (s : EntrySignal) :
  emitted data obs fvgs timeframe st i s ->
  entry_step data obs fvgs timeframe st i <> st.
Proof.
  intros [H _] E. rewrite E in H.
  apply (f_equal (fun x => length (signals x))) in H. simpl in H.
  rewrite length_app in H. simpl in H. lia.
Qed.

Lemma last_cons_default (r : list Z) (a d : Z) : last (a :: r) d = last r a.
Proof.
  revert a d. induction r as [|b r IH]; intros a d; [reflexivity|].
  change (last (a :: b :: r) d) with (last (b :: r) d).
  rewrite (IH b d), (IH b a). reflexivity.
Qed.

Lemma spaced_snoc (ts : list Z) (prev t : Z) :
  spaced prev ts -> COOLDOWN < t - last ts prev -> spaced prev (ts ++ [t]).
Proof.
  revert prev. induction ts as [|a r IH]; intros prev Hs Ht.
  - simpl in *. auto.
  - destruct Hs as [Ha Hr]. split; [exact Ha|]. apply IH; [exact Hr|].
    rewrite last_cons_default in Ht. exact Ht.
Qed.

Lemma last_snoc (ts : list Z) (t d : Z) : last (ts ++ [t]) d = t.
Proof. apply last_last. Qed.

Lemma entry_step_inv (data : list CandleData) (obs : list OrderBlock) (fvgs : list FVG)
    (timeframe : string) (st : EntryState) (i : nat) :
  entry_inv st -> entry_inv (entry_step data obs fvgs timeframe st i).
Proof.
  intros [Hs Hl].
  destruct (entry_step_cases data obs fvgs timeframe st i)
    as [[[_ [Hc _]] [s [E [Ht _]]]]|[_ E]]; rewrite E; [|split; assumption].
  unfold entry_inv. simpl. rewrite map_app. simpl. rewrite last_snoc, Ht.
  split; [|reflexivity].
  apply spaced_snoc; [exact Hs|]. rewrite <- Hl. exact Hc.
Qed.

Lemma entry_run_inv (data : list CandleData) (obs : list OrderBlock) (fvgs : list FVG)
    (timeframe : string) (range : list nat) (st : EntryState) :
  entry_inv st -> entry_inv (entry_run data obs fvgs timeframe range st).
Proof.
  revert st. induction range as [|i r IH]; intros st H; [exact H|].
  unfold entry_run in *. simpl. apply IH. apply entry_step_inv. exact H.
Qed.

(** After an emission at [i], bars within the cooldown leave the state alone. *)
Lemma entry_run_quiet (data : list CandleData) (obs : list OrderBlock) (fvgs : list FVG)
    (timeframe : string) (ks : list nat) (st : EntryState) :
  (forall k, In k ks -> c_time (at_ data k) - lastSignalTime st <= COOLDOWN) ->
  entry_run data obs fvgs timeframe ks st = st.
Proof.
  induction ks as [|k r IH]; intros H; [reflexivity|].
  unfold entry_run in *. simpl.
  destruct (entry_step_cases data obs fvgs timeframe st k) as [[[_ [Hc _]] _]|[_ E]].
  - specialize (H k (or_introl eq_refl)). lia.
  - rewrite E. apply IH. intros j Hj. apply H. right. exact Hj.
Qed.

(** C4, as the code has it: the bar [i] emits a signal exactly when its
    score is at least 4, strictly more than 600 seconds of candle time
    separate it from the timestamp of the last emitted signal (0 before any
    signal), and the direction requirement holds (Long: bullish bias and a
    bullish zone or gap touch; Short: no bullish bias and a bearish zone or
    gap touch).  Hence the timestamps of the emitted signals are more than
    600 seconds apart, and qualifying bars at most 600 seconds after an
    emission add nothing: one signal, timestamped at the first bar. *)
Theorem signal_emission_gate (data : list CandleData) (obs : list OrderBlock)
    (fvgs : list FVG) (timeframe : string) (st : EntryState) (i : nat) (ks : list nat) :
  ((exists s, emitted data obs fvgs timeframe st i s) <-> gate_open data obs fvgs st i)
  /\ (~ gate_open data obs fvgs st i -> entry_step data obs fvgs timeframe st i = st)
  /\ entry_inv (entry_run data obs fvgs timeframe (entry_range data) (mkEntry [] 0))
  /\ spaced 0 (map s_time (detectEntries data obs fvgs timeframe))
  /\ (gate_open data obs fvgs st i ->
      (forall k, In k ks -> c_time (at_ data k) - c_time (at_ data i) <= COOLDOWN) ->
      exists s, s_time s = c_time (at_ data i)
                /\ signals (entry_run data obs fvgs timeframe (i :: ks) st)
                   = signals st ++ [s]).
Proof.
  assert (Hinv : entry_inv (entry_run data obs fvgs timeframe (entry_range data)
                                      (mkEntry [] 0))).
  { apply entry_run_inv. split; [exact I|reflexivity]. }
  split; [|split; [|split; [exact Hinv|split; [exact (proj1 Hinv)|]]]].
  - split.
    + intros [s Hs].
      destruct (entry_step_cases data obs fvgs timeframe st i) as [[Hg _]|[_ E]];
        [exact Hg|].
      exfalso. exact (emitted_grows _ _ _ _ _ _ _ Hs E).
    + intros Hg.
      destruct (entry_step_cases data obs fvgs timeframe st i) as [[_ Hs]|[Hn _]];
        [exact Hs|contradiction].
  - intros Hn.
    destruct (entry_step_cases data obs fvgs timeframe st i) as [[Hg _]|[_ E]];
      [contradiction|exact E].
  - intros Hg Hks.
    destruct (entry_step_cases data obs fvgs timeframe st i)
      as [[_ [s [E [Ht _]]]]|[Hn _]]; [|contradiction].
    exists s. split; [exact Ht|].
    unfold entry_run. simpl fold_left. rewrite E.
    fold (entry_run data obs fvgs timeframe ks
                    (mkEntry (signals st ++ [s]) (c_time (at_ data i)))).
    rewrite entry_run_quiet; [reflexivity|]. simpl. exact Hks.
Qed.

Lemma signal_emission_gate_witness :
  entry_step cd_data cd_obs cd_fvgs "5m" (mkEntry [] 40000) 100 = mkEntry [] 40000
  /\ exists s, s_time s = c_time (at_ cd_data 100)
               /\ signals (entry_run cd_data cd_obs cd_fvgs "5m" [100; 101; 102]%nat
                                     (mkEntry [] 0))
                  = signals (mkEntry [] 0) ++ [s].
Proof.
  pose proof (signal_emission_gate cd_data cd_obs cd_fvgs "5m" (mkEntry [] 40000)
                100%nat []) as [_ [H1 _]].
  pose proof (signal_emission_gate cd_data cd_obs cd_fvgs "5m" (mkEntry [] 0)
                100%nat [101; 102]%nat) as [_ [_ [_ [_ H2]]]].
  split.
  - apply H1. unfold gate_open. vm_compute. intros [_ [H _]]. discriminate H.
  - apply H2.
    + unfold gate_open. vm_compute. split; [discriminate|]. split; [reflexivity|].
      left. reflexivity.
    + intros k [<-|[<-|[]]]; vm_compute; discriminate.
Defined.

(** The bar 102 of [cd_data] comes exactly 600 seconds after the signal of
    the bar 100, with a score of at least 4 and the Long requirement met:
    600 seconds have elapsed, and no signal is emitted. *)
Lemma cooldown_boundary_no_signal :
  let st := entry_run cd_data cd_obs cd_fvgs "5m" [100; 101]%nat (mkEntry [] 0) in
  let candle := at_ cd_data 102 in
  map s_time (signals st) = [33000]
  /\ 4 <= score_of cd_obs cd_fvgs candle
  /\ 600 <= c_time candle - 33000
  /\ long_ok cd_data cd_obs cd_fvgs 102 = true
  /\ entry_step cd_data cd_obs cd_fvgs "5m" st 102 = st
  /\ map s_time (detectEntries cd_data cd_obs cd_fvgs "5m") = [33000].
Proof.
  vm_compute. repeat split; discriminate.
Qed.

(** ** Backtest: the forward scan *)

Lemma bt_scan_stop (s : EntrySignal) (c : CandleData) (rest : list CandleData) :
  hits_stop s c -> bt_scan s (c :: rest) = (LOSS, -1000).
Proof.
  unfold hits_stop. simpl. destruct (s_type s); intros H.
  - apply Qleb_le in H. rewrite H. reflexivity.
  - apply Qgeb_ge in H. rewrite H. reflexivity.
Qed.

Lemma bt_scan_target (s : EntrySignal) (c : CandleData) (rest : list CandleData) :
  ~ hits_stop s c -> hits_target s c -> bt_scan s (c :: rest) = (WIN, 2000).
Proof.
  unfold hits_stop, hits_target. simpl. destruct (s_type s); intros Hn H.
  - destruct (Qleb (c_low c) (s_sl s)) eqn:E; [apply Qleb_le in E; contradiction|].
    apply Qgeb_ge in H. rewrite H. reflexivity.
  - destruct (Qgeb (c_high c) (s_sl s)) eqn:E; [apply Qgeb_ge in E; contradiction|].
    apply Qleb_le in H. rewrite H. reflexivity.
Qed.

Lemma bt_scan_skip (s : EntrySignal) (c : CandleData) (rest : list CandleData) :
  ~ hits_stop s c -> ~ hits_target s c -> bt_scan s (c :: rest) = bt_scan s rest.
Proof.
  unfold hits_stop, hits_target. simpl. destruct (s_type s); intros Hs Ht.
  - destruct (Qleb (c_low c) (s_sl s)) eqn:E; [apply Qleb_le in E; contradiction|].
    destruct (Qgeb (c_high c) (s_tp s)) eqn:E'; [apply Qgeb_ge in E'; contradiction|].
    reflexivity.
  - destruct (Qgeb (c_high c) (s_sl s)) eqn:E; [apply Qgeb_ge in E; contradiction|].
    destruct (Qleb (c_low c) (s_tp s)) eqn:E'; [apply Qleb_le in E'; contradiction|].
    reflexivity.
Qed.

Lemma bt_scan_untouched (s : EntrySignal) (pre rest : list CandleData) :
  (forall c, In c pre -> ~ hits_stop s c /\ ~ hits_target s c) ->
  bt_scan s (pre ++ rest) = bt_scan s rest.
Proof.
  induction pre as [|c pre IH]; intros H; [reflexivity|].
  simpl app. destruct (H c (or_introl eq_refl)) as [Hs Ht].
  rewrite bt_scan_skip by assumption.
  apply IH. intros d Hd. apply H. right. exact Hd.
Qed.

(** C8: in the forward scan, the first bar that reaches a boundary decides.
    If it reaches the stop (a Long's low at or below the stop, a Short's
    high at or above it) the trade is a Loss of 1000, also when the same
    bar reaches the target; if it reaches the target only, the trade is a
    Win of 2000; and while no bar reaches either, the trade is Pending. *)
Theorem stop_loss_priority (signal : EntrySignal) (pre post : list CandleData)
    (candle : CandleData) :
  (forall c, In c pre -> ~ hits_stop signal c /\ ~ hits_target signal c) ->
  (hits_stop signal candle -> bt_scan signal (pre ++ candle :: post) = (LOSS, -1000))
  /\ (~ hits_stop signal candle -> hits_target signal candle ->
      bt_scan signal (pre ++ candle :: post) = (WIN, 2000))
  /\ bt_scan signal pre = (PENDING, 0).
Proof.
  intros Hpre. split; [|split].
  - intros H. rewrite bt_scan_untouched by exact Hpre. apply bt_scan_stop. exact H.
  - intros Hn H. rewrite bt_scan_untouched by exact Hpre. apply bt_scan_target; assumption.
  - rewrite <- (app_nil_r pre). rewrite bt_scan_untouched by exact Hpre. reflexivity.
Qed.

Lemma stop_loss_priority_witness :
  bt_scan bt_signal ([mkCandle 180 100 101 99 100] ++ mkCandle 240 100 105 97 100 :: [])
  = (LOSS, -1000)
  /\ bt_scan bt_signal ([mkCandle 180 100 101 99 100] ++ mkCandle 240 100 105 99 100 :: [])
     = (WIN, 2000).
Proof.
  assert (Hpre : forall c, In c [mkCandle 180 100 101 99 100] ->
                           ~ hits_stop bt_signal c /\ ~ hits_target bt_signal c).
  { intros c [<-|[]]. split; vm_compute; intros H; apply H; reflexivity. }
  split.
  - apply (proj1 (stop_loss_priority bt_signal [mkCandle 180 100 101 99 100] []
                    (mkCandle 240 100 105 97 100) Hpre)).
    vm_compute. discriminate.
  - apply (proj1 (proj2 (stop_loss_priority bt_signal [mkCandle 180 100 101 99 100] []
                           (mkCandle 240 100 105 99 100) Hpre))).
    + vm_compute. intros H. apply H. reflexivity.
    + vm_compute. discriminate.
Defined.

(** ** Backtest: the statistics *)

Lemma bt_scan_range (s : EntrySignal) (future : list CandleData) :
  bt_scan s future = (LOSS, -1000) \/ bt_scan s future = (WIN, 2000)
  \/ bt_scan s future = (PENDING, 0).
Proof.
  induction future as [|c rest IH]; simpl; [auto|].
  destruct (s_type s);
    repeat match goal with
           | |- context [if ?b then _ else _] => destruct b
           end; auto.
Qed.

Lemma outcome_range (data : list CandleData) (s : EntrySignal) :
  outcome data s = None \/ outcome data s = Some (LOSS, -1000)
  \/ outcome data s = Some (WIN, 2000) \/ outcome data s = Some (PENDING, 0).
Proof.
  unfold outcome.
  destruct (findIndex (fun d => c_time d =? s_time s) data) as [k|]; [|auto].
  destruct (bt_scan_range s (skipn (k + 1) data)) as [H|[H|H]]; rewrite H; auto.
Qed.

Lemma count_result_cons (r : BacktestResult) (data : list CandleData)
    (s : EntrySignal) (sigs : list EntrySignal) :
  count_result r data (s :: sigs)
  = (if has_outcome r data s then 1 else 0) + count_result r data sigs.
Proof.
  unfold count_result. simpl. destruct (has_outcome r data s); simpl length; lia.
Qed.

Lemma running_length (balance : Z) (ps : list Z) :
  length (running balance ps) = length ps.
Proof.
  revert balance. induction ps as [|p r IH]; intros balance; simpl; [reflexivity|].
  rewrite IH. reflexivity.
Qed.

Lemma pnls_length (data : list CandleData) (sigs : list EntrySignal) :
  Z.of_nat (length (pnls data sigs))
  = count_result WIN data sigs + count_result LOSS data sigs
    + count_result PENDING data sigs.
Proof.
  induction sigs as [|s sigs IH]; [reflexivity|].
  rewrite !count_result_cons. unfold pnls in *. simpl flat_map.
  rewrite length_app, Nat2Z.inj_add, IH. unfold has_outcome.
  destruct (outcome_range data s) as [H|[H|[H|H]]]; rewrite H;
    cbn [BacktestResult_eqb length]; lia.
Qed.

(** The effect of the callback on the captured variables. *)
Lemma bt_step_spec (data : list CandleData) (st : BtState) (s : EntrySignal) :
  let st' := fst (bt_step data st s) in
  let ps := match outcome data s with Some (_, p) => [p] | None => [] end in
  bt_equityCurve st' = bt_equityCurve st ++ running (bt_currentBalance st) ps
  /\ bt_currentBalance st' = fold_left Z.add ps (bt_currentBalance st)
  /\ bt_wins st' = bt_wins st + (if has_outcome WIN data s then 1 else 0)
  /\ bt_losses st' = bt_losses st + (if has_outcome LOSS data s then 1 else 0)
  /\ bt_netPnL st' - bt_netPnL st
     = 2000 * (if has_outcome WIN data s then 1 else 0)
       - 1000 * (if has_outcome LOSS data s then 1 else 0).
Proof.
  unfold bt_step, has_outcome.
  destruct (outcome_range data s) as [H|[H|[H|H]]]; rewrite H; unfold outcome in H;
    destruct (findIndex (fun d => c_time d =? s_time s) data) as [k|];
    try discriminate; try injection H as H; try rewrite H; simpl;
    rewrite ?app_nil_r; repeat split; lia.
Qed.

Lemma running_app (balance : Z) (ps qs : list Z) :
  running balance (ps ++ qs)
  = running balance ps ++ running (fold_left Z.add ps balance) qs.
Proof.
  revert balance. induction ps as [|p r IH]; intros balance; simpl; [reflexivity|].
  rewrite IH. reflexivity.
Qed.

Lemma bt_map_spec (data : list CandleData) (sigs : list EntrySignal) (st : BtState) :
  let st' := fst (bt_map data st sigs) in
  bt_equityCurve st' = bt_equityCurve st ++ running (bt_currentBalance st) (pnls data sigs)
  /\ bt_currentBalance st' = fold_left Z.add (pnls data sigs) (bt_currentBalance st)
  /\ bt_wins st' = bt_wins st + count_result WIN data sigs
  /\ bt_losses st' = bt_losses st + count_result LOSS data sigs
  /\ bt_netPnL st' - bt_netPnL st
     = 2000 * count_result WIN data sigs - 1000 * count_result LOSS data sigs.
Proof.
  revert st. induction sigs as [|s sigs IH]; intros st.
  - simpl. rewrite app_nil_r. unfold count_result. simpl. repeat split; lia.
  - simpl bt_map.
    pose proof (bt_step_spec data st s) as Hs.
    destruct (bt_step data st s) as [st1 r]. cbv zeta in Hs; cbn [fst] in Hs.
    specialize (IH st1). destruct (bt_map data st1 sigs) as [st2 rs]. cbv zeta in IH; cbn [fst] in IH.
    destruct Hs as [Hc [Hb [Hw [Hl Hn]]]]. destruct IH as [Ic [Ib [Iw [Il In_]]]].
    cbv zeta. simpl fst. rewrite !count_result_cons.
    unfold pnls in *. simpl flat_map. rewrite running_app, fold_left_app.
    rewrite <- Hb, Ic, Ib, Hc, app_assoc.
    repeat split; try reflexivity; lia.
Qed.

(** C3, as the code has it: the equity curve starts at 100000 and gets one
    running-balance entry per signal whose bar is found, in the order of
    the signals, whether the trade resolved or stayed Pending; a Pending
    signal adds 0 to the balance and to netPnL and counts neither as a win
    nor as a loss.  So the length of the curve is
    1 + wins + losses + the number of Pending signals. *)
Theorem equity_curve_length (data : list CandleData) (sigs : list EntrySignal) :
  let stats := fst (performBacktest data sigs) in
  equityCurve stats = 100000 :: running 100000 (pnls data sigs)
  /\ wins stats = count_result WIN data sigs
  /\ losses stats = count_result LOSS data sigs
  /\ netPnL stats = 2000 * wins stats - 1000 * losses stats
  /\ Z.of_nat (length (equityCurve stats))
     = 1 + wins stats + losses stats + count_result PENDING data sigs
  /\ (forall s, has_outcome PENDING data s = true -> outcome data s = Some (PENDING, 0)).
Proof.
  unfold performBacktest.
  pose proof (bt_map_spec data sigs bt_init) as H.
  destruct (bt_map data bt_init sigs) as [st rs]. cbv zeta in H; cbn [fst] in H.
  destruct H as [Hc [_ [Hw [Hl Hn]]]].
  cbv zeta. cbn [fst stats_of equityCurve wins losses netPnL].
  change (bt_equityCurve bt_init) with [100000] in Hc.
  change (bt_currentBalance bt_init) with 100000 in Hc.
  change (bt_wins bt_init) with 0 in Hw. change (bt_losses bt_init) with 0 in Hl.
  change (bt_netPnL bt_init) with 0 in Hn.
  rewrite Hc, Hw, Hl. cbn [app length].
  rewrite running_length, Nat2Z.inj_succ, pnls_length.
  repeat split; try lia.
  intros s. unfold has_outcome.
  destruct (outcome_range data s) as [H|[H|[H|H]]]; rewrite H; simpl;
    try discriminate; reflexivity.
Qed.

Lemma equity_curve_length_witness :
  outcome bt_bars bt_signal = Some (PENDING, 0).
Proof.
  apply (equity_curve_length bt_bars [bt_signal]). reflexivity.
Defined.

(** A signal on the last bar stays Pending: no win, no loss, and the curve
    has two entries. *)
Lemma pending_extends_equity_curve :
  let stats := fst (performBacktest bt_bars [bt_signal]) in
  map s_backtestResult (snd (performBacktest bt_bars [bt_signal])) = [Some PENDING]
  /\ wins stats = 0 /\ losses stats = 0
  /\ equityCurve stats = [100000; 100000]
  /\ Z.of_nat (length (equityCurve stats)) <> 1 + wins stats + losses stats.
Proof.
  vm_compute. repeat split; discriminate.
Qed.

(** ** Swing structure *)

Lemma insert_by_perm {A} (le : A -> A -> bool) (x : A) (l : list A) :
  Permutation (x :: l) (insert_by le x l).
Proof.
  induction l as [|y r IH]; simpl; [apply Permutation_refl|].
  destruct (le x y); [apply Permutation_refl|].
  apply perm_trans with (y :: x :: r); [apply perm_swap|].
  apply perm_skip. exact IH.
Qed.

Lemma sort_by_perm {A} (le : A -> A -> bool) (l : list A) :
  Permutation l (sort_by le l).
Proof.
  induction l as [|x r IH]; simpl; [apply perm_nil|].
  apply perm_trans with (x :: sort_by le r); [apply perm_skip; exact IH|].
  apply insert_by_perm.
Qed.

Lemma swing_step_emits (data : list CandleData) (st : SwingState) (p : Pivot) :
  (p_kind p = High -> lastHigh st <> None) ->
  (p_kind p = Low -> lastLow st <> None) ->
  let st' := swing_step data st p in
  length (points st') = S (length (points st))
  /\ lastHigh st' = (match p_kind p with High => Some p | Low => lastHigh st end)
  /\ lastLow st' = (match p_kind p with High => lastLow st | Low => Some p end).
Proof.
  intros Hh Hl. unfold swing_step.
  destruct (p_kind p).
  - destruct (lastHigh st) as [lh|]; [|exfalso; apply Hh; reflexivity].
    simpl. rewrite length_app. simpl. split; [lia|auto].
  - destruct (lastLow st) as [ll|]; [|exfalso; apply Hl; reflexivity].
    simpl. rewrite length_app. simpl. split; [lia|auto].
Qed.

Lemma swing_fold_length (data : list CandleData) (l : list Pivot) (st : SwingState) :
  (forall p, In p l -> p_kind p = High -> lastHigh st <> None) ->
  (forall p, In p l -> p_kind p = Low -> lastLow st <> None) ->
  length (points (fold_left (swing_step data) l st)) = (length (points st) + length l)%nat.
Proof.
  revert st. induction l as [|p r IH]; intros st Hh Hl; simpl; [lia|].
  destruct (swing_step_emits data st p) as [Hlen [Hh' Hl']].
  { apply Hh. left. reflexivity. }
  { apply Hl. left. reflexivity. }
  rewrite IH.
  - rewrite Hlen. lia.
  - intros q Hq Hk. rewrite Hh'. destruct (p_kind p); [discriminate|].
    apply (Hh q); [right; exact Hq|exact Hk].
  - intros q Hq Hk. rewrite Hl'. destruct (p_kind p); [|discriminate].
    apply (Hl q); [right; exact Hq|exact Hk].
Qed.

Lemma pivotHighs_kind (data : list CandleData) (w : nat) (p : Pivot) :
  In p (pivotHighs data w) -> p_kind p = High.
Proof.
  unfold pivotHighs. intros H. apply in_map_iff in H. destruct H as [i [<- _]]. reflexivity.
Qed.

Lemma pivotLows_kind (data : list CandleData) (w : nat) (p : Pivot) :
  In p (pivotLows data w) -> p_kind p = Low.
Proof.
  unfold pivotLows. intros H. apply in_map_iff in H. destruct H as [i [<- _]]. reflexivity.
Qed.

(** C2 on the code: [lastHigh] and [lastLow] are initialised with the
    first pivot of each kind before the loop, so the seeding branch is
    never taken and every pivot, the first of each kind included, emits a
    StructurePoint: the output has as many points as there are pivots.  On
    [swing_bars] the three pivots give three points; the first pivot high
    and the first pivot low, compared with themselves, come out as LH and
    HL. *)
Theorem structure_points_per_pivot (data : list CandleData) (swingLength : nat) :
  length (detectStructure data swingLength)
  = (length (pivotHighs data swingLength) + length (pivotLows data swingLength))%nat
  /\ length (allPivots swing_bars 1) = 3%nat
  /\ detectStructure swing_bars 1
     = [ mkPoint 120 12 LH Bearish; mkPoint 180 7 HL Bullish; mkPoint 240 13 HH Bearish ].
Proof.
  split; [|split; reflexivity].
  unfold detectStructure.
  assert (Hperm : Permutation (pivotHighs data swingLength ++ pivotLows data swingLength)
                              (allPivots data swingLength)) by apply sort_by_perm.
  rewrite swing_fold_length.
  - simpl. rewrite <- (Permutation_length Hperm), length_app. reflexivity.
  - intros p Hp Hk. apply Permutation_sym in Hperm.
    apply (Permutation_in _ Hperm) in Hp. apply in_app_or in Hp.
    destruct Hp as [Hp|Hp].
    + simpl. destruct (pivotHighs data swingLength); [contradiction|discriminate].
    + apply pivotLows_kind in Hp. congruence.
  - intros p Hp Hk. apply Permutation_sym in Hperm.
    apply (Permutation_in _ Hperm) in Hp. apply in_app_or in Hp.
    destruct Hp as [Hp|Hp].
    + apply pivotHighs_kind in Hp. congruence.
    + simpl. destruct (pivotLows data swingLength); [contradiction|discriminate].
Qed.

(** ** Sorting and the most recent elements *)

Section SortByKey.

Context {A : Type} (key : A -> Z).

Let le (a b : A) : bool := key b - key a <=? 0.
Let R (a b : A) : Prop := key b <= key a.

Lemma insert_by_key_sorted (x : A) (l : list A) :
  StronglySorted R l -> StronglySorted R (insert_by le x l).
Proof.
  induction l as [|y r IH]; intros Hs; simpl.
  - constructor; constructor.
  - apply StronglySorted_inv in Hs. destruct Hs as [Hr Hy].
    unfold le at 1. destruct (Z.leb_spec (key y - key x) 0) as [H|H].
    + constructor; [constructor; assumption|].
      constructor; [unfold R; lia|].
      eapply Forall_impl; [|exact Hy]. unfold R. intros z Hz. simpl in Hz. lia.
    + constructor; [apply IH; exact Hr|].
      apply (Permutation_Forall (insert_by_perm le x r)).
      constructor; [unfold R; lia|exact Hy].
Qed.

Lemma sort_by_key_sorted (l : list A) : StronglySorted R (sort_by le l).
Proof.
  induction l as [|x r IH]; simpl; [constructor|].
  apply insert_by_key_sorted. exact IH.
Qed.

Lemma firstn_sort_most_recent (n : nat) (l : list A) :
  most_recent key n l (firstn n (sort_by le l)).
Proof.
  unfold most_recent. split.
  - rewrite length_firstn, <- (Permutation_length (sort_by_perm le l)). reflexivity.
  - exists (skipn n (sort_by le l)). rewrite firstn_skipn.
    split; [apply sort_by_perm|apply sort_by_key_sorted].
Qed.

End SortByKey.

(** ** Daily rollup *)

Lemma groups_get_push (d d' : string) (e : EntrySignal) (g : Groups) :
  groups_get d (groups_push d' e g)
  = if String.eqb d' d then groups_get d g ++ [e] else groups_get d g.
Proof.
  induction g as [|[k v] rest IH]; simpl.
  - destruct (String.eqb d' d); reflexivity.
  - destruct (String.eqb_spec k d') as [E1|E1]; simpl.
    + subst k. destruct (String.eqb_spec d' d); reflexivity.
    + rewrite IH. destruct (String.eqb_spec k d) as [E2|E2]; [|reflexivity].
      subst k. destruct (String.eqb_spec d' d); [congruence|reflexivity].
Qed.

Lemma groups_push_keys (d : string) (e : EntrySignal) (g : Groups) :
  (In d (map fst g) -> map fst (groups_push d e g) = map fst g)
  /\ (~ In d (map fst g) -> map fst (groups_push d e g) = map fst g ++ [d]).
Proof.
  induction g as [|[k v] rest [IH1 IH2]]; simpl.
  - split; [intros []|reflexivity].
  - destruct (String.eqb_spec k d) as [E|E]; simpl.
    + split; [reflexivity|]. intros H. exfalso. apply H. left. exact E.
    + split; intros H.
      * rewrite IH1; [reflexivity|]. destruct H as [H|H]; [contradiction|exact H].
      * rewrite IH2; [reflexivity|]. intros Hin. apply H. right. exact Hin.
Qed.

Lemma tally_fold (trades : list EntrySignal) (acc : Z * Z * Z) :
  Forall (fun t => resolved t = true) trades ->
  fold_left tally trades acc
  = (fst (fst acc) + 2000 * winCount trades,
     snd (fst acc) + 1000 * lossCount trades,
     snd acc + 2000 * winCount trades - 1000 * lossCount trades).
Proof.
  revert acc. induction trades as [|t r IH]; intros [[g l] n] Hr.
  - unfold winCount, lossCount. simpl. f_equal; [f_equal|]; lia.
  - inversion Hr as [|? ? Ht Hr']; subst. simpl fold_left.
    unfold resolved in Ht.
    assert (Hx : is_result WIN t = true -> is_result LOSS t = false).
    { unfold is_result. destruct (s_backtestResult t) as [[| |]|]; simpl; congruence. }
    unfold tally at 1. unfold winCount, lossCount in *. simpl filter.
    destruct (is_result WIN t) eqn:Ew.
    + rewrite (Hx eq_refl). rewrite IH by exact Hr'. cbn [fst snd length].
      rewrite Nat2Z.inj_succ. unfold RISK_PER_TRADE. f_equal; [f_equal|]; lia.
    + simpl in Ht. rewrite Ht. rewrite IH by exact Hr'. cbn [fst snd length].
      rewrite Nat2Z.inj_succ. unfold RISK_PER_TRADE. f_equal; [f_equal|]; lia.
Qed.

Section DailyRollup.

Variable dateOf : Z -> string.
Variable parseDate : string -> option Z.

Let push (groups : Groups) (e : EntrySignal) : Groups :=
  groups_push (dateOf (s_time e)) e groups.

Lemma groups_fold_get (l : list EntrySignal) (g : Groups) (d : string) :
  groups_get d (fold_left push l g)
  = groups_get d g ++ filter (fun e => String.eqb (dateOf (s_time e)) d) l.
Proof.
  revert g. induction l as [|e r IH]; intros g; simpl; [rewrite app_nil_r; reflexivity|].
  rewrite IH. unfold push. rewrite groups_get_push.
  destruct (String.eqb (dateOf (s_time e)) d); [|reflexivity].
  rewrite <- app_assoc. reflexivity.
Qed.

Lemma groups_fold_keys (l : list EntrySignal) (g : Groups) :
  NoDup (map fst g) ->
  NoDup (map fst (fold_left push l g))
  /\ forall k, In k (map fst (fold_left push l g))
               <-> In k (map fst g) \/ exists e, In e l /\ dateOf (s_time e) = k.
Proof.
  revert g. induction l as [|e r IH]; intros g Hnd; simpl.
  - split; [exact Hnd|]. intros k. split; [auto|]. intros [H|[e [[] _]]]. exact H.
  - destruct (groups_push_keys (dateOf (s_time e)) e g) as [K1 K2].
    destruct (in_dec string_dec (dateOf (s_time e)) (map fst g)) as [Hin|Hin].
    + specialize (K1 Hin). destruct (IH (push g e)) as [N1 N2].
      { unfold push. rewrite K1. exact Hnd. }
      split; [exact N1|]. intros k. rewrite N2. unfold push at 1. rewrite K1.
      split.
      * intros [H|[x [Hx Hk]]]; [auto|]. right. exists x. auto.
      * intros [H|[x [[<-|Hx] Hk]]]; [auto| |].
        -- left. rewrite <- Hk. exact Hin.
        -- right. exists x. auto.
    + specialize (K2 Hin). destruct (IH (push g e)) as [N1 N2].
      { unfold push. rewrite K2. apply NoDup_app; [exact Hnd|repeat constructor; intros []|].
        intros x Hx [<-|[]]. contradiction. }
      split; [exact N1|]. intros k. rewrite N2. unfold push at 1. rewrite K2, in_app_iff.
      split.
      * intros [[H|[<-|[]]]|[x [Hx Hk]]]; [auto| |].
        -- right. exists e. auto.
        -- right. exists x. auto.
      * intros [H|[x [[<-|Hx] Hk]]]; [auto| |].
        -- left. right. left. exact Hk.
        -- right. exists x. auto.
Qed.

Lemma dailyTrades_on_date (entries : list EntrySignal) (d : string) :
  dailyTrades dateOf entries d
  = firstn 10 (sort_by (fun a b => s_time b - s_time a <=? 0) (on_date dateOf entries d)).
Proof.
  unfold dailyTrades, slice_first, groups_of, validEntries, on_date.
  fold push. rewrite groups_fold_get. reflexivity.
Qed.

Lemma In_firstn {A} (n : nat) (l : list A) (x : A) : In x (firstn n l) -> In x l.
Proof.
  intros H. rewrite <- (firstn_skipn n l). apply in_or_app. left. exact H.
Qed.

Lemma dailyTrades_resolved (entries : list EntrySignal) (d : string) :
  Forall (fun t => resolved t = true) (dailyTrades dateOf entries d).
Proof.
  rewrite dailyTrades_on_date. apply Forall_forall. intros t Ht.
  apply In_firstn in Ht.
  apply (Permutation_in _ (Permutation_sym (sort_by_perm _ _))) in Ht.
  unfold on_date in Ht. apply filter_In in Ht. destruct Ht as [Ht _].
  apply filter_In in Ht. apply Ht.
Qed.

Lemma daily_of_fields (entries : list EntrySignal) (d : string) :
  daily_of dateOf entries d
  = let trades := dailyTrades dateOf entries d in
    mkDaily d (2000 * winCount trades) (1000 * lossCount trades)
            (2000 * winCount trades - 1000 * lossCount trades)
            (length trades) trades.
Proof.
  unfold daily_of. rewrite (tally_fold _ _ (dailyTrades_resolved entries d)).
  reflexivity.
Qed.

Lemma dailyStats_dates (entries : list EntrySignal) :
  map ds_date (dailyStats dateOf parseDate entries) = sortedDates dateOf parseDate entries.
Proof.
  unfold dailyStats. rewrite map_map.
  erewrite map_ext; [apply map_id|].
  intros d. rewrite daily_of_fields. reflexivity.
Qed.

Lemma filter_all {A} (f : A -> bool) (l : list A) :
  (forall x, In x l -> f x = true) -> filter f l = l.
Proof.
  induction l as [|x r IH]; intros H; simpl; [reflexivity|].
  rewrite (H x (or_introl eq_refl)). f_equal. apply IH.
  intros y Hy. apply H. right. exact Hy.
Qed.

Lemma same_date_fold (d : string) (l v : list EntrySignal) :
  (forall e, In e l -> dateOf (s_time e) = d) ->
  fold_left push l [(d, v)] = [(d, v ++ l)].
Proof.
  revert v. induction l as [|e r IH]; intros v H; simpl.
  - rewrite app_nil_r. reflexivity.
  - unfold push at 2. rewrite (H e (or_introl eq_refl)). simpl.
    rewrite String.eqb_refl. rewrite IH.
    + rewrite <- app_assoc. reflexivity.
    + intros x Hx. apply H. right. exact Hx.
Qed.

Lemma insert_by_ext_in {A} (le le' : A -> A -> bool) (x : A) (l : list A) :
  (forall y, In y l -> le x y = le' x y) -> insert_by le x l = insert_by le' x l.
Proof.
  induction l as [|y r IH]; intros H; simpl; [reflexivity|].
  rewrite (H y (or_introl eq_refl)). rewrite IH; [reflexivity|].
  intros z Hz. apply H. right. exact Hz.
Qed.

Lemma sort_by_ext_in {A} (le le' : A -> A -> bool) (l : list A) :
  (forall a b, In a l -> In b l -> le a b = le' a b) -> sort_by le l = sort_by le' l.
Proof.
  induction l as [|x r IH]; intros H; simpl; [reflexivity|].
  rewrite IH by (intros a b Ha Hb; apply H; right; assumption).
  apply insert_by_ext_in. intros y Hy. apply H; [left; reflexivity|right].
  apply (Permutation_in _ (Permutation_sym (sort_by_perm le' r)) Hy).
Qed.

Lemma StronglySorted_cross {A} (R : A -> A -> Prop) (l1 l2 : list A) (x y : A) :
  StronglySorted R (l1 ++ l2) -> In x l1 -> In y l2 -> R x y.
Proof.
  induction l1 as [|a r IH]; intros Hs Hx Hy; [destruct Hx|].
  simpl in Hs. apply StronglySorted_inv in Hs. destruct Hs as [Hr Ha].
  destruct Hx as [<-|Hx]; [|apply IH; assumption].
  rewrite Forall_forall in Ha. apply Ha. apply in_or_app. right. exact Hy.
Qed.

(** The value the comparator reads for a date that parses. *)
Let date_key (k : string) : Z :=
  match parseDate k with Some t => t | None => 0 end.

(** On a coherent calendar every signal of a date that the rollup drops is
    earlier than every signal of a date that it keeps. *)
Lemma kept_dates_latest (entries : list EntrySignal) (st : DailyStat)
    (e e' : EntrySignal) :
  calendar_coherent dateOf parseDate entries ->
  In st (dailyStats dateOf parseDate entries) ->
  In e entries -> resolved e = true -> dateOf (s_time e) = ds_date st ->
  In e' entries -> resolved e' = true ->
  ~ In (dateOf (s_time e')) (map ds_date (dailyStats dateOf parseDate entries)) ->
  s_time e' < s_time e.
Proof.
  intros Hcoh Hst He Hr Hd He' Hr' Hnot.
  assert (Hg0 : forall k, In k (map fst (groups_of dateOf entries))
                          <-> In k (map fst (@nil (string * list EntrySignal)))
                              \/ exists x, In x (validEntries entries)
                                           /\ dateOf (s_time x) = k)
    by exact (proj2 (groups_fold_keys (validEntries entries) [] (NoDup_nil _))).
  set (keys := map fst (groups_of dateOf entries)) in *.
  assert (Hkey : forall x, In x entries -> resolved x = true ->
                           In (dateOf (s_time x)) keys).
  { intros x Hx Hrx. apply Hg0. right. exists x. split; [|reflexivity].
    apply filter_In. auto. }
  assert (Hparse : forall k, In k keys -> parseDate k = Some (date_key k)).
  { intros k Hk. apply Hg0 in Hk. destruct Hk as [[]|[x [Hx <-]]].
    apply filter_In in Hx. destruct Hx as [Hx Hrx].
    destruct (Hcoh x x Hx Hx Hrx Hrx) as [t1 [_ [Ht1 _]]].
    unfold date_key. rewrite Ht1. reflexivity. }
  assert (Hsorted : sortedDates dateOf parseDate entries
                    = firstn 3 (sort_by (fun a b => date_key b - date_key a <=? 0) keys)).
  { unfold sortedDates, slice_first. fold keys. f_equal.
    apply sort_by_ext_in. intros a b Ha Hb. unfold dates_le.
    rewrite (Hparse a Ha), (Hparse b Hb). reflexivity. }
  rewrite dailyStats_dates, Hsorted in Hnot.
  assert (Hin : In (ds_date st) (firstn 3 (sort_by (fun a b => date_key b - date_key a <=? 0)
                                                   keys))).
  { rewrite <- Hsorted, <- dailyStats_dates. apply in_map. exact Hst. }
  destruct (firstn_sort_most_recent date_key 3 keys) as [_ [dropped [Hperm Hs]]].
  assert (Hdrop : In (dateOf (s_time e')) dropped).
  { pose proof (Permutation_in _ Hperm (Hkey e' He' Hr')) as H.
    apply in_app_or in H. destruct H as [H|H]; [contradiction|exact H]. }
  pose proof (StronglySorted_cross _ _ _ _ _ Hs Hin Hdrop) as Hle. simpl in Hle.
  assert (Hne : dateOf (s_time e) <> dateOf (s_time e')).
  { intros E. apply Hnot. rewrite <- E, Hd. exact Hin. }
  destruct (Hcoh e e' He He' Hr Hr') as [t1 [t2 [Ht1 [Ht2 Hlt]]]].
  assert (K1 : date_key (ds_date st) = t1) by (unfold date_key; rewrite <- Hd, Ht1; reflexivity).
  assert (K2 : date_key (dateOf (s_time e')) = t2) by (unfold date_key; rewrite Ht2; reflexivity).
  destruct (Z.lt_trichotomy (s_time e') (s_time e)) as [H|[H|H]]; [exact H| |].
  - exfalso. apply Hne. rewrite H. reflexivity.
  - specialize (Hlt Hne H). lia.
Qed.

(** C9 on the code: the rollup keeps the resolved signals only, grouped by
    the calendar date of their timestamp; it reports at most 3 dates and
    for each the (at most) 10 most recent signals of that date, with
    [totalGain = 2000 * winCount], [totalLoss = 1000 * lossCount] and
    [netPnL = totalGain - totalLoss] over those signals; fifteen resolved
    signals on one date give [tradeCount = 10].  The dates kept are the
    most recent ones when the host's date strings parse back to the days
    they name: then every signal of a dropped date is earlier than every
    signal of a kept date.  Where the strings do not parse the comparator
    is NaN throughout, the sort leaves the dates in order of first
    appearance and the three oldest are kept: on the en-GB host of
    [gb_date], of the dates 13 to 16 January 2025 the rollup keeps 13, 14
    and 15 and drops the most recent. *)
Theorem daily_rollup (entries : list EntrySignal) :
  (length (dailyStats dateOf parseDate entries) <= 3)%nat
  /\ NoDup (map fst (groups_of dateOf entries))
  /\ (forall d, In d (map fst (groups_of dateOf entries))
                <-> exists e, In e entries /\ resolved e = true /\ dateOf (s_time e) = d)
  /\ length (dailyStats dateOf parseDate entries)
     = Nat.min 3 (length (map fst (groups_of dateOf entries)))
  /\ (calendar_coherent dateOf parseDate entries ->
      forall st e e',
        In st (dailyStats dateOf parseDate entries) ->
        In e entries -> resolved e = true -> dateOf (s_time e) = ds_date st ->
        In e' entries -> resolved e' = true ->
        ~ In (dateOf (s_time e')) (map ds_date (dailyStats dateOf parseDate entries)) ->
        s_time e' < s_time e)
  /\ (forall st, In st (dailyStats dateOf parseDate entries) ->
        most_recent s_time 10 (on_date dateOf entries (ds_date st)) (ds_trades st)
        /\ ds_tradeCount st = length (ds_trades st)
        /\ (ds_tradeCount st <= 10)%nat
        /\ ds_totalGain st = 2000 * winCount (ds_trades st)
        /\ ds_totalLoss st = 1000 * lossCount (ds_trades st)
        /\ ds_netPnL st = ds_totalGain st - ds_totalLoss st)
  /\ (forall st, In st (dailyStats dateOf parseDate entries) ->
        length (on_date dateOf entries (ds_date st)) = 15%nat ->
        ds_tradeCount st = 10%nat)
  /\ (forall d,
        (forall e, In e entries -> resolved e = true /\ dateOf (s_time e) = d) ->
        length entries = 15%nat ->
        exists st, dailyStats dateOf parseDate entries = [st]
                   /\ ds_date st = d /\ ds_tradeCount st = 10%nat)
  /\ map ds_date (dailyStats gb_date gb_parse gb_signals)
     = ["13/01/2025"; "14/01/2025"; "15/01/2025"]%string.
Proof.
  assert (Hg0 : NoDup (map fst (groups_of dateOf entries))
                /\ forall k, In k (map fst (groups_of dateOf entries))
                             <-> In k (map fst (@nil (string * list EntrySignal)))
                                 \/ exists e, In e (validEntries entries)
                                              /\ dateOf (s_time e) = k)
    by exact (groups_fold_keys (validEntries entries) [] (NoDup_nil _)).
  destruct Hg0 as [Hnd Hkeys].
  split; [|split; [exact Hnd|split; [|split; [|split; [|split; [|split; [|split]]]]]]].
  - unfold dailyStats, sortedDates, slice_first.
    rewrite length_map, length_firstn. apply Nat.le_min_l.
  - intros d. rewrite Hkeys. unfold validEntries. split.
    + intros [[]|[e [He Hd]]]. apply filter_In in He. exists e. tauto.
    + intros [e [He [Hr Hd]]]. right. exists e. split; [|exact Hd].
      apply filter_In. auto.
  - unfold dailyStats, sortedDates, slice_first.
    rewrite length_map, length_firstn, <- (Permutation_length (sort_by_perm _ _)).
    reflexivity.
  - intros Hcoh st e e'. apply kept_dates_latest. exact Hcoh.
  - intros st Hst. unfold dailyStats in Hst. apply in_map_iff in Hst.
    destruct Hst as [d [<- _]]. rewrite daily_of_fields. cbv zeta. simpl.
    rewrite dailyTrades_on_date.
    pose proof (firstn_sort_most_recent s_time 10 (on_date dateOf entries d)) as Hm.
    split; [exact Hm|]. split; [reflexivity|].
    split; [rewrite length_firstn; apply Nat.le_min_l|].
    repeat split; reflexivity.
  - intros st Hst Hlen. unfold dailyStats in Hst. apply in_map_iff in Hst.
    destruct Hst as [d [<- _]]. rewrite daily_of_fields in *. cbv zeta in *. simpl in *.
    rewrite dailyTrades_on_date, length_firstn.
    rewrite <- (Permutation_length (sort_by_perm _ _)), Hlen. reflexivity.
  - intros d Hall Hlen.
    assert (Hv : validEntries entries = entries).
    { apply filter_all. intros e He. apply (Hall e He). }
    destruct entries as [|e0 rest] eqn:Ee; [discriminate|]. rewrite <- Ee in *.
    assert (Hg : groups_of dateOf entries = [(d, entries)]).
    { unfold groups_of. rewrite Hv. rewrite Ee. simpl.
      assert (Hd0 : dateOf (s_time e0) = d) by (apply (Hall e0); rewrite Ee; left; reflexivity).
      rewrite Hd0. apply (same_date_fold d rest [e0]).
      intros x Hx. apply (Hall x). rewrite Ee. right. exact Hx. }
    exists (daily_of dateOf entries d). split.
    + unfold dailyStats, sortedDates. rewrite Hg. reflexivity.
    + rewrite daily_of_fields. cbv zeta. simpl. split; [reflexivity|].
      rewrite dailyTrades_on_date, length_firstn.
      rewrite <- (Permutation_length (sort_by_perm _ _)).
      unfold on_date. fold (validEntries entries). rewrite Hv.
      rewrite filter_all; [rewrite Hlen; reflexivity|].
      intros x Hx. apply String.eqb_eq. apply (Hall x Hx).
  - vm_compute. reflexivity.
Qed.

End DailyRollup.

Lemma four_days_coherent : calendar_coherent day_name day_time four_days.
Proof.
  intros e1 e2 H1 H2 _ _. simpl in H1, H2.
  destruct H1 as [<-|[<-|[<-|[<-|[]]]]]; destruct H2 as [<-|[<-|[<-|[<-|[]]]]];
    eexists; eexists; (split; [reflexivity|]); (split; [reflexivity|]);
    intros _ Hlt; vm_compute in Hlt |- *; first [reflexivity|discriminate Hlt].
Qed.

Lemma daily_rollup_witness :
  (exists st, dailyStats day_name day_time day_signals = [st]
              /\ ds_date st = "d1"%string /\ ds_tradeCount st = 10%nat)
  /\ map ds_date (dailyStats day_name day_time four_days) = ["d3"; "d2"; "d1"]%string
  /\ s_time (won_at 3600) < s_time (won_at 90000).
Proof.
  pose proof (daily_rollup day_name day_time day_signals)
    as [_ [_ [_ [_ [_ [_ [_ [H15 _]]]]]]]].
  pose proof (daily_rollup day_name day_time four_days) as [_ [_ [_ [_ [Hrec _]]]]].
  split; [|split; [vm_compute; reflexivity|]].
  - apply (H15 "d1"%string).
    + intros e He. vm_compute in He.
      repeat (destruct He as [<-|He]; [split; reflexivity|]). destruct He.
    + reflexivity.
  - apply (Hrec four_days_coherent
             (nth 2 (dailyStats day_name day_time four_days) (mkDaily "" 0 0 0 0 []))
             (won_at 90000) (won_at 3600)).
    + vm_compute. right. right. left. reflexivity.
    + right. left. reflexivity.
    + reflexivity.
    + reflexivity.
    + left. reflexivity.
    + reflexivity.
    + vm_compute. intros [H|[H|[H|[]]]]; discriminate H.
Defined.

(** The rollup on the en-GB host: the four dates in the order of the
    signals, and the three that the rollup reports, the latest date left
    out. *)
Example daily_rollup_en_GB :
  map (fun e => gb_date (s_time e)) gb_signals
  = ["13/01/2025"; "14/01/2025"; "15/01/2025"; "16/01/2025"]%string
  /\ map (fun st => (ds_date st, ds_tradeCount st, map s_time (ds_trades st)))
         (dailyStats gb_date gb_parse gb_signals)
     = [("13/01/2025"%string, 1%nat, [1736730000]);
        ("14/01/2025"%string, 1%nat, [1736816400]);
        ("15/01/2025"%string, 1%nat, [1736902800])].
Proof. split; vm_compute; reflexivity. Qed.

(** The rollup of [day_signals]: the ten latest of the fifteen signals, five
    wins and five losses. *)
Example daily_rollup_day :
  map (fun st => (ds_date st, ds_tradeCount st, ds_totalGain st, ds_totalLoss st,
                  ds_netPnL st, map s_time (ds_trades st)))
      (dailyStats day_name day_time day_signals)
  = [("d1"%string, 10%nat, 10000, 5000, 5000,
      [136800; 133200; 129600; 126000; 122400; 118800; 115200; 111600; 108000; 104400])].
Proof. vm_compute. reflexivity. Qed.

(** * Further properties of the pipeline *)

(** ** The signals of [detectEntries] *)

Lemma entry_step_shape (data : list CandleData) (obs : list OrderBlock) (fvgs : list FVG)
    (timeframe : string) (st : EntryState) (i : nat) :
  entry_step data obs fvgs timeframe st i = st
  \/ exists s, signal_at data obs fvgs timeframe i s
               /\ COOLDOWN < c_time (at_ data i) - lastSignalTime st
               /\ entry_step data obs fvgs timeframe st i
                  = mkEntry (signals st ++ [s]) (c_time (at_ data i)).
Proof.
  unfold entry_step, signal_at.
  destruct (Z.geb_spec (score_of obs fvgs (at_ data i)) 4) as [Hs|Hs]; simpl; [|auto].
  destruct (Z.gtb_spec (c_time (at_ data i) - lastSignalTime st) COOLDOWN) as [Hc|Hc];
    simpl; [|auto].
  destruct (long_ok data obs fvgs i) eqn:El.
  - right. exists (long_signal data obs fvgs timeframe i).
    split; [split; [lia|left; auto]|]. split; [lia|reflexivity].
  - destruct (short_ok data obs fvgs i) eqn:Es; [|auto].
    right. exists (short_signal data obs fvgs timeframe i).
    split; [split; [lia|right; auto]|]. split; [lia|reflexivity].
Qed.

Lemma entry_run_In (data : list CandleData) (obs : list OrderBlock) (fvgs : list FVG)
    (timeframe : string) (range : list nat) (st : EntryState) (s : EntrySignal) :
  In s (signals (entry_run data obs fvgs timeframe range st)) ->
  In s (signals st)
  \/ exists i, In i range /\ signal_at data obs fvgs timeframe i s.
Proof.
  revert st. induction range as [|i r IH]; intros st H; [left; exact H|].
  unfold entry_run in *. simpl in H. apply IH in H.
  destruct H as [H|[j [Hj Hs]]]; [|right; exists j; split; [right; exact Hj|exact Hs]].
  destruct (entry_step_shape data obs fvgs timeframe st i) as [E|[s' [Hs' [_ E]]]];
    rewrite E in H; [left; exact H|].
  simpl in H. apply in_app_or in H. destruct H as [H|[<-|[]]]; [left; exact H|].
  right. exists i. split; [left; reflexivity|exact Hs'].
Qed.

Lemma detectEntries_In (data : list CandleData) (obs : list OrderBlock) (fvgs : list FVG)
    (timeframe : string) (s : EntrySignal) :
  In s (detectEntries data obs fvgs timeframe) ->
  exists i, (100 <= i < length data)%nat /\ signal_at data obs fvgs timeframe i s.
Proof.
  unfold detectEntries. intros H. apply entry_run_In in H.
  destruct H as [[]|[i [Hi Hs]]]. exists i. split; [|exact Hs].
  unfold entry_range in Hi. apply in_seq in Hi. lia.
Qed.

Lemma entry_run_length (data : list CandleData) (obs : list OrderBlock) (fvgs : list FVG)
    (timeframe : string) (range : list nat) (st : EntryState) :
  (length (signals (entry_run data obs fvgs timeframe range st))
   <= length (signals st) + length range)%nat.
Proof.
  revert st. induction range as [|i r IH]; intros st; [simpl; lia|].
  unfold entry_run in *. simpl fold_left. specialize (IH (entry_step data obs fvgs timeframe st i)).
  destruct (entry_step_shape data obs fvgs timeframe st i) as [E|[s' [_ [_ E]]]];
    rewrite E in IH |- *; simpl in *; [lia|].
  rewrite length_app in IH. simpl in IH. lia.
Qed.

Lemma ob_confluence_range (side : string) (o : option OrderBlock) :
  fst (ob_confluence side o) = 0 \/ fst (ob_confluence side o) = 3.
Proof. destruct o; simpl; auto. Qed.

Lemma fvg_confluence_range (tag : string) (o : option FVG) :
  fst (fvg_confluence tag o) = 0 \/ fst (fvg_confluence tag o) = 2
  \/ fst (fvg_confluence tag o) = 6.
Proof. destruct o as [f|]; simpl; [destruct (f_isSilverBullet f)|]; simpl; auto. Qed.

Lemma session_score_range (s : SessionType) : session_score s = 0 \/ session_score s = 1.
Proof. destruct s; simpl; auto. Qed.

Lemma score_of_range (obs : list OrderBlock) (fvgs : list FVG) (candle : CandleData) :
  0 <= score_of obs fvgs candle <= 19.
Proof.
  unfold score_of.
  destruct (ob_confluence_range "Bullish" (touchingBullOB obs candle)) as [->| ->];
  destruct (ob_confluence_range "Bearish" (touchingBearOB obs candle)) as [->| ->];
  destruct (fvg_confluence_range "Discount FVG" (touchingBullFVG fvgs candle))
    as [->|[->| ->]];
  destruct (fvg_confluence_range "Premium FVG" (touchingBearFVG fvgs candle))
    as [->|[->| ->]];
  destruct (session_score_range (getSession (utc_hour (c_time candle)))) as [->| ->];
  lia.
Qed.

(** X1: Every signal is built on a bar of index at least 100 that passed the
    score gate: its score is between 4 and 19, its win probability between
    70 and 95, its timestamp and price are the bar's, its backtest fields
    are absent, and its style is Scalp exactly on the 1m, 3m and 5m
    timeframes.  A series of [n] bars gives at most [n - 100] signals. *)
Theorem signal_fields (data : list CandleData) (obs : list OrderBlock) (fvgs : list FVG)
    (timeframe : string) (s : EntrySignal) :
  (length (detectEntries data obs fvgs timeframe) <= length data - 100)%nat
  /\ (In s (detectEntries data obs fvgs timeframe) ->
      4 <= s_score s <= 19
      /\ 70 <= s_winProbability s <= 95
      /\ s_winProbability s = Z.min 95 (s_score s * 10 + 30)
      /\ (exists i, (100 <= i < length data)%nat
                    /\ s_time s = c_time (at_ data i) /\ s_price s = c_close (at_ data i))
      /\ s_backtestResult s = None /\ s_backtestPnL s = None
      /\ (s_tradingStyle s = SCALP <-> isScalping timeframe = true)).
Proof.
  split.
  - unfold detectEntries.
    pose proof (entry_run_length data obs fvgs timeframe (entry_range data) (mkEntry [] 0)) as H.
    unfold entry_range in *. rewrite length_seq in H. simpl in H. exact H.
  - intros H. apply detectEntries_In in H. destruct H as [i [Hi [Hs Hk]]].
    pose proof (score_of_range obs fvgs (at_ data i)) as Hr.
    assert (Hstyle : forall b : bool,
               (if b then SCALP else DAY_TRADE) = SCALP <-> b = true)
      by (intros [|]; split; congruence).
    destruct Hk as [[_ ->]|[_ [_ ->]]]; simpl;
      (split; [lia|]); (split; [lia|]); (split; [reflexivity|]);
      (split; [exists i; auto|]); (split; [reflexivity|]); (split; [reflexivity|]);
      apply Hstyle.
Qed.

Lemma signal_fields_witness :
  let s := nth 0 (detectEntries cd_data cd_obs cd_fvgs "5m") (long_signal [] [] [] "" 0) in
  4 <= s_score s <= 19 /\ 70 <= s_winProbability s <= 95.
Proof.
  pose proof (signal_fields cd_data cd_obs cd_fvgs "5m"
                (nth 0 (detectEntries cd_data cd_obs cd_fvgs "5m")
                     (long_signal [] [] [] "" 0))) as [_ H].
  destruct H as [H1 [H2 _]]; [vm_compute; left; reflexivity|].
  split; [exact H1|exact H2].
Defined.

(** ** Stops and targets *)

Lemma fold_Qmin_le (r : list Q) (x : Q) :
  (fold_left Qmin r x <= x)%Q /\ forall y, In y r -> (fold_left Qmin r x <= y)%Q.
Proof.
  revert x. induction r as [|a r IH]; intros x; simpl.
  - split; [apply Qle_refl|intros y []].
  - destruct (IH (Qmin x a)) as [H1 H2]. split.
    + eapply Qle_trans; [exact H1|apply Q.le_min_l].
    + intros y [<-|Hy]; [|apply H2; exact Hy].
      eapply Qle_trans; [exact H1|apply Q.le_min_r].
Qed.

Lemma fold_Qmax_ge (r : list Q) (x : Q) :
  (x <= fold_left Qmax r x)%Q /\ forall y, In y r -> (y <= fold_left Qmax r x)%Q.
Proof.
  revert x. induction r as [|a r IH]; intros x; simpl.
  - split; [apply Qle_refl|intros y []].
  - destruct (IH (Qmax x a)) as [H1 H2]. split.
    + eapply Qle_trans; [apply Q.le_max_l|exact H1].
    + intros y [<-|Hy]; [|apply H2; exact Hy].
      eapply Qle_trans; [apply Q.le_max_r|exact H1].
Qed.

Lemma min_of_le (xs : list Q) (y : Q) : In y xs -> (min_of xs <= y)%Q.
Proof.
  destruct xs as [|x r]; [intros []|]. simpl.
  intros [<-|Hy]; [exact (proj1 (fold_Qmin_le r x))|exact (proj2 (fold_Qmin_le r x) y Hy)].
Qed.

Lemma max_of_ge (xs : list Q) (y : Q) : In y xs -> (y <= max_of xs)%Q.
Proof.
  destruct xs as [|x r]; [intros []|]. simpl.
  intros [<-|Hy]; [exact (proj1 (fold_Qmax_ge r x))|exact (proj2 (fold_Qmax_ge r x) y Hy)].
Qed.

Lemma at_in_slice (data : list CandleData) (a b i : nat) :
  (a <= i < b)%nat -> (i < length data)%nat -> In (at_ data i) (slice a b data).
Proof.
  intros Hi Hl. unfold slice, at_.
  replace (nth i data candle0)
    with (nth (i - a) (firstn (b - a) (skipn a data)) candle0).
  - apply nth_In. rewrite length_firstn, length_skipn. lia.
  - rewrite nth_firstn, nth_skipn.
    destruct (Nat.ltb_spec (i - a) (b - a)); [|lia].
    f_equal. lia.
Qed.

Lemma at_In (data : list CandleData) (i : nat) :
  (i < length data)%nat -> In (at_ data i) data.
Proof. intros H. unfold at_. apply nth_In. exact H. Qed.

(** The stop of a Long signal lies on or below the low of its bar, the stop
    of a Short one on or above the high, before the 0.05 % buffer. *)
Lemma long_signal_stop (data : list CandleData) (obs : list OrderBlock) (fvgs : list FVG)
    (timeframe : string) (i : nat) :
  (5 <= i < length data)%nat ->
  (s_sl (long_signal data obs fvgs timeframe i)
   <= c_low (at_ data i) - c_close (at_ data i) * (5 # 10000))%Q.
Proof.
  intros Hi. simpl.
  set (swingLow := min_of (map c_low (slice (i - 5) (i + 1) data))).
  assert (H : (swingLow <= c_low (at_ data i))%Q).
  { apply min_of_le. apply in_map. apply at_in_slice; lia. }
  pose proof (Q.le_min_l swingLow
                (ob_field_or ob_priceLow (touchingBullOB obs (at_ data i)) swingLow)) as Hm.
  lra.
Qed.

Lemma short_signal_stop (data : list CandleData) (obs : list OrderBlock) (fvgs : list FVG)
    (timeframe : string) (i : nat) :
  (5 <= i < length data)%nat ->
  (c_high (at_ data i) + c_close (at_ data i) * (5 # 10000)
   <= s_sl (short_signal data obs fvgs timeframe i))%Q.
Proof.
  intros Hi. simpl.
  set (swingHigh := max_of (map c_high (slice (i - 5) (i + 1) data))).
  assert (H : (c_high (at_ data i) <= swingHigh)%Q).
  { apply max_of_ge. apply in_map. apply at_in_slice; lia. }
  pose proof (Q.le_max_l swingHigh
                (ob_field_or ob_priceHigh (touchingBearOB obs (at_ data i)) swingHigh)) as Hm.
  lra.
Qed.

(** X2: Every signal carries a 1:2 risk-to-reward geometry: the target is the
    entry price plus (Long) or minus (Short) twice the distance from the
    entry price to the stop, computed as the code computes it.  On bars
    whose close is positive and lies between low and high, the stop is
    strictly on the losing side and the target strictly on the winning
    side (Long: stop < price < target; Short: target < price < stop). *)
Theorem signal_risk_reward (data : list CandleData) (obs : list OrderBlock)
    (fvgs : list FVG) (timeframe : string) (s : EntrySignal) :
  In s (detectEntries data obs fvgs timeframe) ->
  match s_type s with
  | LONG => s_tp s = (s_price s + (s_price s - s_sl s) * 2)%Q
  | SHORT => s_tp s = (s_price s - (s_sl s - s_price s) * 2)%Q
  end
  /\ (well_formed data ->
      match s_type s with
      | LONG => (s_sl s < s_price s)%Q /\ (s_price s < s_tp s)%Q
      | SHORT => (s_tp s < s_price s)%Q /\ (s_price s < s_sl s)%Q
      end).
Proof.
  intros H. apply detectEntries_In in H. destruct H as [i [Hi [_ Hk]]].
  destruct Hk as [[_ ->]|[_ [_ ->]]].
  - pose proof (long_signal_stop data obs fvgs timeframe i ltac:(lia)) as Hsl.
    set (s := long_signal data obs fvgs timeframe i) in *.
    assert (Htp : s_tp s = (c_close (at_ data i) + (c_close (at_ data i) - s_sl s) * 2)%Q)
      by reflexivity.
    assert (Hp : s_price s = c_close (at_ data i)) by reflexivity.
    change (s_type s) with LONG. cbv iota. split; [rewrite Hp; exact Htp|].
    rewrite Htp, Hp. intros Hw.
    destruct (Hw (at_ data i) (at_In data i ltac:(lia))) as [H1 [H2 H3]]. lra.
  - pose proof (short_signal_stop data obs fvgs timeframe i ltac:(lia)) as Hsl.
    set (s := short_signal data obs fvgs timeframe i) in *.
    assert (Htp : s_tp s = (c_close (at_ data i) - (s_sl s - c_close (at_ data i)) * 2)%Q)
      by reflexivity.
    assert (Hp : s_price s = c_close (at_ data i)) by reflexivity.
    change (s_type s) with SHORT. cbv iota. split; [rewrite Hp; exact Htp|].
    rewrite Htp, Hp. intros Hw.
    destruct (Hw (at_ data i) (at_In data i ltac:(lia))) as [H1 [H2 H3]]. lra.
Qed.

Lemma cd_data_well_formed : well_formed cd_data.
Proof.
  intros d Hd. unfold cd_data in Hd. apply in_map_iff in Hd. destruct Hd as [k [<- _]].
  unfold cd_bar. destruct (k <? 100)%nat; simpl; repeat split; unfold Qle, Qlt; simpl; lia.
Qed.

Lemma signal_risk_reward_witness :
  let s := nth 0 (detectEntries cd_data cd_obs cd_fvgs "5m") (long_signal [] [] [] "" 0) in
  s_tp s = (s_price s + (s_price s - s_sl s) * 2)%Q
  /\ (s_sl s < s_price s)%Q /\ (s_price s < s_tp s)%Q.
Proof.
  pose proof (signal_risk_reward cd_data cd_obs cd_fvgs "5m"
                (nth 0 (detectEntries cd_data cd_obs cd_fvgs "5m")
                     (long_signal [] [] [] "" 0))) as H.
  destruct H as [Hg H]; [vm_compute; left; reflexivity|].
  split; [exact Hg|]. apply (H cd_data_well_formed).
Defined.

(** ** Signals are identified by their timestamp *)

Lemma spaced_cooled (ts : list Z) (prev : Z) :
  spaced prev ts -> cooled ts /\ Forall (fun t => prev + COOLDOWN < t) ts.
Proof.
  unfold cooled. revert prev. induction ts as [|t r IH]; intros prev H; simpl in H.
  - split; constructor.
  - destruct H as [Ht Hr]. destruct (IH t Hr) as [Hs Hf]. split.
    + constructor; assumption.
    + constructor; [lia|].
      eapply Forall_impl; [|exact Hf]. unfold COOLDOWN in *. intros x Hx. simpl in Hx. lia.
Qed.

Lemma cooled_unique {B} (key : B -> Z) (l : list B) (x y : B) :
  cooled (map key l) -> In x l -> In y l ->
  Z.abs (key x - key y) <= COOLDOWN -> x = y.
Proof.
  unfold cooled. induction l as [|a r IH]; intros Hs Hx Hy Hd; [destruct Hx|].
  simpl in Hs. apply StronglySorted_inv in Hs. destruct Hs as [Hr Ha].
  rewrite Forall_forall in Ha.
  destruct Hx as [<-|Hx], Hy as [<-|Hy]; auto.
  - specialize (Ha (key y) (in_map key r y Hy)). simpl in Ha. lia.
  - specialize (Ha (key x) (in_map key r x Hx)). simpl in Ha. lia.
Qed.

Lemma cooled_NoDup (ts : list Z) : cooled ts -> NoDup ts.
Proof.
  unfold cooled. induction ts as [|t r IH]; intros H; constructor.
  - apply StronglySorted_inv in H. destruct H as [_ Ha].
    rewrite Forall_forall in Ha. intros Hin. specialize (Ha t Hin).
    unfold COOLDOWN in Ha. simpl in Ha. lia.
  - apply IH. apply StronglySorted_inv in H. apply H.
Qed.

Lemma detectEntries_cooled (data : list CandleData) (obs : list OrderBlock)
    (fvgs : list FVG) (timeframe : string) :
  cooled (map s_time (detectEntries data obs fvgs timeframe)).
Proof.
  unfold detectEntries.
  destruct (entry_run_inv data obs fvgs timeframe (entry_range data) (mkEntry [] 0))
    as [H _]; [split; [exact I|reflexivity]|].
  apply (spaced_cooled _ 0 H).
Qed.

Lemma bt_map_results (data : list CandleData) (sigs : list EntrySignal) (st : BtState) :
  snd (bt_map data st sigs) = map (backtested data) sigs.
Proof.
  revert st. induction sigs as [|s r IH]; intros st; [reflexivity|].
  simpl bt_map.
  assert (Hs : snd (bt_step data st s) = backtested data s).
  { unfold bt_step, backtested, outcome.
    destruct (findIndex (fun d => c_time d =? s_time s) data) as [k|]; [|reflexivity].
    destruct (bt_scan s (skipn (k + 1) data)). reflexivity. }
  destruct (bt_step data st s) as [st1 x]. simpl in Hs. subst x.
  specialize (IH st1). destruct (bt_map data st1 r) as [st2 rs]. simpl in *.
  rewrite IH. reflexivity.
Qed.

Lemma performBacktest_results (data : list CandleData) (sigs : list EntrySignal) :
  snd (performBacktest data sigs) = map (backtested data) sigs.
Proof.
  unfold performBacktest. rewrite <- (bt_map_results data sigs bt_init).
  destruct (bt_map data bt_init sigs). reflexivity.
Qed.

Lemma backtested_time (data : list CandleData) (s : EntrySignal) :
  s_time (backtested data s) = s_time s.
Proof. unfold backtested. destruct (outcome data s) as [[r p]|]; reflexivity. Qed.

Lemma backtested_score (data : list CandleData) (s : EntrySignal) :
  s_score (backtested data s) = s_score s.
Proof. unfold backtested. destruct (outcome data s) as [[r p]|]; reflexivity. Qed.

(** Among signals more than [COOLDOWN] apart, the lookup by timestamp finds
    the signal that carries it. *)
Lemma find_by_time (entries : list EntrySignal) (e : EntrySignal) (t : Z) :
  cooled (map s_time entries) -> In e entries -> s_time e = t ->
  find (fun x => s_time x =? t) entries = Some e.
Proof.
  intros Hc He Ht.
  destruct (find (fun x => s_time x =? t) entries) as [x|] eqn:Ef.
  - apply find_some in Ef. destruct Ef as [Hx Hxt]. apply Z.eqb_eq in Hxt.
    f_equal. apply (cooled_unique s_time entries x e Hc Hx He). unfold COOLDOWN. lia.
  - pose proof (find_none _ _ Ef e He) as H. simpl in H.
    apply Z.eqb_neq in H. contradiction.
Qed.

Lemma candle_color_yellow (entries : list EntrySignal) (silverBullet : bool)
    (d : CandleData) :
  candle_color entries silverBullet d = yellow
  <-> exists e, find (fun x => s_time x =? c_time d) entries = Some e /\ 7 <= s_score e.
Proof.
  unfold candle_color. cbv zeta.
  destruct (find (fun x => s_time x =? c_time d) entries) as [e|].
  - destruct (Z.geb_spec (s_score e) 7) as [H|H].
    + split; [|reflexivity]. intros _. exists e. split; [reflexivity|lia].
    + split.
      * destruct (_ && silverBullet); discriminate.
      * intros [x [Hx Hs]]. injection Hx as <-. lia.
  - split.
    + destruct (_ && silverBullet); discriminate.
    + intros [x [Hx _]]. discriminate.
Qed.

(** X3: The signals drawn on the chart (the results of the backtest of the
    detected signals) have timestamps more than 600 seconds apart, hence
    pairwise distinct, so the lookup by timestamp that colours the
    candles meets the only signal of a bar: a candle is painted yellow
    exactly when the signal on its timestamp has a score of 7 or more, a
    candle with a signal of a lower score is never yellow, and every
    signal of score 7 or more has its candle of the series painted
    yellow. *)
Theorem highlighted_candles (data : list CandleData) (obs : list OrderBlock)
    (fvgs : list FVG) (timeframe : string) (silverBullet : bool) :
  let entries := snd (performBacktest data (detectEntries data obs fvgs timeframe)) in
  cooled (map s_time entries)
  /\ NoDup (map s_time entries)
  /\ (forall d, candle_color entries silverBullet d = yellow
                <-> exists e, In e entries /\ s_time e = c_time d /\ 7 <= s_score e)
  /\ (forall d e, In e entries -> s_time e = c_time d -> s_score e < 7 ->
                  cc_color (candle_color entries silverBullet d) = None)
  /\ (forall e, In e entries -> 7 <= s_score e ->
        exists d, In d data /\ c_time d = s_time e
                  /\ In (d, yellow) (coloredData entries silverBullet data)).
Proof.
  intros entries.
  assert (Hc : cooled (map s_time entries)).
  { unfold entries. rewrite performBacktest_results, map_map.
    rewrite (map_ext _ s_time) by apply backtested_time.
    apply detectEntries_cooled. }
  assert (Hy : forall d, candle_color entries silverBullet d = yellow
                         <-> exists e, In e entries /\ s_time e = c_time d /\ 7 <= s_score e).
  { intros d. rewrite candle_color_yellow. split.
    - intros [e [Hf Hs]]. apply find_some in Hf. destruct Hf as [He Ht].
      apply Z.eqb_eq in Ht. exists e. auto.
    - intros [e [He [Ht Hs]]]. exists e. split; [|exact Hs].
      apply find_by_time; assumption. }
  split; [exact Hc|]. split; [apply cooled_NoDup; exact Hc|]. split; [exact Hy|]. split.
  - intros d e He Ht Hs. unfold candle_color. cbv zeta.
    rewrite (find_by_time entries e (c_time d) Hc He Ht).
    destruct (Z.geb_spec (s_score e) 7) as [H|H]; [lia|].
    destruct (_ && silverBullet); reflexivity.
  - intros e He Hs.
    assert (Hd : exists d, In d data /\ c_time d = s_time e).
    { unfold entries in He. rewrite performBacktest_results in He.
      apply in_map_iff in He. destruct He as [s [<- Hin]]. rewrite backtested_time.
      apply detectEntries_In in Hin. destruct Hin as [i [Hi [_ Hk]]].
      exists (at_ data i). split; [apply at_In; lia|].
      destruct Hk as [[_ ->]|[_ [_ ->]]]; reflexivity. }
    destruct Hd as [d [Hd Ht]]. exists d. split; [exact Hd|]. split; [exact Ht|].
    unfold coloredData. apply in_map_iff. exists d. split; [|exact Hd].
    f_equal. apply Hy. exists e. auto.
Qed.

Lemma highlighted_candles_witness :
  let entries := snd (performBacktest sd_data (detectEntries sd_data sd_obs sd_fvgs "5m")) in
  exists d, In d sd_data /\ c_time d = 33000
            /\ In (d, yellow) (coloredData entries true sd_data).
Proof.
  intros entries.
  pose proof (highlighted_candles sd_data sd_obs sd_fvgs "5m" true) as [_ [_ [_ [_ H]]]].
  destruct (H (nth 0 entries bt_signal)) as [d [Hd [Ht Hin]]].
  - vm_compute. left. reflexivity.
  - vm_compute. discriminate.
  - exists d. split; [exact Hd|]. split; [|exact Hin].
    rewrite Ht. vm_compute. reflexivity.
Defined.

(** ** Timeframes without zones *)

(** X4: On a timeframe other than 5m, 15m and 1h no zone is computed, and a
    signal can only come from gaps: it touches a silver-bullet gap, or a
    bullish and a bearish gap at once, and carries no zone tag. *)
Theorem gap_only_signals (candles : list CandleData) (timeframe : string)
    (obThreshold : Q) (s : EntrySignal) :
  includes allowedObTimeframes timeframe = false ->
  In s (run_entries candles timeframe obThreshold) ->
  (In "Silver Bullet Zone"%string (s_confluences s)
   \/ (In "Discount FVG"%string (s_confluences s)
       /\ In "Premium FVG"%string (s_confluences s)))
  /\ forall tag, In tag (s_confluences s) ->
       tag = "Discount FVG"%string \/ tag = "Premium FVG"%string
       \/ tag = "Silver Bullet Zone"%string.
Proof.
  unfold run_entries, run_obs. intros -> H.
  apply detectEntries_In in H. destruct H as [i [_ [Hs Hk]]].
  assert (Hc : s_confluences s = confluences_of [] (detectFVG candles) (at_ candles i))
    by (destruct Hk as [[_ ->]|[_ [_ ->]]]; reflexivity).
  rewrite Hc. clear Hc Hk. unfold score_of in Hs. unfold confluences_of.
  unfold touchingBullOB, touchingBearOB in *. simpl find in *. simpl ob_confluence in *.
  destruct (session_score_range (getSession (utc_hour (c_time (at_ candles i)))))
    as [E|E]; rewrite E in Hs; clear E;
  destruct (touchingBullFVG (detectFVG candles) (at_ candles i)) as [f1|];
  destruct (touchingBearFVG (detectFVG candles) (at_ candles i)) as [f2|];
  simpl in *;
  try destruct (f_isSilverBullet f1); try destruct (f_isSilverBullet f2);
  simpl in *; try lia;
  (split; [intuition auto|]); intros tag Ht; intuition auto.
Qed.

Lemma gap_only_signals_witness :
  let s := nth 0 (run_entries gap_data "3m" (12 # 10)) bt_signal in
  s_time s = 18000 /\ In "Silver Bullet Zone"%string (s_confluences s).
Proof.
  intros s.
  pose proof (gap_only_signals gap_data "3m" (12 # 10) s eq_refl
                ltac:(vm_compute; left; reflexivity)) as [_ H].
  split; [reflexivity|]. vm_compute. right. left. reflexivity.
Defined.

(** ** Backtest: results and statistics *)

Lemma bt_step_apply (data : list CandleData) (st : BtState) (s : EntrySignal) :
  fst (bt_step data st s) = bt_apply st (outcome data s).
Proof.
  unfold bt_step, bt_apply, outcome.
  destruct (findIndex (fun d => c_time d =? s_time s) data) as [k|]; [|reflexivity].
  destruct (bt_scan s (skipn (k + 1) data)). reflexivity.
Qed.

Lemma bt_map_apply (data : list CandleData) (sigs : list EntrySignal) (st : BtState) :
  fst (bt_map data st sigs) = fold_left bt_apply (map (outcome data) sigs) st.
Proof.
  revert st. induction sigs as [|s r IH]; intros st; [reflexivity|].
  simpl bt_map. pose proof (bt_step_apply data st s) as Hs.
  destruct (bt_step data st s) as [st1 x]. simpl in Hs. subst st1.
  specialize (IH (bt_apply st (outcome data s))).
  destruct (bt_map data (bt_apply st (outcome data s)) r) as [st2 rs].
  simpl in *. exact IH.
Qed.

Lemma bt_scan_ext (s s' : EntrySignal) (future : list CandleData) :
  s_type s' = s_type s -> s_sl s' = s_sl s -> s_tp s' = s_tp s ->
  bt_scan s' future = bt_scan s future.
Proof.
  intros Ht Hsl Htp. induction future as [|c r IH]; simpl; [reflexivity|].
  rewrite Ht, Hsl, Htp, IH. reflexivity.
Qed.

Lemma backtested_same_setup (data : list CandleData) (s : EntrySignal) :
  same_setup s (backtested data s).
Proof.
  unfold backtested, same_setup.
  destruct (outcome data s) as [[r p]|]; simpl; repeat split; reflexivity.
Qed.

Lemma outcome_backtested (data : list CandleData) (s : EntrySignal) :
  outcome data (backtested data s) = outcome data s.
Proof.
  destruct (backtested_same_setup data s) as [Ht [Hty [_ [_ [_ [Hsl [Htp _]]]]]]].
  unfold outcome. rewrite Ht.
  destruct (findIndex (fun d => c_time d =? s_time s) data) as [k|]; [|reflexivity].
  rewrite (bt_scan_ext s (backtested data s)) by assumption. reflexivity.
Qed.

Lemma backtested_idem (data : list CandleData) (s : EntrySignal) :
  backtested data (backtested data s) = backtested data s.
Proof.
  unfold backtested at 1. rewrite outcome_backtested.
  unfold backtested. destruct (outcome data s) as [[r p]|]; reflexivity.
Qed.

(** X5: The backtest returns the signals in their order, each with the same
    setup (time, side, price, stop, target, score and tags) and only its
    backtest fields filled; and it is idempotent: run again on its own
    results, it returns the same statistics and the same results. *)
Theorem backtest_idempotent (data : list CandleData) (sigs : list EntrySignal) :
  Forall2 same_setup sigs (snd (performBacktest data sigs))
  /\ performBacktest data (snd (performBacktest data sigs)) = performBacktest data sigs.
Proof.
  rewrite performBacktest_results. split.
  - induction sigs as [|s r IH]; simpl; constructor;
      [apply backtested_same_setup|exact IH].
  - assert (Hst : forall l, performBacktest data l
                            = (stats_of (fold_left bt_apply (map (outcome data) l) bt_init),
                               map (backtested data) l)).
    { intros l. unfold performBacktest.
      pose proof (bt_map_apply data l bt_init) as H1.
      pose proof (bt_map_results data l bt_init) as H2.
      destruct (bt_map data bt_init l) as [st rs]. simpl in *. subst. reflexivity. }
    rewrite !Hst. rewrite !map_map.
    rewrite (map_ext _ _ (outcome_backtested data)).
    rewrite (map_ext _ _ (backtested_idem data)). reflexivity.
Qed.

Lemma bt_apply_drawdown (st : BtState) (o : option (BacktestResult * Z)) :
  o = None \/ o = Some (LOSS, -1000) \/ o = Some (WIN, 2000) \/ o = Some (PENDING, 0) ->
  0 <= bt_losses st ->
  0 <= bt_maxDrawdown st <= 1000 * bt_losses st ->
  bt_peakBalance st - bt_currentBalance st <= 1000 * bt_losses st ->
  let st' := bt_apply st o in
  0 <= bt_losses st'
  /\ 0 <= bt_maxDrawdown st' <= 1000 * bt_losses st'
  /\ bt_peakBalance st' - bt_currentBalance st' <= 1000 * bt_losses st'.
Proof.
  intros [->|[->|[->| ->]]] Hl Hd Hp; unfold bt_apply;
    cbn [bt_losses bt_maxDrawdown bt_peakBalance bt_currentBalance BacktestResult_eqb];
    lia.
Qed.

Lemma bt_fold_drawdown (os : list (option (BacktestResult * Z))) (st : BtState) :
  Forall (fun o => o = None \/ o = Some (LOSS, -1000) \/ o = Some (WIN, 2000)
                   \/ o = Some (PENDING, 0)) os ->
  0 <= bt_losses st ->
  0 <= bt_maxDrawdown st <= 1000 * bt_losses st ->
  bt_peakBalance st - bt_currentBalance st <= 1000 * bt_losses st ->
  let st' := fold_left bt_apply os st in
  0 <= bt_maxDrawdown st' <= 1000 * bt_losses st'.
Proof.
  revert st. induction os as [|o r IH]; intros st Ho Hl Hd Hp; simpl; [exact Hd|].
  inversion Ho as [|? ? Ho1 Ho2]; subst.
  destruct (bt_apply_drawdown st o Ho1 Hl Hd Hp) as [Hl' [Hd' Hp']].
  apply IH; assumption.
Qed.

(** X6: The reported maximum drawdown is never negative and never more than
    1000 per loss: a backtest without a loss has no drawdown.  The running
    peak starts at 0, not at the initial balance, so the first trade sets
    the peak: a backtest of a single signal reports a drawdown of 0
    whatever its outcome. *)
Theorem max_drawdown_bounds (data : list CandleData) (sigs : list EntrySignal)
    (s : EntrySignal) :
  let stats := fst (performBacktest data sigs) in
  0 <= maxDrawdown stats <= 1000 * losses stats
  /\ (losses stats = 0 -> maxDrawdown stats = 0)
  /\ maxDrawdown (fst (performBacktest data [s])) = 0.
Proof.
  assert (Hst : forall l, fst (performBacktest data l)
                          = stats_of (fold_left bt_apply (map (outcome data) l) bt_init)).
  { intros l. unfold performBacktest.
    pose proof (bt_map_apply data l bt_init) as H1.
    destruct (bt_map data bt_init l) as [st rs]. simpl in *. subst. reflexivity. }
  rewrite !Hst. cbv zeta.
  assert (Hb : 0 <= maxDrawdown
                      (stats_of (fold_left bt_apply (map (outcome data) sigs) bt_init))
               <= 1000 * losses
                      (stats_of (fold_left bt_apply (map (outcome data) sigs) bt_init))).
  { apply (bt_fold_drawdown (map (outcome data) sigs) bt_init).
    - apply Forall_forall. intros o Ho. apply in_map_iff in Ho.
      destruct Ho as [x [<- _]]. apply outcome_range.
    - simpl. lia.
    - simpl. lia.
    - simpl. lia. }
  split; [exact Hb|]. split; [intros H0; rewrite H0 in Hb; lia|].
  simpl. destruct (outcome_range data s) as [->|[->|[->| ->]]]; reflexivity.
Qed.

Lemma max_drawdown_bounds_witness :
  maxDrawdown (fst (performBacktest bt_bars [bt_signal])) = 0.
Proof.
  pose proof (max_drawdown_bounds bt_bars [bt_signal] bt_signal) as [_ [H _]].
  apply H. reflexivity.
Defined.

Lemma inject_Z_pos (b : Z) : 0 < b -> (0 < inject_Z b)%Q.
Proof. intros H. change 0%Q with (inject_Z 0). rewrite <- Zlt_Qlt. exact H. Qed.

Lemma Qdiv_gt_1 (a b : Z) :
  0 < b -> ((1 < inject_Z a / inject_Z b)%Q <-> b < a).
Proof.
  intros Hb. pose proof (inject_Z_pos b Hb) as Hq. split.
  - intros H. destruct (Z_lt_le_dec b a) as [Hlt|Hle]; [exact Hlt|].
    exfalso. apply (Qlt_not_le _ _ H).
    apply Qle_shift_div_r; [exact Hq|]. rewrite Qmult_1_l, <- Zle_Qle. exact Hle.
  - intros H. apply Qlt_shift_div_l; [exact Hq|]. rewrite Qmult_1_l, <- Zlt_Qlt. exact H.
Qed.

Lemma Qdiv_unit_interval (a b : Z) :
  0 <= a <= b -> 0 < b -> (0 <= inject_Z a / inject_Z b <= 1)%Q.
Proof.
  intros Ha Hb. pose proof (inject_Z_pos b Hb) as Hq. split.
  - apply Qle_shift_div_l; [exact Hq|]. rewrite Qmult_0_l.
    change 0%Q with (inject_Z 0). rewrite <- Zle_Qle. lia.
  - apply Qle_shift_div_r; [exact Hq|]. rewrite Qmult_1_l, <- Zle_Qle. lia.
Qed.

Lemma stats_of_thresholds (st : BtState) :
  0 <= bt_wins st -> 0 <= bt_losses st ->
  bt_netPnL st = 2000 * bt_wins st - 1000 * bt_losses st ->
  let stats := stats_of st in
  (0 <= winRate stats <= 100)%Q
  /\ (0 < netPnL stats <-> (1 < profitFactor stats)%Q)
  /\ (0 < totalTrades stats -> (0 < netPnL stats <-> (100 # 3 < winRate stats)%Q)).
Proof.
  intros Hw Hl Hn. unfold stats_of. cbn [winRate netPnL profitFactor totalTrades].
  rewrite Hn. set (w := bt_wins st) in *. set (l := bt_losses st) in *.
  split; [|split].
  - destruct (Z.gtb_spec (w + l) 0) as [Ht|Ht]; [|lra].
    pose proof (Qdiv_unit_interval w (w + l) ltac:(lia) ltac:(lia)) as Hq. lra.
  - destruct (Z.gtb_spec l 0) as [Hl0|Hl0].
    + rewrite Qdiv_gt_1 by lia. lia.
    + destruct (Z.gtb_spec w 0) as [Hw0|Hw0]; split; intros H; try lra; try lia.
  - intros Ht. destruct (Z.gtb_spec (w + l) 0) as [_|Hc]; [|lia].
    assert (H3 : (inject_Z (3 * w) / inject_Z (w + l)
                  == 3 * (inject_Z w / inject_Z (w + l)))%Q).
    { rewrite inject_Z_mult. unfold Qdiv. ring. }
    pose proof (Qdiv_gt_1 (3 * w) (w + l) ltac:(lia)) as Hd.
    rewrite H3 in Hd.
    split; intros H.
    + assert (Hx : w + l < 3 * w) by lia. apply Hd in Hx. lra.
    + assert (Hx : (1 < 3 * (inject_Z w / inject_Z (w + l)))%Q) by lra.
      apply Hd in Hx. lia.
Qed.

(** X7: With the fixed contract (2000 per win, 1000 per loss) the three
    statistics agree on what a profitable backtest is: netPnL is positive
    exactly when profitFactor exceeds 1 and, when a trade resolved, exactly
    when winRate exceeds 33 1/3 percent.  winRate lies between 0 and 100,
    and totalTrades counts the resolved trades only. *)
Theorem profitability_thresholds (data : list CandleData) (sigs : list EntrySignal) :
  let stats := fst (performBacktest data sigs) in
  totalTrades stats = wins stats + losses stats
  /\ totalTrades stats = count_result WIN data sigs + count_result LOSS data sigs
  /\ (0 <= winRate stats <= 100)%Q
  /\ (0 < netPnL stats <-> (1 < profitFactor stats)%Q)
  /\ (0 < totalTrades stats -> (0 < netPnL stats <-> (100 # 3 < winRate stats)%Q)).
Proof.
  unfold performBacktest.
  pose proof (bt_map_spec data sigs bt_init) as H.
  destruct (bt_map data bt_init sigs) as [st rs]. cbv zeta in H; cbn [fst] in H.
  destruct H as [_ [_ [Hw [Hl Hn]]]].
  change (bt_wins bt_init) with 0 in Hw. change (bt_losses bt_init) with 0 in Hl.
  change (bt_netPnL bt_init) with 0 in Hn.
  assert (H0w : 0 <= bt_wins st) by (rewrite Hw; unfold count_result; lia).
  assert (H0l : 0 <= bt_losses st) by (rewrite Hl; unfold count_result; lia).
  assert (Hnet : bt_netPnL st = 2000 * bt_wins st - 1000 * bt_losses st) by lia.
  cbv zeta. cbn [fst].
  split; [reflexivity|]. split; [unfold stats_of; cbn [totalTrades]; lia|].
  apply (stats_of_thresholds st H0w H0l Hnet).
Qed.

Lemma profitability_thresholds_witness :
  let stats := fst (performBacktest win_data (detectEntries win_data cd_obs cd_fvgs "5m")) in
  wins stats = 1
  /\ (0 < netPnL stats <-> (100 # 3 < winRate stats)%Q).
Proof.
  pose proof (profitability_thresholds win_data
                (detectEntries win_data cd_obs cd_fvgs "5m")) as [_ [_ [_ [_ H]]]].
  split; [vm_compute; reflexivity|].
  apply H. vm_compute. reflexivity.
Defined.

(** ** The daily rollup of backtested signals *)

Lemma fold_add_shift (l : list Z) (acc : Z) :
  fold_left Z.add l acc = acc + fold_left Z.add l 0.
Proof.
  revert acc. induction l as [|x r IH]; intros acc; simpl; [lia|].
  rewrite (IH (acc + x)), (IH x). lia.
Qed.

Lemma Zsum_pnl_tally (trades : list EntrySignal) :
  Forall (fun t => (is_result WIN t = true /\ is_result LOSS t = false /\ pnl_of t = 2000)
                   \/ (is_result WIN t = false /\ is_result LOSS t = true
                       /\ pnl_of t = -1000)) trades ->
  Zsum (map pnl_of trades) = 2000 * winCount trades - 1000 * lossCount trades.
Proof.
  unfold Zsum, winCount, lossCount.
  induction trades as [|t r IH]; intros H; [reflexivity|].
  inversion H as [|? ? Ht Hr]; subst. specialize (IH Hr).
  simpl map. simpl fold_left. rewrite fold_add_shift, IH. simpl filter.
  destruct Ht as [[-> [-> ->]]|[-> [-> ->]]]; cbn [length]; lia.
Qed.

Lemma backtested_resolved (data : list CandleData) (s : EntrySignal) :
  s_backtestResult s = None -> resolved (backtested data s) = true ->
  (is_result WIN (backtested data s) = true /\ is_result LOSS (backtested data s) = false
   /\ pnl_of (backtested data s) = 2000)
  \/ (is_result WIN (backtested data s) = false /\ is_result LOSS (backtested data s) = true
      /\ pnl_of (backtested data s) = -1000).
Proof.
  intros Hn. unfold backtested, resolved, is_result, pnl_of.
  destruct (outcome_range data s) as [->|[->|[->| ->]]]; simpl;
    [rewrite Hn; simpl; discriminate|auto|auto|discriminate].
Qed.

Section DailyBacktest.

Variable dateOf : Z -> string.
Variable parseDate : string -> option Z.

Lemma dailyTrades_In (entries : list EntrySignal) (d : string) (t : EntrySignal) :
  In t (dailyTrades dateOf entries d) -> In t entries /\ resolved t = true.
Proof.
  rewrite dailyTrades_on_date. intros Ht. apply In_firstn in Ht.
  apply (Permutation_in _ (Permutation_sym (sort_by_perm _ _))) in Ht.
  unfold on_date in Ht. apply filter_In in Ht. destruct Ht as [Ht _].
  apply filter_In in Ht. exact Ht.
Qed.

(** X8: The rollup agrees with the backtest it summarises: fed the results of
    [performBacktest] on fresh signals, the netPnL of every day is the
    sum of the [backtestPnL] of the trades it lists, each of which is a
    backtested signal worth +2000 (Win) or -1000 (Loss). *)
Theorem daily_pnl_matches_backtest (data : list CandleData) (sigs : list EntrySignal)
    (st : DailyStat) :
  (forall s, In s sigs -> s_backtestResult s = None) ->
  In st (dailyStats dateOf parseDate (snd (performBacktest data sigs))) ->
  ds_netPnL st = Zsum (map pnl_of (ds_trades st))
  /\ forall t, In t (ds_trades st) ->
       In t (snd (performBacktest data sigs))
       /\ ((s_backtestResult t = Some WIN /\ s_backtestPnL t = Some 2000)
           \/ (s_backtestResult t = Some LOSS /\ s_backtestPnL t = Some (-1000))).
Proof.
  intros Hfresh Hst. rewrite performBacktest_results in *.
  unfold dailyStats in Hst. apply in_map_iff in Hst. destruct Hst as [d [<- _]].
  rewrite daily_of_fields. cbv zeta. cbn [ds_netPnL ds_trades].
  assert (Hall : forall t, In t (dailyTrades dateOf (map (backtested data) sigs) d) ->
                 exists s, In s sigs /\ t = backtested data s
                           /\ resolved (backtested data s) = true).
  { intros t Ht. apply dailyTrades_In in Ht. destruct Ht as [Hin Hr].
    apply in_map_iff in Hin. destruct Hin as [s [<- Hs]]. exists s. auto. }
  split.
  - symmetry. apply Zsum_pnl_tally. apply Forall_forall. intros t Ht.
    destruct (Hall t Ht) as [s [Hs [-> Hr]]].
    apply backtested_resolved; [apply Hfresh; exact Hs|exact Hr].
  - intros t Ht. split; [apply (dailyTrades_In _ _ _ Ht)|].
    destruct (Hall t Ht) as [s [Hs [-> Hr]]].
    pose proof (Hfresh s Hs) as Hn. clear Ht Hall.
    unfold backtested, resolved, is_result in *.
    destruct (outcome_range data s) as [E|[E|[E|E]]]; rewrite E in *; simpl in *;
      [rewrite Hn in Hr; discriminate|right; auto|left; auto|discriminate].
Qed.

End DailyBacktest.

Lemma detectEntries_fresh (data : list CandleData) (obs : list OrderBlock)
    (fvgs : list FVG) (timeframe : string) (s : EntrySignal) :
  In s (detectEntries data obs fvgs timeframe) -> s_backtestResult s = None.
Proof.
  intros H. apply detectEntries_In in H.
  destruct H as [i [_ [_ [[_ ->]|[_ [_ ->]]]]]]; reflexivity.
Qed.

Lemma daily_pnl_matches_backtest_witness :
  let entries := snd (performBacktest win_data (detectEntries win_data cd_obs cd_fvgs "5m")) in
  let st := nth 0 (dailyStats day_name day_time entries) (mkDaily "" 0 0 0 0 []) in
  ds_netPnL st = 2000 /\ ds_netPnL st = Zsum (map pnl_of (ds_trades st)).
Proof.
  intros entries st. split; [vm_compute; reflexivity|].
  pose proof (daily_pnl_matches_backtest day_name day_time win_data
                (detectEntries win_data cd_obs cd_fvgs "5m") st
                (detectEntries_fresh win_data cd_obs cd_fvgs "5m")) as H.
  destruct H as [H _]; [vm_compute; left; reflexivity|].
  exact H.
Defined.

(** ** Swing structure: the points *)

Lemma pivotHighs_In (data : list CandleData) (w : nat) (p : Pivot) :
  In p (pivotHighs data w) <->
  exists i, (w <= i < length data - w)%nat /\ isHigh data w i = true
            /\ p = mkPivot i (c_high (at_ data i)) High.
Proof.
  unfold pivotHighs, swing_range. rewrite in_map_iff. split.
  - intros [i [<- Hi]]. apply filter_In in Hi. destruct Hi as [Hi Hh].
    apply in_seq in Hi. exists i. repeat split; auto; lia.
  - intros [i [Hi [Hh ->]]]. exists i. split; [reflexivity|].
    apply filter_In. split; [apply in_seq; lia|exact Hh].
Qed.

Lemma pivotLows_In (data : list CandleData) (w : nat) (p : Pivot) :
  In p (pivotLows data w) <->
  exists i, (w <= i < length data - w)%nat /\ isLow data w i = true
            /\ p = mkPivot i (c_low (at_ data i)) Low.
Proof.
  unfold pivotLows, swing_range. rewrite in_map_iff. split.
  - intros [i [<- Hi]]. apply filter_In in Hi. destruct Hi as [Hi Hh].
    apply in_seq in Hi. exists i. repeat split; auto; lia.
  - intros [i [Hi [Hh ->]]]. exists i. split; [reflexivity|].
    apply filter_In. split; [apply in_seq; lia|exact Hh].
Qed.

Lemma allPivots_pivot_of (data : list CandleData) (w : nat) (p : Pivot) :
  In p (allPivots data w) -> pivot_of data w p.
Proof.
  intros H. unfold allPivots in H.
  apply (Permutation_in _ (Permutation_sym (sort_by_perm _ _))) in H.
  apply in_app_or in H. unfold pivot_of. destruct H as [H|H].
  - apply pivotHighs_In in H. destruct H as [i [Hi [Hh ->]]]. simpl. split; [lia|left; auto].
  - apply pivotLows_In in H. destruct H as [i [Hi [Hh ->]]]. simpl. split; [lia|right; auto].
Qed.

Lemma swing_step_points (data : list CandleData) (w : nat) (st : SwingState) (p : Pivot)
    (pt : StructurePoint) :
  pivot_of data w p ->
  In pt (points (swing_step data st p)) ->
  In pt (points st) \/ marks_pivot data w pt.
Proof.
  intros [Hi Hp] H. unfold swing_step in H.
  destruct Hp as [[Hk [Hh Hpr]]|[Hk [Hh Hpr]]]; rewrite Hk in H.
  - destruct (lastHigh st) as [lh|]; simpl in H; [|left; exact H].
    apply in_app_or in H. destruct H as [H|[<-|[]]]; [left; exact H|].
    right. exists (p_index p). split; [lia|].
    destruct (Qgtb (p_price p) (p_price lh)); simpl; (split; [reflexivity|]); left; auto.
  - destruct (lastLow st) as [ll|]; simpl in H; [|left; exact H].
    apply in_app_or in H. destruct H as [H|[<-|[]]]; [left; exact H|].
    right. exists (p_index p). split; [lia|].
    destruct (Qltb (p_price p) (p_price ll)); simpl; (split; [reflexivity|]); right; auto.
Qed.

Lemma swing_fold_points (data : list CandleData) (w : nat) (l : list Pivot)
    (st : SwingState) (pt : StructurePoint) :
  (forall p, In p l -> pivot_of data w p) ->
  In pt (points (fold_left (swing_step data) l st)) ->
  In pt (points st) \/ marks_pivot data w pt.
Proof.
  revert st. induction l as [|p r IH]; intros st Hl H; [left; exact H|].
  simpl in H. apply IH in H; [|intros q Hq; apply Hl; right; exact Hq].
  destruct H as [H|H]; [|right; exact H].
  apply (swing_step_points data w st p pt); [apply Hl; left; reflexivity|exact H].
Qed.

(** X9: Every StructurePoint marks a pivot of the series: it is HH or LH with
    direction Bearish at a pivot high, or LL or HL with direction Bullish at
    a pivot low, with the time and the price of that bar; the detector never
    emits PH, PL, BOS or CHoCH.  A series shorter than
    [2 * swingLength + 1] bars gives no point. *)
Theorem structure_points_mark_pivots (data : list CandleData) (swingLength : nat)
    (pt : StructurePoint) :
  (In pt (detectStructure data swingLength) -> marks_pivot data swingLength pt)
  /\ ((length data < 2 * swingLength + 1)%nat -> detectStructure data swingLength = []).
Proof.
  split.
  - unfold detectStructure. intros H.
    apply (swing_fold_points data swingLength) in H.
    + destruct H as [[]|H]. exact H.
    + intros p Hp. apply allPivots_pivot_of. exact Hp.
  - intros H. unfold detectStructure, allPivots, swing_init, pivotHighs, pivotLows, swing_range.
    replace (length data - swingLength - swingLength)%nat with 0%nat by lia.
    reflexivity.
Qed.

Lemma structure_points_mark_pivots_witness :
  marks_pivot swing_bars 1 (mkPoint 240 13 HH Bearish)
  /\ detectStructure (firstn 2 swing_bars) 1 = [].
Proof.
  pose proof (structure_points_mark_pivots swing_bars 1 (mkPoint 240 13 HH Bearish))
    as [H1 _].
  pose proof (structure_points_mark_pivots (firstn 2 swing_bars) 1
                (mkPoint 240 13 HH Bearish)) as [_ H2].
  split; [apply H1; vm_compute; right; right; left; reflexivity|apply H2; simpl; lia].
Defined.

Lemma forallb_seq_at (f : nat -> bool) (a n j : nat) :
  forallb f (seq a n) = true -> (a <= j < a + n)%nat -> f j = true.
Proof.
  intros H Hj. rewrite forallb_forall in H. apply H. apply in_seq. exact Hj.
Qed.

Lemma isHigh_apart (data : list CandleData) (w i i' : nat) :
  isHigh data w i = true -> isHigh data w i' = true -> (i < i')%nat -> (w < i' - i)%nat.
Proof.
  intros H H' Hlt. destruct (Nat.lt_ge_cases w (i' - i)) as [Hw|Hw]; [exact Hw|].
  exfalso. unfold isHigh in *.
  apply (forallb_seq_at _ 1 w (i' - i)) in H; [|lia].
  apply (forallb_seq_at _ 1 w (i' - i)) in H'; [|lia].
  apply negb_true_iff, orb_false_iff in H. destruct H as [_ H].
  apply negb_true_iff, orb_false_iff in H'. destruct H' as [H' _].
  replace (i + (i' - i))%nat with i' in H by lia.
  replace (i' - (i' - i))%nat with i in H' by lia.
  assert (H1 : ~ (c_high (at_ data i) <= c_high (at_ data i'))%Q)
    by (intros Hc; apply Qleb_le in Hc; congruence).
  assert (H2 : ~ (c_high (at_ data i') <= c_high (at_ data i))%Q)
    by (intros Hc; apply Qleb_le in Hc; congruence).
  lra.
Qed.

Lemma isLow_apart (data : list CandleData) (w i i' : nat) :
  isLow data w i = true -> isLow data w i' = true -> (i < i')%nat -> (w < i' - i)%nat.
Proof.
  intros H H' Hlt. destruct (Nat.lt_ge_cases w (i' - i)) as [Hw|Hw]; [exact Hw|].
  exfalso. unfold isLow in *.
  apply (forallb_seq_at _ 1 w (i' - i)) in H; [|lia].
  apply (forallb_seq_at _ 1 w (i' - i)) in H'; [|lia].
  apply negb_true_iff, orb_false_iff in H. destruct H as [_ H].
  apply negb_true_iff, orb_false_iff in H'. destruct H' as [H' _].
  replace (i + (i' - i))%nat with i' in H by lia.
  replace (i' - (i' - i))%nat with i in H' by lia.
  assert (H1 : ~ (c_low (at_ data i') <= c_low (at_ data i))%Q)
    by (intros Hc; apply Qgeb_ge in Hc; congruence).
  assert (H2 : ~ (c_low (at_ data i) <= c_low (at_ data i'))%Q)
    by (intros Hc; apply Qgeb_ge in Hc; congruence).
  lra.
Qed.

(** X10: Two pivot highs are more than [swingLength] bars apart, and so are two
    pivot lows: within the lookback window of a pivot there is no second
    pivot of its kind. *)
Theorem pivots_apart (data : list CandleData) (swingLength : nat) (p p' : Pivot) :
  (In p (pivotHighs data swingLength) /\ In p' (pivotHighs data swingLength))
  \/ (In p (pivotLows data swingLength) /\ In p' (pivotLows data swingLength)) ->
  (p_index p < p_index p')%nat ->
  (swingLength < p_index p' - p_index p)%nat.
Proof.
  intros [[H H']|[H H']] Hlt.
  - apply pivotHighs_In in H. destruct H as [i [_ [Hh ->]]].
    apply pivotHighs_In in H'. destruct H' as [i' [_ [Hh' ->]]].
    simpl in *. apply (isHigh_apart data swingLength i i' Hh Hh' Hlt).
  - apply pivotLows_In in H. destruct H as [i [_ [Hh ->]]].
    apply pivotLows_In in H'. destruct H' as [i' [_ [Hh' ->]]].
    simpl in *. apply (isLow_apart data swingLength i i' Hh Hh' Hlt).
Qed.

Lemma pivots_apart_witness :
  (1 < p_index (mkPivot 3 13 High) - p_index (mkPivot 1 12 High))%nat.
Proof.
  apply (pivots_apart swing_bars 1 (mkPivot 1 12 High) (mkPivot 3 13 High)).
  - left. split; vm_compute; [left|right; left]; reflexivity.
  - simpl. lia.
Defined.

(** ** Fair value gaps: bands and survival *)

Lemma time_ascending_lt (data : list CandleData) (i j : nat) :
  time_ascending data -> (i < j < length data)%nat ->
  c_time (at_ data i) < c_time (at_ data j).
Proof.
  unfold time_ascending, at_. revert i j.
  induction data as [|d rest IH]; intros i j Hs Hij; simpl in Hij; [lia|].
  simpl in Hs. apply StronglySorted_inv in Hs. destruct Hs as [Hr Hd].
  destruct i as [|i], j as [|j]; simpl; try lia.
  - rewrite Forall_forall in Hd. apply Hd. apply in_map. apply nth_In. lia.
  - apply IH; [exact Hr|lia].
Qed.

(** X12: Every gap returned has a band of positive height, is unmitigated, and
    carries the silver-bullet flag of the hour of its timestamp, which is
    the timestamp of the middle bar of its triplet.  Fewer than three bars
    give no gap. *)
Theorem gap_bands (data : list CandleData) (g : FVG) :
  (In g (detectFVG data) ->
   (f_priceLow g < f_priceHigh g)%Q
   /\ f_mitigated g = false
   /\ f_isSilverBullet g = isSilverBullet (f_time g)
   /\ exists i, (2 <= i < length data)%nat /\ f_time g = c_time (at_ data (i - 1)))
  /\ ((length data < 3)%nat -> detectFVG data = []).
Proof.
  split.
  - intros H. apply detectFVG_In in H. destruct H as [H _].
    apply fvg_candidates_In in H. destruct H as [i [Hi H]].
    apply fvg_at_In in H. destruct H as [[-> Hb]|[-> Hb]]; simpl;
      (split; [exact Hb|]); (split; [reflexivity|]); (split; [reflexivity|]);
      exists i; auto.
  - intros H. unfold detectFVG, fvg_candidates.
    replace (length data - 2)%nat with 0%nat by lia. reflexivity.
Qed.

Lemma gap_bands_witness :
  (f_priceLow (mkFVG 120 105 100 Bullish false false)
   < f_priceHigh (mkFVG 120 105 100 Bullish false false))%Q
  /\ detectFVG (firstn 2 fvg_triplet) = [].
Proof.
  pose proof (gap_bands fvg_triplet (mkFVG 120 105 100 Bullish false false)) as [H1 _].
  pose proof (gap_bands (firstn 2 fvg_triplet) (mkFVG 120 105 100 Bullish false false))
    as [_ H2].
  split; [apply H1; vm_compute; left; reflexivity|apply H2; simpl; lia].
Defined.

(** X13: On bars in strictly ascending order of timestamp, the gaps returned are
    those of the triplets ending at some index [i] that no bar of a later
    index mitigates: the third bar of the triplet, though later than the
    gap's timestamp, cannot mitigate it.  In particular a gap formed by
    the last three bars is always returned. *)
Theorem gaps_by_index (data : list CandleData) (g : FVG) :
  time_ascending data ->
  (In g (detectFVG data) <->
   exists i, (2 <= i < length data)%nat /\ In g (fvg_at data i)
             /\ forall k, (i < k < length data)%nat -> ~ fvg_mitigates g (at_ data k))
  /\ ((3 <= length data)%nat -> In g (fvg_at data (length data - 1)) ->
      In g (detectFVG data)).
Proof.
  intros Hasc.
  assert (Hmain : In g (detectFVG data) <->
    exists i, (2 <= i < length data)%nat /\ In g (fvg_at data i)
              /\ forall k, (i < k < length data)%nat -> ~ fvg_mitigates g (at_ data k)).
  { rewrite detectFVG_In, fvg_candidates_In. split.
    - intros [[i [Hi Hg]] Hm]. exists i. split; [exact Hi|]. split; [exact Hg|].
      intros k Hk. apply Hm; [apply at_In; lia|].
      assert (Ht : f_time g = c_time (at_ data (i - 1)))
        by (apply fvg_at_In in Hg; destruct Hg as [[-> _]|[-> _]]; reflexivity).
      rewrite Ht. pose proof (time_ascending_lt data (i - 1) k Hasc ltac:(lia)). lia.
    - intros [i [Hi [Hg Hm]]]. split; [exists i; auto|].
      intros d Hd Ht. apply (In_nth _ _ candle0) in Hd. destruct Hd as [k [Hk <-]].
      fold (at_ data k) in *.
      assert (Htg : f_time g = c_time (at_ data (i - 1)))
        by (apply fvg_at_In in Hg; destruct Hg as [[-> _]|[-> _]]; reflexivity).
      rewrite Htg in Ht.
      assert (Hik : (i <= k)%nat).
      { destruct (Nat.le_gt_cases i k) as [H|H]; [exact H|].
        pose proof (time_ascending_at data k (i - 1) Hasc ltac:(lia)). lia. }
      destruct (Nat.eq_dec k i) as [->|Hne]; [|apply Hm; lia].
      apply fvg_at_In in Hg. unfold fvg_mitigates.
      destruct Hg as [[-> Hb]|[-> Hb]]; simpl; intros [[Hd Hc]|[Hd Hc]];
        try discriminate; lra. }
  split; [exact Hmain|].
  intros Hn Hg. apply Hmain. exists (length data - 1)%nat.
  split; [lia|]. split; [exact Hg|]. intros k Hk. lia.
Qed.

Lemma fvg_triplet_ascending : time_ascending fvg_triplet.
Proof.
  unfold time_ascending. simpl.
  repeat (constructor; [|repeat (constructor; try lia)]). constructor.
Qed.

Lemma gaps_by_index_witness :
  In (mkFVG 120 105 100 Bullish false false) (detectFVG fvg_triplet).
Proof.
  apply (gaps_by_index fvg_triplet (mkFVG 120 105 100 Bullish false false)
           fvg_triplet_ascending).
  - simpl. lia.
  - vm_compute. left. reflexivity.
Defined.

(** ** Impulse zones: anchors *)

Lemma ob_at_cases (data : list CandleData) (m : Q) (i : nat) (c : OrderBlock) :
  In c (ob_at data m i) ->
  (c = mkOB (c_time (at_ data i)) (c_high (at_ data i)) (c_low (at_ data i))
            Bullish false Standard
   /\ (c_close (at_ data i) < c_open (at_ data i))%Q
   /\ (c_high (at_ data i) < c_close (at_ data (i + 1)))%Q)
  \/ (c = mkOB (c_time (at_ data i)) (c_high (at_ data i)) (c_low (at_ data i))
               Bearish false Standard
      /\ (c_open (at_ data i) < c_close (at_ data i))%Q
      /\ (c_close (at_ data (i + 1)) < c_low (at_ data i))%Q).
Proof.
  unfold ob_at. intros H. apply in_app_or in H. destruct H as [H|H].
  - match type of H with In _ (if ?b then _ else _) => destruct b eqn:E end;
      [|destruct H]. destruct H as [<-|[]]. left.
    apply andb_true_iff in E. destruct E as [E E3].
    apply andb_true_iff in E. destruct E as [E1 _].
    apply Qltb_lt in E1. apply Qgtb_gt in E3. auto.
  - match type of H with In _ (if ?b then _ else _) => destruct b eqn:E end;
      [|destruct H]. destruct H as [<-|[]]. right.
    apply andb_true_iff in E. destruct E as [E E3].
    apply andb_true_iff in E. destruct E as [E1 _].
    apply Qgtb_gt in E1. apply Qltb_lt in E3. auto.
Qed.

Lemma length_slice_last {A} (n : nat) (l : list A) : (length (slice_last n l) <= n)%nat.
Proof. unfold slice_last. rewrite length_skipn. lia. Qed.

Lemma ob_lifecycle_cases (data : list CandleData) (c : OrderBlock) :
  ob_subtype c = Standard -> ob_mitigated (ob_lifecycle data c) = false ->
  ob_lifecycle data c = c
  \/ ob_lifecycle data c = ob_flip c (opposite (ob_direction c)).
Proof.
  intros Hs Hm. unfold ob_lifecycle in *.
  destruct (findIndex (fun d => c_time d =? ob_time c) data) as [k|]; [|left; reflexivity].
  rewrite (ob_scan_standard _ c Hs) in *. unfold lifecycle_spec in *.
  destruct (findIndex (breaks (ob_direction c) c) (skipn (k + 1) data)) as [j|];
    [|left; reflexivity].
  destruct (existsb (breaks (opposite (ob_direction c)) c) (skipn (S j) (skipn (k + 1) data)));
    [simpl in Hm; discriminate|right; reflexivity].
Qed.

(** X14: The detector returns at most 10 zones.  Each is anchored at a bar [i]
    with [2 <= i] and [i + 3 < n]: it has that bar's timestamp and its
    [low, high] band, and the next bar closed beyond the band.  A zone on a
    down-close bar is Bullish if Standard and Bearish if a Breaker, a zone on
    an up-close bar the reverse; no zone has the subtype Swing.  Five bars
    or fewer give no zone. *)
Theorem zone_anchors (data : list CandleData) (thresholdMult : Q) (ob : OrderBlock) :
  (length (detectOrderBlocks data thresholdMult) <= 10)%nat
  /\ (In ob (detectOrderBlocks data thresholdMult) ->
      exists i, (2 <= i /\ i + 3 < length data)%nat /\ anchored_at data i ob)
  /\ ((length data <= 5)%nat -> detectOrderBlocks data thresholdMult = []).
Proof.
  split; [apply length_slice_last|]. split.
  - intros H. apply detectOrderBlocks_In in H. destruct H as [Hm [c [Hc ->]]].
    apply ob_candidates_In in Hc. destruct Hc as [i [Hi Hc]]. exists i. split; [exact Hi|].
    apply ob_at_cases in Hc. unfold anchored_at.
    destruct Hc as [[-> [H1 H2]]|[-> [H1 H2]]];
      match goal with
      | |- context [ob_lifecycle data ?c] =>
          destruct (ob_lifecycle_cases data c eq_refl Hm) as [E|E]; rewrite E; simpl
      end; repeat (split; [reflexivity|]); [left|left|right|right]; auto.
  - intros H. unfold detectOrderBlocks, ob_candidates.
    replace (length data - 3 - 2)%nat with 0%nat by lia. reflexivity.
Qed.

Lemma zone_anchors_witness :
  anchored_at (zone_prefix ++ [zone_break; zone_quiet 300]) 2
              (mkOB 120 103 99 Bearish false Breaker).
Proof.
  pose proof (zone_anchors (zone_prefix ++ [zone_break; zone_quiet 300]) (12 # 10)
                (mkOB 120 103 99 Bearish false Breaker)) as [_ [H _]].
  destruct H as [i [Hi Ha]]; [vm_compute; left; reflexivity|].
  assert (Hi2 : i = 2%nat) by (simpl in Hi; lia). subst i. exact Ha.
Defined.

(** ** Higher timeframe *)

(** X15: The higher timeframe is 1h, 4h or 1d; it is 1h exactly for the
    scalping timeframes (1m, 3m, 5m), 4h exactly for 15m and 30m, and it
    never equals the chart's own timeframe except for 1d. *)
Theorem getHtf_levels (tf : string) :
  (getHtf tf = "1h" \/ getHtf tf = "4h" \/ getHtf tf = "1d")%string
  /\ (getHtf tf = "1h"%string <-> isScalping tf = true)
  /\ (getHtf tf = "4h"%string <-> tf = "15m"%string \/ tf = "30m"%string)
  /\ (getHtf tf = tf -> tf = "1d"%string).
Proof.
  unfold getHtf, isScalping, includes. simpl existsb.
  destruct (String.eqb_spec tf "1m"); [subst; simpl; intuition congruence|].
  destruct (String.eqb_spec tf "3m"); [subst; simpl; intuition congruence|].
  destruct (String.eqb_spec tf "5m"); [subst; simpl; intuition congruence|].
  destruct (String.eqb_spec tf "15m"); [subst; simpl; intuition congruence|].
  destruct (String.eqb_spec tf "30m"); [subst; simpl; intuition congruence|].
  destruct (String.eqb_spec tf "1h"); [subst; simpl; intuition congruence|].
  destruct (String.eqb_spec tf "4h"); [subst; simpl; intuition congruence|].
  simpl. intuition congruence.
Qed.

Lemma getHtf_levels_witness : isScalping "5m" = true.
Proof.
  apply (getHtf_levels "5m"). reflexivity.
Defined.

(** ** Top setups *)

(** X16: The top setups are the three entries with the highest scores, in
    descending order of score (all of them when there are fewer than
    three), and the list of entries itself is left as it is. *)
Theorem top3_highest_scores (entries : list EntrySignal) :
  most_recent s_score 3 entries (top3 entries)
  /\ (length (top3 entries) <= 3)%nat
  /\ forall e, In e (top3 entries) -> In e entries.
Proof.
  unfold top3, slice_first. split; [apply (firstn_sort_most_recent s_score)|].
  split; [rewrite length_firstn; apply Nat.le_min_l|].
  intros e He. rewrite <- (firstn_skipn 3) in He.
  assert (H : In e (sort_by (fun a b => s_score b - s_score a <=? 0) entries)).
  { rewrite <- (firstn_skipn 3). apply in_or_app. left.
    rewrite firstn_skipn in He. exact He. }
  apply (Permutation_in _ (Permutation_sym (sort_by_perm _ _)) H).
Qed.

Lemma top3_highest_scores_witness :
  In (nth 0 (top3 day_signals) bt_signal) day_signals.
Proof.
  apply (top3_highest_scores day_signals). vm_compute. left. reflexivity.
Defined.

(** ** Session killzones *)

(** X17: With the killzones shown, a bar is shaded exactly when [getSession]
    gives it a session.  Where two windows overlap the chart paints the
    later window while [getSession] names the earlier one: the colour is
    that of the bar's session except at the hours 7 and 12 to 15.  With the
    killzones hidden nothing is shaded. *)
Theorem killzone_vs_session (h : Z) :
  fst (killzone true h) = session_score (getSession h)
  /\ (snd (killzone true h) = session_color (getSession h)
      <-> ~ (h = 7 \/ 12 <= h <= 15))
  /\ killzone false h = (0, "transparent"%string).
Proof.
  unfold killzone, getSession.
  destruct (Z.leb_spec 0 h), (Z.ltb_spec h 8), (Z.leb_spec 7 h), (Z.ltb_spec h 16),
           (Z.leb_spec 12 h), (Z.ltb_spec h 21);
    simpl; try lia;
    (split; [reflexivity|]); (split; [|reflexivity]);
    (split; [intros E; try discriminate E; lia|intros E; try reflexivity; exfalso; lia]).
Qed.

Lemma killzone_vs_session_witness :
  snd (killzone true 3) = session_color (getSession 3).
Proof.
  apply (killzone_vs_session 3). lia.
Defined.

(** ** Equity curve bars *)

Lemma fold_Zmin_le (r : list Z) (x : Z) :
  fold_left Z.min r x <= x /\ forall y, In y r -> fold_left Z.min r x <= y.
Proof.
  revert x. induction r as [|a r IH]; intros x; simpl.
  - split; [lia|intros y []].
  - destruct (IH (Z.min x a)) as [H1 H2]. split; [lia|].
    intros y [<-|Hy]; [lia|apply H2; exact Hy].
Qed.

Lemma fold_Zmax_ge (r : list Z) (x : Z) :
  x <= fold_left Z.max r x /\ forall y, In y r -> y <= fold_left Z.max r x.
Proof.
  revert x. induction r as [|a r IH]; intros x; simpl.
  - split; [lia|intros y []].
  - destruct (IH (Z.max x a)) as [H1 H2]. split; [lia|].
    intros y [<-|Hy]; [lia|apply H2; exact Hy].
Qed.

Lemma Zmin_max_of (xs : list Z) (y : Z) : In y xs -> Zmin_of xs <= y <= Zmax_of xs.
Proof.
  destruct xs as [|x r]; [intros []|]. unfold Zmin_of, Zmax_of.
  destruct (fold_Zmin_le r x) as [H1 H2]. destruct (fold_Zmax_ge r x) as [H3 H4].
  intros [<-|Hy]; [lia|]. specialize (H2 y Hy). specialize (H4 y Hy). lia.
Qed.

(** X18: Every bar of the equity chart has a height between 0 and 100 percent:
    the lowest balance gets 0 and, unless the curve is flat, the highest
    gets 100; on a flat curve every bar has height 0. *)
Theorem bar_heights_bounded (curve : list Z) (val : Z) :
  In val curve ->
  (0 <= bar_height curve val <= 100)%Q
  /\ (val = Zmin_of curve -> (bar_height curve val == 0)%Q)
  /\ (val = Zmax_of curve -> Zmin_of curve < Zmax_of curve ->
      (bar_height curve val == 100)%Q)
  /\ (Zmin_of curve = Zmax_of curve -> (bar_height curve val == 0)%Q).
Proof.
  intros Hin. pose proof (Zmin_max_of curve val Hin) as Hb.
  unfold bar_height. cbv zeta.
  set (lo := Zmin_of curve) in *. set (hi := Zmax_of curve) in *.
  assert (Hzero : forall r, (inject_Z 0 / inject_Z r * 100 == 0)%Q)
    by (intros r; unfold Qdiv; rewrite Qmult_0_l, Qmult_0_l; reflexivity).
  destruct (Z.eqb_spec (hi - lo) 0) as [E|E].
  - assert (Hv : val - lo = 0) by lia. rewrite Hv.
    repeat split; intros; try (rewrite (Hzero 1); lra); try lia; apply Hzero.
  - pose proof (Qdiv_unit_interval (val - lo) (hi - lo) ltac:(lia) ltac:(lia)) as Hq.
    split; [lra|]. split; [|split].
    + intros ->. replace (lo - lo) with 0 by lia. apply Hzero.
    + intros -> _. assert (H1 : (inject_Z (hi - lo) / inject_Z (hi - lo) == 1)%Q).
      { apply Qmult_inv_r. intros H0. apply E.
        unfold Qeq in H0. simpl in H0. lia. }
      rewrite H1. reflexivity.
    + intros H. lia.
Qed.

Lemma bar_heights_bounded_witness :
  let curve := [100000; 99000; 101000] in
  (0 <= bar_height curve 99000 <= 100)%Q /\ (bar_height curve 101000 == 100)%Q.
Proof.
  intros curve.
  pose proof (bar_heights_bounded curve 99000 ltac:(right; left; reflexivity)) as [H1 _].
  pose proof (bar_heights_bounded curve 101000 ltac:(right; right; left; reflexivity))
    as [_ [_ [H2 _]]].
  split; [exact H1|]. apply H2; [reflexivity|reflexivity].
Defined.

(** ** Paper trading: the position monitor *)

Lemma Qleb_false (x y : Q) : (y < x)%Q -> Qleb x y = false.
Proof.
  intros H. destruct (Qleb x y) eqn:E; [|reflexivity].
  apply Qleb_le in E. lra.
Qed.

Lemma length_nonempty {A} (l : list A) : l <> [] -> (length l =? 0)%nat = false.
Proof. destruct l; [congruence|reflexivity]. Qed.

(** X19: A Long position whose stop lies below its target is closed at most
    once: when the last close reaches the target or the stop, the balance
    moves by [close - price], one record is added to the history and the
    position is cleared; between stop and target nothing changes. *)
Theorem long_monitor (data : list CandleData) (st : Account) (p : TradeEntry) :
  position st = Some p -> t_type p = LONG -> data <> [] ->
  (t_stopLoss p < t_takeProfit p)%Q ->
  let currentPrice := c_close (last_candle data) in
  let pnl := ((currentPrice - t_price p) * 1)%Q in
  ((t_takeProfit p <= currentPrice)%Q \/ (currentPrice <= t_stopLoss p)%Q ->
   monitor data st = closeTrade (Some p) pnl st
   /\ (balance (monitor data st) == balance st + (currentPrice - t_price p))%Q
   /\ position (monitor data st) = None
   /\ length (tradeHistory (monitor data st)) = S (length (tradeHistory st)))
  /\ ((t_stopLoss p < currentPrice)%Q /\ (currentPrice < t_takeProfit p)%Q ->
      monitor data st = st).
Proof.
  intros Hp Ht Hd Hst currentPrice pnl. unfold monitor.
  rewrite Hp, Ht, (length_nonempty data Hd). fold currentPrice. fold pnl.
  split.
  - intros Hc.
    assert (E : (if Qleb currentPrice (t_stopLoss p)
                 then closeTrade (Some p) pnl
                        (if Qgeb currentPrice (t_takeProfit p)
                         then closeTrade (Some p) pnl st else st)
                 else if Qgeb currentPrice (t_takeProfit p)
                      then closeTrade (Some p) pnl st else st)
                = closeTrade (Some p) pnl st).
    { destruct Hc as [Hc|Hc].
      - rewrite (proj2 (Qgeb_ge _ _) Hc), Qleb_false by lra. reflexivity.
      - rewrite (proj2 (Qleb_le _ _) Hc).
        unfold Qgeb. rewrite Qleb_false by lra. reflexivity. }
    rewrite E. simpl. repeat split; try reflexivity. unfold pnl. lra.
  - intros [H1 H2]. rewrite Qleb_false by lra. unfold Qgeb. rewrite Qleb_false by lra.
    reflexivity.
Qed.

Lemma long_monitor_witness :
  monitor cd_data (mkAccount 100000 (Some long_position) [])
  = mkAccount 100000 (Some long_position) [].
Proof.
  apply (long_monitor cd_data (mkAccount 100000 (Some long_position) []) long_position
           eq_refl eq_refl).
  - discriminate.
  - reflexivity.
  - split; reflexivity.
Defined.

(** X20: A Short position whose target lies at or below its stop is closed
    twice when the last close reaches the target: both tests of the
    monitor hold and both calls of [closeTrade] see the open position, so
    the profit [(price - close) * 1] is added to the balance twice, one
    addition after the other, and the history gets two records of the
    same trade. *)
Theorem short_target_closed_twice (data : list CandleData) (st : Account)
    (p : TradeEntry) :
  position st = Some p -> t_type p = SHORT -> data <> [] ->
  (t_takeProfit p <= t_stopLoss p)%Q ->
  let currentPrice := c_close (last_candle data) in
  let pnl := ((t_price p - currentPrice) * 1)%Q in
  (currentPrice <= t_takeProfit p)%Q ->
  monitor data st = closeTrade (Some p) pnl (closeTrade (Some p) pnl st)
  /\ balance (monitor data st) = (balance st + pnl + pnl)%Q
  /\ position (monitor data st) = None
  /\ exists r, tradeHistory (monitor data st) = r :: r :: tradeHistory st
               /\ t_pnl r = Some pnl.
Proof.
  intros Hp Ht Hd Hst currentPrice pnl Hc. unfold monitor.
  rewrite Hp, Ht, (length_nonempty data Hd). fold currentPrice. fold pnl.
  rewrite (proj2 (Qleb_le _ _) Hc).
  assert (Hs : Qleb currentPrice (t_stopLoss p) = true) by (apply Qleb_le; lra).
  rewrite Hs. simpl. split; [reflexivity|]. split; [reflexivity|].
  split; [reflexivity|]. eexists. split; reflexivity.
Qed.

Lemma short_target_closed_twice_witness :
  let data := [mkCandle 60 99 99 97 98] in
  balance (monitor data (mkAccount 100000 (Some short_position) []))
  = (100000 + (102 - 98) * 1 + (102 - 98) * 1)%Q.
Proof.
  intros data.
  apply (short_target_closed_twice data (mkAccount 100000 (Some short_position) [])
           short_position eq_refl eq_refl).
  - discriminate.
  - vm_compute. discriminate.
  - vm_compute. discriminate.
Defined.

(** X21: The stop of a Short position is tested with [<=], like its target: the
    position stays open however far the last close rises above the stop,
    and it is closed, once, as soon as the last close is at or below the
    stop while above the target, which includes the entry price itself. *)
Theorem short_stop_inverted (data : list CandleData) (st : Account) (p : TradeEntry) :
  position st = Some p -> t_type p = SHORT -> data <> [] ->
  (t_takeProfit p <= t_stopLoss p)%Q ->
  let currentPrice := c_close (last_candle data) in
  let pnl := ((t_price p - currentPrice) * 1)%Q in
  ((t_stopLoss p < currentPrice)%Q -> monitor data st = st)
  /\ ((t_takeProfit p < currentPrice)%Q /\ (currentPrice <= t_stopLoss p)%Q ->
      monitor data st = closeTrade (Some p) pnl st).
Proof.
  intros Hp Ht Hd Hst currentPrice pnl. unfold monitor.
  rewrite Hp, Ht, (length_nonempty data Hd). fold currentPrice. fold pnl.
  split.
  - intros H. rewrite !Qleb_false by lra. reflexivity.
  - intros [H1 H2]. rewrite (Qleb_false currentPrice (t_takeProfit p)) by lra.
    rewrite (proj2 (Qleb_le _ _) H2). reflexivity.
Qed.

Lemma short_stop_inverted_witness :
  let data := [mkCandle 60 105 111 105 110] in
  monitor data (mkAccount 100000 (Some short_position) [])
  = mkAccount 100000 (Some short_position) [].
Proof.
  intros data.
  apply (short_stop_inverted data (mkAccount 100000 (Some short_position) [])
           short_position eq_refl eq_refl).
  - discriminate.
  - vm_compute. discriminate.
  - vm_compute. reflexivity.
Defined.

(** ** Auto-trade *)

Lemma signal_at_sides (data : list CandleData) (obs : list OrderBlock) (fvgs : list FVG)
    (timeframe : string) (i : nat) (s : EntrySignal) :
  well_formed data -> (100 <= i < length data)%nat ->
  signal_at data obs fvgs timeframe i s ->
  s_time s = c_time (at_ data i) /\ s_price s = c_close (at_ data i)
  /\ match s_type s with
     | LONG => (s_sl s < s_price s)%Q /\ (s_price s < s_tp s)%Q
     | SHORT => (s_tp s < s_price s)%Q /\ (s_price s < s_sl s)%Q
     end.
Proof.
  intros Hw Hi [_ Hk].
  destruct (Hw (at_ data i) (at_In data i ltac:(lia))) as [H1 [H2 H3]].
  destruct Hk as [[_ ->]|[_ [_ ->]]].
  - pose proof (long_signal_stop data obs fvgs timeframe i ltac:(lia)) as Hsl.
    set (s := long_signal data obs fvgs timeframe i) in *.
    assert (Htp : s_tp s = (c_close (at_ data i) + (c_close (at_ data i) - s_sl s) * 2)%Q)
      by reflexivity.
    assert (Hp : s_price s = c_close (at_ data i)) by reflexivity.
    change (s_type s) with LONG. cbv iota. rewrite Htp, Hp.
    split; [reflexivity|]. split; [reflexivity|]. lra.
  - pose proof (short_signal_stop data obs fvgs timeframe i ltac:(lia)) as Hsl.
    set (s := short_signal data obs fvgs timeframe i) in *.
    assert (Htp : s_tp s = (c_close (at_ data i) - (s_sl s - c_close (at_ data i)) * 2)%Q)
      by reflexivity.
    assert (Hp : s_price s = c_close (at_ data i)) by reflexivity.
    change (s_type s) with SHORT. cbv iota. rewrite Htp, Hp.
    split; [reflexivity|]. split; [reflexivity|]. lra.
Qed.

Lemma last_candle_at (data : list CandleData) :
  last_candle data = at_ data (length data - 1).
Proof.
  unfold last_candle, at_. induction data as [|d r IH]; [reflexivity|].
  destruct r as [|e r']; [reflexivity|].
  change (last (d :: e :: r') candle0) with (last (e :: r') candle0). rewrite IH.
  simpl length. replace (S (S (length r')) - 1)%nat with (S (length r')) by lia.
  simpl. replace (length r' - 0)%nat with (length r') by lia. reflexivity.
Qed.

Lemma at_time_unique (data : list CandleData) (i j : nat) :
  NoDup (map c_time data) -> (i < length data)%nat -> (j < length data)%nat ->
  c_time (at_ data i) = c_time (at_ data j) -> i = j.
Proof.
  intros Hnd Hi Hj H.
  apply (proj1 (NoDup_nth (map c_time data) (c_time candle0)) Hnd);
    rewrite ?length_map; try assumption.
  rewrite !map_nth. exact H.
Qed.

Lemma autoTradeSignal_Some (pos : option TradeEntry) (candles : list CandleData)
    (entries : list EntrySignal) (s : EntrySignal) :
  autoTradeSignal true pos candles entries = Some s ->
  pos = None /\ In s entries
  /\ s_time s = c_time (last_candle candles) /\ 8 <= s_score s.
Proof.
  unfold autoTradeSignal. destruct pos as [p|]; simpl; [discriminate|].
  destruct (0 <? length entries)%nat; [|discriminate].
  destruct (rev entries) as [|x r] eqn:E; [discriminate|].
  destruct (Z.eqb_spec (s_time x) (c_time (last_candle candles))) as [Ht|Ht];
    [|discriminate].
  destruct (Z.geb_spec (s_score x) 8) as [Hs|Hs]; simpl; [|discriminate].
  intros [= <-]. split; [reflexivity|]. split; [|split; [exact Ht|lia]].
  apply in_rev. rewrite E. left. reflexivity.
Qed.

(** X22: An auto-traded signal sits on the last bar, so the monitor first sees
    the entry price as the last close.  On bars with unique timestamps
    whose close is positive and between low and high, a Long position
    opened by auto-trade stays open on that data, while a Short one is
    closed at once, with a pnl of zero, the balance unchanged, and recorded
    as a loss. *)
Theorem auto_trade_first_check (now : Z) (data : list CandleData) (obs : list OrderBlock)
    (fvgs : list FVG) (timeframe : string) (st : Account) (s : EntrySignal) :
  well_formed data -> NoDup (map c_time data) ->
  autoTradeSignal true (position st) data (detectEntries data obs fvgs timeframe) = Some s ->
  let opened := autoTrade_step now true data (detectEntries data obs fvgs timeframe) st in
  8 <= s_score s
  /\ match s_type s with
     | LONG => monitor data opened = opened
     | SHORT =>
         position (monitor data opened) = None
         /\ (balance (monitor data opened) == balance st)%Q
         /\ exists r, tradeHistory (monitor data opened) = r :: tradeHistory st
                      /\ t_result r = Some T_LOSS
                      /\ exists pnl, t_pnl r = Some pnl /\ (pnl == 0)%Q
     end.
Proof.
  intros Hw Hnd Hsig opened.
  pose proof (autoTradeSignal_Some _ _ _ _ Hsig) as [Hpos [Hin [Htime Hscore]]].
  split; [exact Hscore|].
  apply detectEntries_In in Hin. destruct Hin as [i [Hi Hat]].
  destruct (signal_at_sides data obs fvgs timeframe i s Hw Hi Hat) as [Ht [Hp Hside]].
  assert (Hlast : last_candle data = at_ data i).
  { rewrite last_candle_at in *. f_equal.
    apply (at_time_unique data _ _ Hnd); [lia|lia|]. congruence. }
  assert (Hne : (length data =? 0)%nat = false)
    by (destruct data; [simpl in Hi; lia|reflexivity]).
  unfold opened, autoTrade_step. rewrite Hsig. unfold monitor, enterTrade.
  cbn [position t_type t_price t_stopLoss t_takeProfit]. rewrite Hne, Hlast, <- Hp.
  destruct (s_type s); destruct Hside as [H1 H2].
  - unfold Qgeb. rewrite !Qleb_false by lra. reflexivity.
  - rewrite (Qleb_false (s_price s) (s_tp s)) by lra.
    rewrite (proj2 (Qleb_le (s_price s) (s_sl s))) by lra.
    unfold closeTrade. cbn [position balance tradeHistory].
    split; [reflexivity|]. split; [lra|].
    eexists. split; [reflexivity|]. cbn [t_result t_pnl]. split.
    + assert (E : Qgtb ((s_price s - s_price s) * 1) 0 = false).
      { unfold Qgtb. destruct (Qltb 0 ((s_price s - s_price s) * 1)) eqn:E; [|reflexivity].
        apply Qltb_lt in E. lra. }
      rewrite E. reflexivity.
    + eexists. split; [reflexivity|]. lra.
Qed.

Lemma sd_data_well_formed : well_formed sd_data.
Proof.
  intros d Hd. unfold sd_data in Hd. apply in_map_iff in Hd. destruct Hd as [k [<- _]].
  unfold sd_bar. destruct (k <? 100)%nat; simpl; repeat split; unfold Qle, Qlt; simpl; lia.
Qed.

Lemma sd_data_times : NoDup (map c_time sd_data).
Proof.
  unfold sd_data. rewrite map_map.
  apply Finite.Injective_map_NoDup; [|apply seq_NoDup].
  intros x y. unfold sd_bar.
  destruct (x <? 100)%nat, (y <? 100)%nat; cbn [c_time]; intros H; lia.
Qed.

Lemma auto_trade_first_check_witness :
  let entries := detectEntries sd_data sd_obs sd_fvgs "5m" in
  let st := mkAccount 100000 None [] in
  s_type (nth 0 entries bt_signal) = SHORT
  /\ position (monitor sd_data (autoTrade_step 0 true sd_data entries st)) = None.
Proof.
  intros entries st.
  assert (Hs : s_type (nth 0 entries bt_signal) = SHORT) by (vm_compute; reflexivity).
  split; [exact Hs|].
  pose proof (auto_trade_first_check 0 sd_data sd_obs sd_fvgs "5m" st
                (nth 0 entries bt_signal) sd_data_well_formed sd_data_times) as H.
  destruct H as [_ H]; [vm_compute; reflexivity|].
  rewrite Hs in H. destruct H as [H _]. exact H.
Defined.

(** ** Swing structure: chronological order *)

Section SortByIndex.

Let le (a b : Pivot) : bool := Nat.leb (p_index a) (p_index b).
Let R (a b : Pivot) : Prop := (p_index a <= p_index b)%nat.

Lemma insert_by_index_sorted (x : Pivot) (l : list Pivot) :
  StronglySorted R l -> StronglySorted R (insert_by le x l).
Proof.
  induction l as [|y r IH]; intros Hs; simpl.
  - constructor; constructor.
  - apply StronglySorted_inv in Hs. destruct Hs as [Hr Hy].
    unfold le at 1. destruct (Nat.leb_spec (p_index x) (p_index y)) as [H|H].
    + constructor; [constructor; assumption|].
      constructor; [exact H|].
      eapply Forall_impl; [|exact Hy]. unfold R. intros z Hz. simpl in Hz. lia.
    + constructor; [apply IH; exact Hr|].
      apply (Permutation_Forall (insert_by_perm le x r)).
      constructor; [unfold R; lia|exact Hy].
Qed.

Lemma allPivots_sorted (data : list CandleData) (w : nat) :
  StronglySorted R (allPivots data w).
Proof.
  unfold allPivots. fold le.
  induction (pivotHighs data w ++ pivotLows data w) as [|x r IH]; simpl; [constructor|].
  apply insert_by_index_sorted. exact IH.
Qed.

End SortByIndex.

Lemma ascending_remove (l1 l2 : list Z) (x : Z) :
  ascending (l1 ++ x :: l2) -> ascending (l1 ++ l2).
Proof.
  unfold ascending. induction l1 as [|a r IH]; simpl; intros H.
  - apply StronglySorted_inv in H. apply H.
  - apply StronglySorted_inv in H. destruct H as [Hr Ha]. constructor; [apply IH; exact Hr|].
    rewrite Forall_forall in *. intros y Hy. apply Ha.
    apply in_app_or in Hy. apply in_or_app. destruct Hy; [left|right; right]; assumption.
Qed.

Lemma swing_fold_ascending (data : list CandleData) (l : list Pivot) (st : SwingState) :
  ascending (map sp_time (points st)
             ++ map (fun p => c_time (at_ data (p_index p))) l) ->
  ascending (map sp_time (points (fold_left (swing_step data) l st))).
Proof.
  revert st. induction l as [|p r IH]; intros st H; simpl in *.
  - rewrite app_nil_r in H. exact H.
  - apply IH. unfold swing_step.
    destruct (p_kind p).
    + destruct (lastHigh st) as [lh|]; simpl.
      * rewrite map_app, <- app_assoc. simpl.
        destruct (Qgtb (p_price p) (p_price lh)); exact H.
      * apply (ascending_remove _ _ _ H).
    + destruct (lastLow st) as [ll|]; simpl.
      * rewrite map_app, <- app_assoc. simpl.
        destruct (Qltb (p_price p) (p_price ll)); exact H.
      * apply (ascending_remove _ _ _ H).
Qed.

(** X11: On bars in ascending order of timestamp the StructurePoints come out in
    chronological order, as the chart markers need them. *)
Theorem structure_points_chronological (data : list CandleData) (swingLength : nat) :
  time_ascending data ->
  ascending (map sp_time (detectStructure data swingLength)).
Proof.
  intros Hasc. unfold detectStructure. apply swing_fold_ascending. simpl.
  pose proof (allPivots_sorted data swingLength) as Hs.
  assert (Hin : forall p, In p (allPivots data swingLength) ->
                          (p_index p < length data)%nat).
  { intros p Hp. apply allPivots_pivot_of in Hp. destruct Hp as [Hp _]. lia. }
  induction Hs as [|a r Hr IH Ha]; simpl; [constructor|].
  constructor.
  - apply IH. intros p Hp. apply Hin. right. exact Hp.
  - rewrite Forall_forall in *. intros t Ht. apply in_map_iff in Ht.
    destruct Ht as [p [<- Hp]]. apply time_ascending_at; [exact Hasc|].
    specialize (Ha p Hp). simpl in Ha. specialize (Hin p (or_intror Hp)). lia.
Qed.

Lemma swing_bars_ascending : time_ascending swing_bars.
Proof.
  unfold time_ascending. simpl.
  repeat (constructor; [|repeat (constructor; try lia)]). constructor.
Qed.

Lemma structure_points_chronological_witness :
  ascending (map sp_time (detectStructure swing_bars 1)).
Proof.
  apply (structure_points_chronological swing_bars 1 swing_bars_ascending).
Defined.
